(** * MedReminder: the record repository and the scheduling predicate

    A shallow embedding of [utils/storage.ts] (the AsyncStorage-backed
    repository of medications and dose history) and of
    [isMedicationScheduledForDate] from the calendar screen, together with
    the properties the specification states about them.

    The second half of the file adds [getTodaysDoses] and the calendar
    screen that calls the repository: [loadData], [getDaysInMonth],
    [renderCalendar], [renderMedicationsForDate] and the Take button.

    Left out: the [console.log] calls of the scheduling predicate, which
    do not change its result, and the styles of the rendered views. *)

From stdpp Require Import base option list strings gmap.
From Stdlib Require Import ZArith Lia.
From Stdlib Require Import Floats.SpecFloat.

Local Open Scope string_scope.
Local Open Scope Z_scope.
Local Open Scope list_scope.

(** ** ECMAScript dates

    A JavaScript [Date] holds one time value: a number of milliseconds
    since the epoch, or NaN (an "Invalid Date").  Time values of valid
    dates are integers of magnitude at most 8.64e15 < 2^53, so every
    double in that range is exact and [Z] computes what the engine
    computes; anything the engine rounds lies far outside the range and
    is clipped to NaN on both sides.  The definitions follow ECMA-262,
    section "Date Objects". *)

Module JSDate.

(** [None] is NaN. *)
Definition Number := option Z.
Definition Date := option Z.

Definition msPerDay : Z := 86400000.
Definition msPerHour : Z := 3600000.
Definition msPerMinute : Z := 60000.
Definition msPerSecond : Z := 1000.
Definition maxTime : Z := 8640000000000000.

Definition TimeClip (t : Z) : Date :=
  if Z.abs t <=? maxTime then Some t else None.

Definition Day (t : Z) : Z := t / msPerDay.
Definition TimeWithinDay (t : Z) : Z := t mod msPerDay.

Definition DaysInYear (y : Z) : Z :=
  if negb (y mod 4 =? 0) then 365
  else if negb (y mod 100 =? 0) then 366
  else if negb (y mod 400 =? 0) then 365
  else 366.

Definition DayFromYear (y : Z) : Z :=
  365 * (y - 1970) + (y - 1969) / 4 - (y - 1901) / 100 + (y - 1601) / 400.

Definition TimeFromYear (y : Z) : Z := msPerDay * DayFromYear y.

(** The largest year [y] with [TimeFromYear y <= t]: an estimate from the
    mean length of a Gregorian year, corrected by at most one year. *)
Definition YearFromTime (t : Z) : Z :=
  let y := 1970 + (Day t * 400) / 146097 in
  if Day t <? DayFromYear y then y - 1
  else if DayFromYear (y + 1) <=? Day t then y + 1
  else y.

Definition InLeapYear (t : Z) : Z :=
  if DaysInYear (YearFromTime t) =? 366 then 1 else 0.

Definition DayWithinYear (t : Z) : Z := Day t - DayFromYear (YearFromTime t).

Definition MonthFromTime (t : Z) : Z :=
  let d := DayWithinYear t in
  let leap := InLeapYear t in
  if d <? 31 then 0
  else if d <? 59 + leap then 1
  else if d <? 90 + leap then 2
  else if d <? 120 + leap then 3
  else if d <? 151 + leap then 4
  else if d <? 181 + leap then 5
  else if d <? 212 + leap then 6
  else if d <? 243 + leap then 7
  else if d <? 273 + leap then 8
  else if d <? 304 + leap then 9
  else if d <? 334 + leap then 10
  else 11.

(** Day within the year of the first day of month [m] (0 = January). *)
Definition FirstDayOfMonth (m leap : Z) : Z :=
  if m =? 0 then 0
  else if m =? 1 then 31
  else if m =? 2 then 59 + leap
  else if m =? 3 then 90 + leap
  else if m =? 4 then 120 + leap
  else if m =? 5 then 151 + leap
  else if m =? 6 then 181 + leap
  else if m =? 7 then 212 + leap
  else if m =? 8 then 243 + leap
  else if m =? 9 then 273 + leap
  else if m =? 10 then 304 + leap
  else 334 + leap.

Definition DateFromTime (t : Z) : Z :=
  DayWithinYear t - FirstDayOfMonth (MonthFromTime t) (InLeapYear t) + 1.

Definition MakeTime (hour min sec ms : Z) : Z :=
  hour * msPerHour + min * msPerMinute + sec * msPerSecond + ms.

(** [MakeDay]: the day number of the first day of month [month] of
    [year], plus [date - 1]. *)
Definition MakeDay (year month date : Z) : Z :=
  let ym := year + month / 12 in
  let mn := month mod 12 in
  let leap := if DaysInYear ym =? 366 then 1 else 0 in
  DayFromYear ym + FirstDayOfMonth mn leap + date - 1.

Definition MakeDate (day time : Z) : Z := day * msPerDay + time.

Section LocalTime.
(** The offset of local time from UTC, in milliseconds; the model has
    no daylight saving: the offset is the same at every instant. *)
Variable LocalTZA : Z.

Definition LocalTime (t : Z) : Z := t + LocalTZA.
Definition UTC (t : Z) : Z := t - LocalTZA.

(** [d.setHours(hour, min, sec, ms)] *)
Definition setHours (d : Date) (hour min sec ms : Z) : Date :=
  match d with
  | None => None
  | Some tv =>
      let t := LocalTime tv in
      TimeClip (UTC (MakeDate (Day t) (MakeTime hour min sec ms)))
  end.

(** [d.getDate()] *)
Definition getDate (d : Date) : Number :=
  match d with
  | None => None
  | Some tv => Some (DateFromTime (LocalTime tv))
  end.

(** [d.setDate(date)] *)
Definition setDate (d : Date) (date : Number) : Date :=
  match d, date with
  | Some tv, Some dt =>
      let t := LocalTime tv in
      let newDate :=
        MakeDate (MakeDay (YearFromTime t) (MonthFromTime t) dt)
                 (TimeWithinDay t) in
      TimeClip (UTC newDate)
  | _, _ => None
  end.

(** [new Date(year, monthIndex, day)]: local midnight of a calendar
    day *)
Definition fromYMD (year month day : Z) : Date :=
  let yr := if (0 <=? year) && (year <=? 99) then 1900 + year else year in
  TimeClip (UTC (MakeDate (MakeDay yr month day) (MakeTime 0 0 0 0))).
End LocalTime.

(** [a < b] and [a > b] on dates compare the time values; a comparison
    with NaN is false. *)
Definition lt (a b : Date) : bool :=
  match a, b with
  | Some x, Some y => x <? y
  | _, _ => false
  end.

Definition gt (a b : Date) : bool := lt b a.

(** [a >= b] *)
Definition ge (a b : Date) : bool :=
  match a, b with
  | Some x, Some y => y <=? x
  | _, _ => false
  end.

(** [a + b] and [a - b] on numbers: NaN absorbs. *)
Definition add (a b : Number) : Number :=
  match a, b with
  | Some x, Some y => Some (x + y)
  | _, _ => None
  end.

Definition sub (a b : Number) : Number :=
  match a, b with
  | Some x, Some y => Some (x - y)
  | _, _ => None
  end.

End JSDate.

(** ** Numbers

    A JavaScript number is an IEEE 754 binary64 value.  [SpecFloat] of
    the standard library has the values and their arithmetic, rounding
    to nearest with ties to even, at a precision of 53 bits and with
    1024 as the exponent of the infinities. *)

Module JSNumber.

Definition prec : Z := 53.
Definition emax : Z := 1024.

(** The numbers of this program come out of JSON text or go into it.
    JSON text denotes the finite doubles, with one zero: a number is 0
    or, as [SpecFloat] has a finite double, [m * 2 ^ e] with a mantissa
    of at most 53 bits, negated when [negative] is set.  NaN and the
    infinities have no JSON text. *)
Inductive number : Type :=
  | Zero
  | Finite (negative : bool) (m : positive) (e : Z).

Definition to_float (x : number) : spec_float :=
  match x with
  | Zero => S754_zero false
  | Finite s m e => S754_finite s m e
  end.

(** The number that a result of the arithmetic is once it is written
    and read back: [JSON.stringify] writes -0 as 0.  It writes NaN and
    the infinities as null, which [> 0] takes for 0; the difference of a
    finite number and 1 is none of them. *)
Definition of_float (x : spec_float) : number :=
  match x with
  | S754_finite s m e => Finite s m e
  | _ => Zero
  end.

(** The double of an integer: the integer itself when it has at most 53
    bits, the nearest double otherwise. *)
Definition float_of_Z (n : Z) : spec_float :=
  binary_normalize prec emax n 0 false.

(** The number of an integer literal. *)
Definition of_Z (n : Z) : number := of_float (float_of_Z n).

(** [x - y] *)
Definition sub (x y : number) : number :=
  of_float (SFsub prec emax (to_float x) (to_float y)).

(** [x > y] and [x >= y] *)
Definition gt (x y : number) : bool := SFltb (to_float y) (to_float x).
Definition ge (x y : number) : bool := SFleb (to_float y) (to_float x).

(** 0.5 and -0.5 *)
Definition half : number := Finite false 4503599627370496 (-53).
Definition minus_half : number := Finite true 4503599627370496 (-53).

(** A count: an integer from 0 to [2 ^ 53].  Up to there every integer
    is a number, the next one, [2 ^ 53 + 1], is not. *)
Definition is_count (x : number) : Prop :=
  exists n : Z, 0 <= n <= 2 ^ 53 /\ x = of_Z n.

(** [m * 2 ^ a] on a mantissa, for [a] above 0. *)
Definition shl (m : positive) (a : Z) : positive :=
  match a with
  | Zpos d => Pos.iter xO m d
  | _ => m
  end.

End JSNumber.
Abbreviation number := JSNumber.number.

(** ** The record types of [utils/storage.ts] *)

Module Medication.
Record t : Type := mk {
  id : string;
  name : string;
  dosage : string;
  times : list string;
  startDate : string;
  duration : string;
  color : string;
  reminderEnabled : bool;
  reminderRepeat : bool;
  repeatCount : number;
  currentSupply : number;
  totalSupply : number;
  refillAt : number;
  refillReminder : bool;
  lastRefillDate : option string
}.
End Medication.
Abbreviation Medication := Medication.t.

Module DoseHistory.
Record t : Type := mk {
  id : string;
  medicationId : string;
  timestamp : string;
  taken : bool
}.
End DoseHistory.
Abbreviation DoseHistory := DoseHistory.t.

(** ** The scheduling predicate of the calendar screen *)

Module Calendar.
Import JSDate.

(** [\d]: an ASCII digit. *)
Definition is_digit (c : Ascii.ascii) : bool :=
  let n := Z.of_nat (Ascii.nat_of_ascii c) in (48 <=? n) && (n <=? 57).

Definition digit_value (c : Ascii.ascii) : Z := Z.of_nat (Ascii.nat_of_ascii c) - 48.

(** The longest prefix of digits, and what follows it. *)
Fixpoint span_digits (s : string) : string * string :=
  match s with
  | String c s' =>
      if is_digit c then let (ds, rest) := span_digits s' in (String c ds, rest)
      else (EmptyString, s)
  | EmptyString => (EmptyString, EmptyString)
  end.

(** [s.match(/(\d+)/)]: capture group 1 of the leftmost match, which is
    the first maximal run of digits; [None] when the match is null. *)
Fixpoint match_digits (s : string) : option string :=
  match s with
  | String c s' =>
      if is_digit c then Some (fst (span_digits s)) else match_digits s'
  | EmptyString => None
  end.

(** Whether some character of [s] is a digit. *)
Fixpoint has_digit (s : string) : bool :=
  match s with
  | String c s' => is_digit c || has_digit s'
  | EmptyString => false
  end.

Fixpoint all_digits (s : string) : bool :=
  match s with
  | String c s' => is_digit c && all_digits s'
  | EmptyString => true
  end.

Fixpoint parse_digits (acc : Z) (s : string) : Z :=
  match s with
  | String c s' => parse_digits (10 * acc + digit_value c) s'
  | EmptyString => acc
  end.

(** [parseInt(s)] on a string that starts with a digit or is empty (the
    capture of [match_digits] has no white space, sign or radix prefix to
    skip): the value of the leading digits, NaN when there are none. *)
Definition parseInt (s : string) : Number :=
  match fst (span_digits s) with
  | EmptyString => None
  | ds => Some (parse_digits 0 ds)
  end.

Section Scheduling.
Variable LocalTZA : Z.
(** [new Date(s)] for a string [s]: the engine's [Date.parse], whose
    result outside the ISO format is implementation-defined. *)
Variable Date_parse : string -> Date.

(** [startDate] and [selectedDate] after [setHours(0, 0, 0, 0)]. *)
Definition normalizedStart (medication : Medication) : Date :=
  setHours LocalTZA (Date_parse (Medication.startDate medication)) 0 0 0 0.

Definition normalized (date : Date) : Date :=
  setHours LocalTZA date 0 0 0 0.

(** [endDate] of the branch for a duration with a day count. *)
Definition endDateOf (startDate : Date) (durationDays : Number) : Date :=
  let endDate := startDate in
  setDate LocalTZA endDate
    (sub (add (getDate LocalTZA endDate) durationDays) (Some 1)).

Definition isMedicationScheduledForDate
    (medication : Medication) (date : Date) : bool :=
  let startDate := normalizedStart medication in
  let selectedDate := normalized date in
  if lt selectedDate startDate then false
  else
    if negb (String.eqb (Medication.duration medication) "Ongoing") then
      match match_digits (Medication.duration medication) with
      | Some durationMatch =>
          let durationDays := parseInt durationMatch in
          let endDate := endDateOf startDate durationDays in
          if gt selectedDate endDate then false else true
      | None => true
      end
    else true.

Definition getScheduledTimesForDate
    (medication : Medication) (date : Date) : list string :=
  if negb (isMedicationScheduledForDate medication date) then []
  else Medication.times medication.
End Scheduling.

(** The first integer of a duration string, as the predicate reads it. *)
Definition durationDaysOf (duration : string) : Number :=
  match match_digits duration with
  | Some durationMatch => parseInt durationMatch
  | None => None
  end.

End Calendar.

(** ** JSON documents

    [JSON.stringify] writes a value as JSON text and [JSON.parse] reads
    JSON text back; the model keeps a JSON text as the document it
    denotes.  An object is read by property name, a missing property is
    [undefined], and of two properties with one name the later wins.

    A number is the double that its text denotes: [JSON.stringify]
    writes a finite number so that [JSON.parse] reads the same number
    back, and the model keeps it as it is. *)

Module JSON.

#[local] Set Warnings "-register-all".

Inductive value : Type :=
  | JNull
  | JBool (b : bool)
  | JNumber (x : number)
  | JString (s : string)
  | JArray (l : list value)
  | JObject (l : list (string * value)).

(** [o[k]] on a parsed object *)
Fixpoint get (k : string) (o : list (string * value)) : option value :=
  match o with
  | [] => None
  | (k', v) :: o' =>
      match get k o' with
      | Some v' => Some v'
      | None => if String.eqb k k' then Some v else None
      end
  end.

(** What a type writes as JSON and how a document is read at that type;
    [decode] is [None] on a document of another shape. *)
Class Codec (A : Type) := {
  encode : A -> value;
  decode : value -> option A
}.

#[global] Instance string_codec : Codec string := {|
  encode s := JString s;
  decode v := match v with JString s => Some s | _ => None end
|}.

#[global] Instance number_codec : Codec number := {|
  encode x := JNumber x;
  decode v := match v with JNumber x => Some x | _ => None end
|}.

#[global] Instance boolean_codec : Codec bool := {|
  encode b := JBool b;
  decode v := match v with JBool b => Some b | _ => None end
|}.

#[global] Instance array_codec {A} `{Codec A} : Codec (list A) := {|
  encode l := JArray (map encode l);
  decode v := match v with JArray l => mapM decode l | _ => None end
|}.

(** A codec whose documents read back as the value written. *)
Class Lossless (A : Type) `{Codec A} : Prop :=
  decode_encode : forall a : A, decode (encode a) = Some a.

(** A required property, and an optional one ([k?: T]). *)
Definition required {A} `{Codec A} (k : string) (o : list (string * value))
  : option A :=
  get k o ≫= decode.

Definition optional {A} `{Codec A} (k : string) (o : list (string * value))
  : option (option A) :=
  match get k o with
  | None => Some None
  | Some v => Some <$> decode v
  end.

(** A property that is [undefined] is not written. *)
Definition property {A} `{Codec A} (k : string) (x : option A)
  : list (string * value) :=
  match x with
  | Some a => [(k, encode a)]
  | None => []
  end.

#[global] Instance Medication_codec : Codec Medication := {|
  encode m :=
    JObject
      ([("id", encode (Medication.id m));
        ("name", encode (Medication.name m));
        ("dosage", encode (Medication.dosage m));
        ("times", encode (Medication.times m));
        ("startDate", encode (Medication.startDate m));
        ("duration", encode (Medication.duration m));
        ("color", encode (Medication.color m));
        ("reminderEnabled", encode (Medication.reminderEnabled m));
        ("reminderRepeat", encode (Medication.reminderRepeat m));
        ("repeatCount", encode (Medication.repeatCount m));
        ("currentSupply", encode (Medication.currentSupply m));
        ("totalSupply", encode (Medication.totalSupply m));
        ("refillAt", encode (Medication.refillAt m));
        ("refillReminder", encode (Medication.refillReminder m))]
       ++ property "lastRefillDate" (Medication.lastRefillDate m));
  decode v :=
    match v with
    | JObject o =>
        id ← required "id" o;
        name ← required "name" o;
        dosage ← required "dosage" o;
        times ← required "times" o;
        startDate ← required "startDate" o;
        duration ← required "duration" o;
        color ← required "color" o;
        reminderEnabled ← required "reminderEnabled" o;
        reminderRepeat ← required "reminderRepeat" o;
        repeatCount ← required "repeatCount" o;
        currentSupply ← required "currentSupply" o;
        totalSupply ← required "totalSupply" o;
        refillAt ← required "refillAt" o;
        refillReminder ← required "refillReminder" o;
        lastRefillDate ← optional "lastRefillDate" o;
        Some (Medication.mk id name dosage times startDate duration color
                reminderEnabled reminderRepeat repeatCount currentSupply
                totalSupply refillAt refillReminder lastRefillDate)
    | _ => None
    end
|}.

#[global] Instance DoseHistory_codec : Codec DoseHistory := {|
  encode d :=
    JObject
      [("id", encode (DoseHistory.id d));
       ("medicationId", encode (DoseHistory.medicationId d));
       ("timestamp", encode (DoseHistory.timestamp d));
       ("taken", encode (DoseHistory.taken d))];
  decode v :=
    match v with
    | JObject o =>
        id ← required "id" o;
        medicationId ← required "medicationId" o;
        timestamp ← required "timestamp" o;
        taken ← required "taken" o;
        Some (DoseHistory.mk id medicationId timestamp taken)
    | _ => None
    end
|}.

End JSON.

(** ** AsyncStorage and promises

    The store maps string keys to strings.  A stored string is kept as
    [Doc j] when it is JSON text (for the document [j]) and as [Raw s]
    when it is any other text [s].  Every call of the store consults the
    next entry of [faults]: [true] makes the call reject and leaves the
    items as they were.  [randoms] feeds [Math.random], and [events]
    records the calls made and the console output, oldest first.

    A promise is run until it settles: the operations of the repository
    follow one another, none starts while another awaits. *)

Module Async.

Inductive blob : Type :=
  | Doc (j : JSON.value)
  | Raw (s : string).

Inductive error : Type :=
  | StoreFailure
  | SyntaxError
  | TypeError.

Inductive event : Type :=
  | GetItem (key : string) (ok : bool)
  | SetItem (key : string) (value : blob) (ok : bool)
  | RemoveItem (key : string) (ok : bool)
  | ConsoleError (message : string)
  | ConsoleLog (message : string).

Record World : Type := mkWorld {
  items : gmap string blob;
  faults : list bool;
  randoms : list string;
  events : list event
}.

Inductive outcome (A : Type) : Type :=
  | Return (a : A)
  | Throw (e : error).
Arguments Return {A} a.
Arguments Throw {A} e.

(** An [async] function body: it runs on the world and settles. *)
Definition Promise (A : Type) : Type := World -> outcome A * World.

Definition ret {A} (a : A) : Promise A := fun w => (Return a, w).

Definition throw {A} (e : error) : Promise A := fun w => (Throw e, w).

Definition bind {A B} (m : Promise A) (k : A -> Promise B) : Promise B :=
  fun w =>
    match m w with
    | (Return a, w') => k a w'
    | (Throw e, w') => (Throw e, w')
    end.

(** [try { m } catch (error) { handler }] *)
Definition try_catch {A} (m : Promise A) (handler : error -> Promise A)
  : Promise A :=
  fun w =>
    match m w with
    | (Return a, w') => (Return a, w')
    | (Throw e, w') => handler e w'
    end.

Declare Scope promise_scope.
Delimit Scope promise_scope with promise.
Notation "x <- m ;; k" := (bind m (fun x => k))
  (at level 100, m at next level, right associativity) : promise_scope.
Notation "m ;; k" := (bind m (fun _ => k))
  (at level 100, right associativity) : promise_scope.

Definition emit (e : event) (w : World) : World :=
  mkWorld (items w) (faults w) (randoms w) (events w ++ [e]).

(** Whether the next call of the store rejects. *)
Definition next_fault (w : World) : bool * World :=
  match faults w with
  | [] => (false, w)
  | f :: fs => (f, mkWorld (items w) fs (randoms w) (events w))
  end.

(** [AsyncStorage.getItem(key)] *)
Definition getItem (key : string) : Promise (option blob) :=
  fun w =>
    let (failed, w) := next_fault w in
    if failed then (Throw StoreFailure, emit (GetItem key false) w)
    else (Return (items w !! key), emit (GetItem key true) w).

(** [AsyncStorage.setItem(key, value)] *)
Definition setItem (key : string) (value : blob) : Promise unit :=
  fun w =>
    let (failed, w) := next_fault w in
    if failed then (Throw StoreFailure, emit (SetItem key value false) w)
    else
      (Return tt,
       emit (SetItem key value true)
         (mkWorld (<[key := value]> (items w)) (faults w) (randoms w)
            (events w))).

(** [AsyncStorage.removeItem(key)] *)
Definition removeItem (key : string) : Promise unit :=
  fun w =>
    let (failed, w) := next_fault w in
    if failed then (Throw StoreFailure, emit (RemoveItem key false) w)
    else
      (Return tt,
       emit (RemoveItem key true)
         (mkWorld (delete key (items w)) (faults w) (randoms w) (events w))).

Definition console_error (message : string) : Promise unit :=
  fun w => (Return tt, emit (ConsoleError message) w).

Definition console_log (message : string) : Promise unit :=
  fun w => (Return tt, emit (ConsoleLog message) w).

(** [Math.random().toString(36).substr(2, 9)] *)
Definition random_id : Promise string :=
  fun w =>
    match randoms w with
    | [] => (Return "", w)
    | r :: rs => (Return r, mkWorld (items w) (faults w) rs (events w))
    end.

(** [JSON.stringify(v)] *)
Definition JSON_stringify {A} `{JSON.Codec A} (v : A) : blob :=
  Doc (JSON.encode v).

(** [JSON.parse(data)] read at type [A]: a [SyntaxError] on text that is
    not JSON.  The source casts the result to [A] unchecked; a document
    of another shape is outside the declared types, and the model raises
    there. *)
Definition JSON_parse {A} `{JSON.Codec A} (data : blob) : Promise A :=
  match data with
  | Doc j =>
      match JSON.decode j with
      | Some v => ret v
      | None => throw TypeError
      end
  | Raw _ => throw SyntaxError
  end.

(** Truthiness of a string in [data ? ... : ...]: only the empty string
    is falsy. *)
Definition truthy (data : blob) : bool :=
  match data with
  | Raw "" => false
  | _ => true
  end.

End Async.

(** ** The repository: [utils/storage.ts] *)

Module Storage.
Import JSDate Async.
Local Open Scope promise_scope.

Definition MEDICATIONS_KEY : string := "@medications".
Definition DOSE_HISTORY_KEY : string := "@dose_history".

Definition getMedications : Promise (list Medication) :=
  try_catch
    (data <- getItem MEDICATIONS_KEY;;
     match data with
     | Some text => if truthy text then JSON_parse text else ret []
     | None => ret []
     end)
    (fun error => console_error "Error getting medications:";; ret []).

Definition addMedication (medication : Medication) : Promise unit :=
  try_catch
    (medications <- getMedications;;
     let medications := medications ++ [medication] in
     setItem MEDICATIONS_KEY (JSON_stringify medications))
    (fun error => console_error "Error adding medication:";; throw error).

(** [medications.findIndex(...)] is [list_find]: the first position whose
    entry has the id, [None] for -1. *)
Definition updateMedication (updatedMedication : Medication) : Promise unit :=
  try_catch
    (medications <- getMedications;;
     match list_find
             (fun med => Medication.id med = Medication.id updatedMedication)
             medications with
     | Some (index, _) =>
         let medications := <[index := updatedMedication]> medications in
         setItem MEDICATIONS_KEY (JSON_stringify medications)
     | None => ret tt
     end)
    (fun error => console_error "Error updating medication:";; throw error).

Definition deleteMedication (id : string) : Promise unit :=
  try_catch
    (medications <- getMedications;;
     let updatedMedications :=
       List.filter (fun med => negb (String.eqb (Medication.id med) id))
         medications in
     setItem MEDICATIONS_KEY (JSON_stringify updatedMedications))
    (fun error => console_error "Error deleting medication:";; throw error).

Definition getDoseHistory : Promise (list DoseHistory) :=
  try_catch
    (data <- getItem DOSE_HISTORY_KEY;;
     match data with
     | Some text => if truthy text then JSON_parse text else ret []
     | None => ret []
     end)
    (fun error => console_error "Error getting dose history:";; ret []).

(** [medication.currentSupply -= 1] on the entry that [find] returned *)
Definition decrementSupply (medication : Medication) : Medication :=
  Medication.mk
    (Medication.id medication) (Medication.name medication)
    (Medication.dosage medication) (Medication.times medication)
    (Medication.startDate medication) (Medication.duration medication)
    (Medication.color medication) (Medication.reminderEnabled medication)
    (Medication.reminderRepeat medication) (Medication.repeatCount medication)
    (JSNumber.sub (Medication.currentSupply medication) (JSNumber.of_Z 1))
    (Medication.totalSupply medication) (Medication.refillAt medication)
    (Medication.refillReminder medication)
    (Medication.lastRefillDate medication).

(** The array that [find] searched is a fresh parse that nothing else
    holds: the decrement reaches the store only through
    [updateMedication]. *)
Definition recordDose (medicationId : string) (taken : bool)
    (timestamp : string) : Promise unit :=
  try_catch
    (history <- getDoseHistory;;
     id <- random_id;;
     let newDose := DoseHistory.mk id medicationId timestamp taken in
     let history := history ++ [newDose] in
     setItem DOSE_HISTORY_KEY (JSON_stringify history);;
     if taken then
       medications <- getMedications;;
       match list_find (fun med => Medication.id med = medicationId)
               medications with
       | Some (_, medication) =>
           if JSNumber.gt (Medication.currentSupply medication)
                (JSNumber.of_Z 0) then
             let medication := decrementSupply medication in
             updateMedication medication
           else ret tt
       | None => ret tt
       end
     else ret tt)
    (fun error => console_error "Error recording dose:";; throw error).

Definition clearAllData : Promise unit :=
  try_catch
    (removeItem MEDICATIONS_KEY;;
     removeItem DOSE_HISTORY_KEY;;
     console_log "All data cleared successfully")
    (fun error => console_error "Error clearing data:";; throw error).

Section Dates.
(** [new Date(s)] for a string [s] *)
Variable Date_parse : string -> Date.

Definition clearDataForDateRange (startDate endDate : Date) : Promise unit :=
  try_catch
    (medications <- getMedications;;
     doseHistory <- getDoseHistory;;
     let filteredMedications :=
       List.filter
         (fun med =>
            let medStartDate := Date_parse (Medication.startDate med) in
            lt medStartDate startDate || gt medStartDate endDate)
         medications in
     let filteredDoseHistory :=
       List.filter
         (fun dose =>
            let doseDate := Date_parse (DoseHistory.timestamp dose) in
            lt doseDate startDate || gt doseDate endDate)
         doseHistory in
     setItem MEDICATIONS_KEY (JSON_stringify filteredMedications);;
     setItem DOSE_HISTORY_KEY (JSON_stringify filteredDoseHistory);;
     console_log "Data cleared for date range:")
    (fun error =>
       console_error "Error clearing data for date range:";; throw error).

Definition clearOldData (beforeDate : Date) : Promise unit :=
  try_catch
    (medications <- getMedications;;
     doseHistory <- getDoseHistory;;
     let filteredMedications :=
       List.filter
         (fun med =>
            let medStartDate := Date_parse (Medication.startDate med) in
            ge medStartDate beforeDate)
         medications in
     let filteredDoseHistory :=
       List.filter
         (fun dose =>
            let doseDate := Date_parse (DoseHistory.timestamp dose) in
            ge doseDate beforeDate)
         doseHistory in
     setItem MEDICATIONS_KEY (JSON_stringify filteredMedications);;
     setItem DOSE_HISTORY_KEY (JSON_stringify filteredDoseHistory);;
     console_log "Old data cleared before:")
    (fun error => console_error "Error clearing old data:";; throw error).

(** The mutating operations of the repository, as the screens call
    them. *)
Inductive command : Type :=
  | AddMedication (medication : Medication)
  | UpdateMedication (updatedMedication : Medication)
  | DeleteMedication (id : string)
  | RecordDose (medicationId : string) (taken : bool) (timestamp : string)
  | ClearAllData
  | ClearDataForDateRange (startDate endDate : Date)
  | ClearOldData (beforeDate : Date).

Definition run (c : command) : Promise unit :=
  match c with
  | AddMedication medication => addMedication medication
  | UpdateMedication updatedMedication => updateMedication updatedMedication
  | DeleteMedication id => deleteMedication id
  | RecordDose medicationId taken timestamp =>
      recordDose medicationId taken timestamp
  | ClearAllData => clearAllData
  | ClearDataForDateRange startDate endDate =>
      clearDataForDateRange startDate endDate
  | ClearOldData beforeDate => clearOldData beforeDate
  end.
End Dates.

End Storage.

(** ** What the store holds, and what a run did *)

Module Repository.
Import JSON Async Storage.

(** The list kept under [key]: an absent item stands for the empty
    list, as every read takes it. *)
Definition stored {A} `{Codec A} (key : string) (it : gmap string blob)
    (l : list A) : Prop :=
  (it !! key = None /\ l = []) \/ it !! key = Some (JSON_stringify l).

(** The list a read takes from [key] when the item is a stored list, is
    absent, or is text that is not JSON, the empty string included: the
    last two read as the empty list. *)
Definition readable {A} `{Codec A} (key : string) (it : gmap string blob)
    (l : list A) : Prop :=
  stored key it l \/ exists s, it !! key = Some (Raw s) /\ l = [].

(** What a read returns when [getItem] resolves with [data]. *)
Definition parsed {A} `{Codec A} (data : option blob) : list A :=
  match data with
  | Some (Doc j) => default [] (decode j)
  | _ => []
  end.

(** What a read of [key] returns in world [w]. *)
Definition read {A} `{Codec A} (key : string) (w : World) : list A :=
  if fst (next_fault w) then [] else parsed (items w !! key).

Definition is_write (e : event) : bool :=
  match e with
  | SetItem _ _ _ | RemoveItem _ _ => true
  | _ => false
  end.

(** The calls that write, among the events of a run. *)
Definition writes (evs : list event) : list event := List.filter is_write evs.

Definition failed (e : event) : bool :=
  match e with
  | SetItem _ _ false | RemoveItem _ false => true
  | _ => false
  end.

(** Whether some write of the store was rejected so far. *)
Definition write_failed (w : World) : bool := existsb failed (events w).

(** What a read leaves of the world: the items and the random source as
    they were, one fault consumed, no write among the new events. *)
Definition read_frame (w w' : World) : Prop :=
  items w' = items w /\ faults w' = tail (faults w) /\
  randoms w' = randoms w /\
  writes (events w') = writes (events w) /\
  write_failed w' = write_failed w.

(** [getMedications] and [getDoseHistory] are one function at two keys
    and two types. *)
Definition getList {A} `{Codec A} (key message : string)
  : Promise (list A) :=
  try_catch
    (bind (getItem key) (fun data =>
       match data with
       | Some text => if truthy text then JSON_parse text else ret []
       | None => ret []
       end))
    (fun error => bind (console_error message) (fun _ => ret [])).

(** Hoare triples on promises: from a world in [P], a promise that
    fulfils with [a] ends in [Q a], one that rejects ends in [E]. *)
Definition hoare {A} (P : World -> Prop) (m : Promise A)
    (Q : A -> World -> Prop) (E : World -> Prop) : Prop :=
  forall w, P w ->
    match m w with
    | (Return a, w') => Q a w'
    | (Throw _, w') => E w'
    end.

(** An invariant that looks at the items and at the rejected writes
    only. *)
Definition stable (I : World -> Prop) : Prop :=
  forall w w',
    items w' = items w -> write_failed w' = write_failed w -> I w -> I w'.

(** A promise is loud when it cannot fulfil after a rejected write: from
    a world without one, it fulfils without one or it rejects. *)
Definition quiet (w : World) : Prop := write_failed w = false.

Definition loud {A} (m : Promise A) : Prop :=
  hoare quiet m (fun _ w => quiet w) (fun _ => True).

(** Supplies are counts. *)
Definition supplied (m : Medication) : Prop :=
  JSNumber.is_count (Medication.currentSupply m).

Definition supplies_nonneg (w : World) : Prop :=
  exists l : list Medication,
    stored MEDICATIONS_KEY (items w) l /\ Forall supplied l.

Section Reachable.
Variable Date_parse : string -> JSDate.Date.

(** A command that hands the repository a medication hands it one with
    a supply that is a count. *)
Definition admissible (c : command) : Prop :=
  match c with
  | AddMedication medication => supplied medication
  | UpdateMedication updatedMedication => supplied updatedMedication
  | _ => True
  end.

(** The worlds the repository reaches from an empty store, whatever
    the store's faults and the random source. *)
Inductive reachable : World -> Prop :=
  | reachable_empty fs rs : reachable (mkWorld ∅ fs rs [])
  | reachable_run w c :
      reachable w -> admissible c ->
      reachable (snd (run Date_parse c w)).

(** The world after the commands [cs], run one after the other from
    [w]. *)
Definition run_all (cs : list command) (w : World) : World :=
  fold_left (fun w c => snd (run Date_parse c w)) cs w.
End Reachable.

(** The id that [Math.random] yields next. *)
Definition next_id (rs : list string) : string :=
  match rs with
  | [] => ""
  | r :: _ => r
  end.

(** [t] lies in the closed range from [s] to [e]. *)
Definition within (s e t : Z) : bool := (s <=? t) && (t <=? e).

(** A date lies in the closed range; an invalid date lies in none. *)
Definition in_range (s e : Z) (d : JSDate.Date) : bool :=
  match d with
  | Some t => within s e t
  | None => false
  end.

(** The supply of the first medication with the id, one less when it is
    positive: what a taken dose does to the list. *)
Fixpoint take_dose (medicationId : string) (l : list Medication)
  : list Medication :=
  match l with
  | [] => []
  | med :: l' =>
      if String.eqb (Medication.id med) medicationId then
        (if JSNumber.gt (Medication.currentSupply med) (JSNumber.of_Z 0)
         then decrementSupply med
         else med) :: l'
      else med :: take_dose medicationId l'
  end.

(** No medication has the id, or the first that has it has no supply
    above 0: a taken dose does not reach [updateMedication]. *)
Definition no_decrement (medicationId : string) (l : list Medication)
  : Prop :=
  match list_find (fun med => Medication.id med = medicationId) l with
  | Some (_, medication) =>
      JSNumber.gt (Medication.currentSupply medication) (JSNumber.of_Z 0)
      = false
  | None => True
  end.

End Repository.

(** ** Sample data

    The engine's [Date.parse] on the two ISO forms that the application
    stores, a calendar date [YYYY-MM-DD] and the output of [toISOString],
    [YYYY-MM-DDTHH:mm:ss.sssZ], both read as UTC; it is the parser of the
    examples.  Any other string is an Invalid Date here. *)

Module ISO.
Import JSDate Calendar.

(** The number written by the [len] digits at [pos]. *)
Definition field (s : string) (pos len : nat) : option Z :=
  let f := String.substring pos len s in
  if (String.length f =? len)%nat && all_digits f
  then Some (parse_digits 0 f) else None.

Definition sep (s : string) (pos : nat) (c : string) : bool :=
  String.eqb (String.substring pos 1 s) c.

Definition date_part (s : string) : option Z :=
  year ← field s 0 4;
  month ← field s 5 2;
  day ← field s 8 2;
  if sep s 4 "-" && sep s 7 "-"
     && (1 <=? month) && (month <=? 12) && (1 <=? day) && (day <=? 31)
  then Some (MakeDay year (month - 1) day) else None.

Definition time_part (s : string) : option Z :=
  hour ← field s 11 2;
  min ← field s 14 2;
  sec ← field s 17 2;
  ms ← field s 20 3;
  if sep s 10 "T" && sep s 13 ":" && sep s 16 ":" && sep s 19 "."
     && sep s 23 "Z"
     && (hour <=? 23) && (min <=? 59) && (sec <=? 59)
  then Some (MakeTime hour min sec ms) else None.

Definition Date_parse (s : string) : Date :=
  if (String.length s =? 10)%nat then
    day ← date_part s; TimeClip (MakeDate day 0)
  else if (String.length s =? 24)%nat then
    day ← date_part s; time ← time_part s; TimeClip (MakeDate day time)
  else None.

End ISO.

Module Sample.
Import JSNumber.

Definition amoxicillin : Medication :=
  Medication.mk "m1" "Amoxicillin" "500mg" ["09:00"; "21:00"]
    "2024-01-01T08:30:00.000Z" "30 days" "#4CAF50" true false
    (of_Z 0) (of_Z 1) (of_Z 30) (of_Z 5) true None.

Definition vitaminD : Medication :=
  Medication.mk "m2" "Vitamin D" "1000 IU" ["08:00"]
    "2024-01-01" "Ongoing" "#2196F3" true false
    (of_Z 0) (of_Z 60) (of_Z 60) (of_Z 10) false (Some "2023-12-15").

Definition asNeeded : Medication :=
  Medication.mk "m3" "Ibuprofen" "200mg" ["12:00"]
    "2024-01-01" "as needed" "#FF5722" false false
    (of_Z 0) (of_Z 0) (of_Z 20) (of_Z 5) false None.

Definition zeroDays : Medication :=
  Medication.mk "m4" "Placebo" "1" ["12:00"]
    "2024-01-01" "0 days" "#9C27B0" false false
    (of_Z 0) (of_Z 3) (of_Z 3) (of_Z 1) false None.

(** Thirty days from a start date written without a time. *)
Definition course : Medication :=
  Medication.mk "m5" "Doxycycline" "100mg" ["08:00"]
    "2024-01-01" "30 days" "#009688" true false
    (of_Z 0) (of_Z 30) (of_Z 30) (of_Z 5) true None.

(** A supply of half a dose, and what a taken dose makes of it. *)
Definition syrup : Medication :=
  Medication.mk "m6" "Syrup" "5ml" ["20:00"]
    "2024-01-01" "Ongoing" "#795548" false false
    (of_Z 0) half (of_Z 1) (of_Z 0) false None.

Definition syrup_taken : Medication :=
  Medication.mk "m6" "Syrup" "5ml" ["20:00"]
    "2024-01-01" "Ongoing" "#795548" false false
    (of_Z 0) minus_half (of_Z 1) (of_Z 0) false None.

Definition dose1 : DoseHistory :=
  DoseHistory.mk "k3j9x0q1z" "m1" "2024-01-02T09:00:00.000Z" true.

Definition dose2 : DoseHistory :=
  DoseHistory.mk "a8s7d6f5g" "m2" "2024-01-10T08:00:00.000Z" true.

(** A store that holds the medications and doses above, with no fault
    pending. *)
Definition items : gmap string Async.blob :=
  <[Storage.DOSE_HISTORY_KEY := Async.JSON_stringify [dose1; dose2]]>
    (<[Storage.MEDICATIONS_KEY :=
         Async.JSON_stringify [amoxicillin; vitaminD; zeroDays]]> ∅).

Definition world : Async.World :=
  Async.mkWorld items [] ["q1w2e3r4t"; "z9y8x7w6v"] [].

End Sample.

(** ** More of [Date]: the fields of local time *)

Module DateFields.
Import JSDate.

Definition WeekDay (t : Z) : Z := (Day t + 4) mod 7.

(** 1 in a leap year. *)
Definition leap_of (y : Z) : Z := if DaysInYear y =? 366 then 1 else 0.

(** Days of month [m] (0 = January). *)
Definition DaysInMonth (m leap : Z) : Z :=
  if m =? 1 then 28 + leap
  else if (m =? 3) || (m =? 5) || (m =? 8) || (m =? 10) then 30
  else 31.

Section LocalTime.
Variable LocalTZA : Z.

(** [d.getFullYear()], [d.getMonth()], [d.getDay()] *)
Definition getFullYear (d : Date) : Number :=
  match d with
  | None => None
  | Some tv => Some (YearFromTime (LocalTime LocalTZA tv))
  end.

Definition getMonth (d : Date) : Number :=
  match d with
  | None => None
  | Some tv => Some (MonthFromTime (LocalTime LocalTZA tv))
  end.

Definition getDay (d : Date) : Number :=
  match d with
  | None => None
  | Some tv => Some (WeekDay (LocalTime LocalTZA tv))
  end.

(** [new Date(year, monthIndex, day)] on numbers: NaN gives an Invalid
    Date. *)
Definition newDate (year month day : Number) : Date :=
  match year, month, day with
  | Some y, Some m, Some d => fromYMD LocalTZA y m d
  | _, _, _ => None
  end.

(** [d.toDateString()], kept as the fields it prints (week day, month,
    day of the month, year of local time); [None] is the string
    "Invalid Date".  Two dates print the same string exactly when they
    have the same fields. *)
Definition toDateString (d : Date) : option (Z * Z * Z * Z) :=
  match d with
  | None => None
  | Some tv =>
      let t := LocalTime LocalTZA tv in
      Some (WeekDay t, MonthFromTime t, DateFromTime t, YearFromTime t)
  end.

(** The local day number of a date. *)
Definition localDay (d : Date) : option Z :=
  match d with
  | None => None
  | Some tv => Some (Day (LocalTime LocalTZA tv))
  end.

(** The time value of the local midnight that starts the local day of
    the time value [tv]. *)
Definition localMidnight (tv : Z) : Z :=
  Day (LocalTime LocalTZA tv) * msPerDay - LocalTZA.
End LocalTime.

End DateFields.

(** ** [getTodaysDoses] of [utils/storage.ts]

    [now] is what [new Date()] returns when the history has been
    read. *)

Module Today.
Import JSDate DateFields Async Storage.
Local Open Scope promise_scope.

Section Today.
Variable LocalTZA : Z.
Variable Date_parse : string -> Date.

(** [new Date(dose.timestamp).toDateString() === today] *)
Definition onDay (today : option (Z * Z * Z * Z)) (dose : DoseHistory)
  : bool :=
  bool_decide
    (toDateString LocalTZA (Date_parse (DoseHistory.timestamp dose)) = today).

Definition getTodaysDoses (now : Date) : Promise (list DoseHistory) :=
  try_catch
    (history <- getDoseHistory;;
     let today := toDateString LocalTZA now in
     ret (List.filter (onDay today) history))
    (fun error => console_error "Error getting today's doses:";; ret []).
End Today.

End Today.

(** ** The calendar screen

    The screen keeps the selected date and the two lists it loaded; what
    it renders is kept as data: the cells of the month grid, week by
    week, and the cards of the selected day.  [clock day] is what
    [new Date()] returns while the cell of [day] is built. *)

Module Screen.
Import JSDate DateFields Calendar Async Storage Today.
Local Open Scope promise_scope.

Record State : Type := mkState {
  selectedDate : Date;
  medications : list Medication;
  doseHistory : list DoseHistory
}.

Inductive cell : Type :=
  | EmptyCell (i : Z)
  | DayCell (day : Z) (date : Date) (isToday hasScheduledMedications : bool).

(** A card of the selected day: [taken] shows the badge, otherwise the
    card has the button that takes a dose. *)
Record card : Type := mkCard {
  cardMedication : Medication;
  scheduledTimes : list string;
  taken : bool
}.

Inductive schedule : Type :=
  | NoMedications
  | Cards (cards : list card).

(** [loadData]: both reads are started, medications first, then the
    state is set; the medications are logged one by one. *)
Definition loadData (st : State) : Promise State :=
  try_catch
    (meds <- getMedications;;
     history <- getDoseHistory;;
     console_log "Calendar loaded medications:";;
     console_log "Calendar loaded dose history:";;
     fold_right (fun med k => console_log "Medication:";; k) (ret tt) meds;;
     ret (mkState (selectedDate st) meds history))
    (fun error => console_error "Error loading calendar data:";; ret st).

Section Screen.
Variable LocalTZA : Z.
Variable Date_parse : string -> Date.

Definition getDaysInMonth (date : Date) : Number * Number :=
  let year := getFullYear LocalTZA date in
  let month := getMonth LocalTZA date in
  let days :=
    getDate LocalTZA (newDate LocalTZA year (add month (Some 1)) (Some 0)) in
  let firstDay := getDay LocalTZA (newDate LocalTZA year month (Some 1)) in
  (days, firstDay).

Section Render.
Variable st : State.
Variable clock : Z -> Date.

(** The cell of one day of the selected month. *)
Definition dayCell (day : Z) : cell :=
  let date :=
    newDate LocalTZA (getFullYear LocalTZA (selectedDate st))
      (getMonth LocalTZA (selectedDate st)) (Some day) in
  let isToday :=
    bool_decide
      (toDateString LocalTZA (clock day) = toDateString LocalTZA date) in
  let hasScheduledMedications :=
    existsb
      (fun medication =>
         isMedicationScheduledForDate LocalTZA Date_parse medication date)
      (medications st) in
  DayCell day date isToday hasScheduledMedications.

(** The first loop: [i] from 0 while [i < firstDay]. *)
Definition emptyCells (firstDay : Number) : list cell :=
  match firstDay with
  | Some f => map (fun i => EmptyCell (Z.of_nat i)) (seq 0 (Z.to_nat f))
  | None => []
  end.

(** [(firstDay + day) % 7 === 0 || day === days] *)
Definition endsWeek (days firstDay : Number) (day : Z) : bool :=
  match add firstDay (Some day) with
  | Some n => Z.rem n 7 =? 0
  | None => false
  end
  || match days with
     | Some d => day =? d
     | None => false
     end.

(** The second loop, with [remaining] days to go from [day] on: [week]
    collects the cells, [calendar] the weeks pushed so far, each under
    the key of its last day. *)
Fixpoint daysLoop (days firstDay : Number) (remaining : nat) (day : Z)
    (week : list cell) (calendar : list (Z * list cell))
  : list (Z * list cell) :=
  match remaining with
  | O => calendar
  | S remaining' =>
      let week := week ++ [dayCell day] in
      if endsWeek days firstDay day
      then daysLoop days firstDay remaining' (day + 1) []
             (calendar ++ [(day, week)])
      else daysLoop days firstDay remaining' (day + 1) week calendar
  end.

Definition renderCalendar : list (Z * list cell) :=
  let (days, firstDay) := getDaysInMonth (selectedDate st) in
  let week := emptyCells firstDay in
  let count := match days with Some d => Z.to_nat d | None => O end in
  daysLoop days firstDay count 1 week [].

(** [dayDoses.some(dose => dose.medicationId === medication.id &&
    dose.taken)] *)
Definition takenAmong (dayDoses : list DoseHistory) (medication : Medication)
  : bool :=
  existsb
    (fun dose =>
       String.eqb (DoseHistory.medicationId dose) (Medication.id medication)
       && DoseHistory.taken dose)
    dayDoses.

Definition renderMedicationsForDate : schedule :=
  let dateStr := toDateString LocalTZA (selectedDate st) in
  let dayDoses :=
    List.filter (onDay LocalTZA Date_parse dateStr) (doseHistory st) in
  let scheduledMedications :=
    List.filter
      (fun medication =>
         isMedicationScheduledForDate LocalTZA Date_parse medication
           (selectedDate st))
      (medications st) in
  if (length scheduledMedications =? 0)%nat then NoMedications
  else
    Cards
      (map
         (fun medication =>
            mkCard medication
              (getScheduledTimesForDate LocalTZA Date_parse medication
                 (selectedDate st))
              (takenAmong dayDoses medication))
         scheduledMedications).
End Render.

(** The button of a card: [timestamp] is [new Date().toISOString()]. *)
Definition pressTake (st : State) (medication : Medication)
    (timestamp : string) : Promise State :=
  recordDose (Medication.id medication) true timestamp;;
  loadData st.
End Screen.

End Screen.

(** ** Doses taken one after the other *)

Module Doses.
Import Async Storage.
Local Open Scope promise_scope.

(** The button of a card pressed once for every timestamp: one
    [recordDose] after the other. *)
Fixpoint recordDoses (medicationId : string) (timestamps : list string)
  : Promise unit :=
  match timestamps with
  | [] => ret tt
  | timestamp :: timestamps' =>
      recordDose medicationId true timestamp;;
      recordDoses medicationId timestamps'
  end.

End Doses.

(** * Properties *)

(** ** Dates *)

Module DateFacts.
Import JSDate.

(** The closed form of [YearFromTime] is the year of ECMA-262: the
    largest year that starts on or before the day of [t]. *)
Lemma YearFromTime_spec t :
  DayFromYear (YearFromTime t) <= Day t < DayFromYear (YearFromTime t + 1).
Proof.
  unfold YearFromTime. generalize (Day t). intros d.
  set (y := 1970 + d * 400 / 146097).
  assert (146097 * (y - 1970) <= d * 400 < 146097 * (y - 1970) + 146097) as Hy.
  { unfold y. pose proof (Z.div_mod (d * 400) 146097 ltac:(lia)).
    pose proof (Z.mod_pos_bound (d * 400) 146097 ltac:(lia)). lia. }
  clearbody y.
  destruct (Z.ltb_spec d (DayFromYear y)) as [H1|H1].
  - replace (y - 1 + 1) with y by lia. split; [|lia].
    unfold DayFromYear in *. Z.to_euclidean_division_equations; lia.
  - destruct (Z.leb_spec (DayFromYear (y + 1)) d) as [H2|H2]; [|lia].
    split; [lia|]. unfold DayFromYear in *.
    Z.to_euclidean_division_equations; lia.
Qed.

Lemma DaysInYear_spec y : DayFromYear (y + 1) - DayFromYear y = DaysInYear y.
Proof.
  unfold DayFromYear, DaysInYear.
  destruct (Z.eqb_spec (y mod 4) 0), (Z.eqb_spec (y mod 100) 0),
    (Z.eqb_spec (y mod 400) 0); cbn;
    Z.to_euclidean_division_equations; lia.
Qed.

Lemma DayWithinYear_range t :
  0 <= DayWithinYear t < DaysInYear (YearFromTime t).
Proof.
  pose proof (YearFromTime_spec t). pose proof (DaysInYear_spec (YearFromTime t)).
  unfold DayWithinYear. lia.
Qed.

Lemma DateFromTime_range t : 1 <= DateFromTime t <= 31.
Proof.
  pose proof (DayWithinYear_range t) as Hd.
  unfold DateFromTime, MonthFromTime, InLeapYear in *.
  destruct (Z.eqb_spec (DaysInYear (YearFromTime t)) 366) as [H366|H365].
  - repeat case_match; cbn; lia.
  - assert (DaysInYear (YearFromTime t) = 365) as H
      by (unfold DaysInYear in *; repeat case_match; lia).
    repeat case_match; cbn; lia.
Qed.

Lemma MonthFromTime_range t : 0 <= MonthFromTime t <= 11.
Proof. unfold MonthFromTime. repeat case_match; lia. Qed.

Lemma MakeDay_DateFromTime t k :
  MakeDay (YearFromTime t) (MonthFromTime t) (DateFromTime t + k) = Day t + k.
Proof.
  pose proof (MonthFromTime_range t) as Hm.
  unfold MakeDay, DateFromTime, DayWithinYear, InLeapYear.
  rewrite Z.div_small, Z.mod_small by lia.
  rewrite Z.add_0_r. lia.
Qed.

Lemma TimeClip_Some t u : TimeClip t = Some u -> u = t /\ - maxTime <= t <= maxTime.
Proof.
  unfold TimeClip. case_match eqn:E; [|done]. intros [= <-]. lia.
Qed.

Lemma TimeClip_in t : - maxTime <= t <= maxTime -> TimeClip t = Some t.
Proof. intros H. unfold TimeClip. case_match eqn:E; [done|lia]. Qed.

Lemma TimeClip_None t : TimeClip t = None -> t < - maxTime \/ maxTime < t.
Proof. unfold TimeClip. case_match eqn:E; [done|]. lia. Qed.

Section Local.
Variable LocalTZA : Z.

Lemma setHours_midnight d s :
  setHours LocalTZA d 0 0 0 0 = Some s ->
  - maxTime <= s <= maxTime /\
  exists tv, d = Some tv /\ s = Day (tv + LocalTZA) * msPerDay - LocalTZA.
Proof.
  destruct d as [tv|]; [|done]. cbn.
  intros [-> H]%TimeClip_Some.
  unfold UTC, MakeDate, MakeTime, LocalTime in *. 
  split; [lia|]. exists tv. split; [done|lia].
Qed.

Lemma setDate_getDate_midnight D k :
  setDate LocalTZA (Some (D * msPerDay - LocalTZA))
    (sub (add (getDate LocalTZA (Some (D * msPerDay - LocalTZA))) (Some k))
       (Some 1))
  = TimeClip (D * msPerDay - LocalTZA + (k - 1) * msPerDay).
Proof.
  cbn. unfold LocalTime, UTC, MakeDate, TimeWithinDay.
  replace (D * msPerDay - LocalTZA + LocalTZA) with (D * msPerDay) by lia.
  replace (DateFromTime (D * msPerDay) + k - 1)
    with (DateFromTime (D * msPerDay) + (k - 1)) by lia.
  rewrite MakeDay_DateFromTime. unfold Day.
  rewrite Z.div_mul, Z.mod_mul by done. f_equal. lia.
Qed.

Lemma fromYMD_Some year month day t :
  Some t = fromYMD LocalTZA year month day -> 99 < year ->
  t = MakeDay year month day * msPerDay - LocalTZA.
Proof.
  unfold fromYMD. intros Ht Hyear.
  rewrite (proj2 (Z.leb_gt year 99)), andb_false_r in Ht by lia.
  symmetry in Ht. apply TimeClip_Some in Ht as [-> _].
  unfold UTC, MakeDate, MakeTime. lia.
Qed.
End Local.
End DateFacts.

Module CalendarFacts.
Import JSDate Calendar DateFacts.

Lemma span_digits_all s : all_digits (fst (span_digits s)) = true.
Proof.
  induction s as [|a s IH]; cbn; [done|].
  destruct (is_digit a) eqn:Ha; [|done].
  destruct (span_digits s) as [ds rest]. cbn in *. by rewrite Ha.
Qed.

Lemma parse_digits_nonneg s acc :
  all_digits s = true -> 0 <= acc -> 0 <= parse_digits acc s.
Proof.
  revert acc. induction s as [|a s IH]; cbn; intros acc Hall Hacc; [done|].
  apply andb_prop in Hall as [Ha Hall]. apply IH; [done|].
  unfold is_digit, digit_value in *. lia.
Qed.

Lemma parseInt_nonneg s N : parseInt s = Some N -> 0 <= N.
Proof.
  unfold parseInt. pose proof (span_digits_all s) as Hall.
  destruct (fst (span_digits s)) as [|a ds]; [done|].
  intros [= <-]. change (0 <= parse_digits 0 (String a ds)).
  apply parse_digits_nonneg; [done|lia].
Qed.

Lemma durationDaysOf_nonneg duration N :
  durationDaysOf duration = Some N -> 0 <= N.
Proof.
  unfold durationDaysOf. case_match; [|done]. apply parseInt_nonneg.
Qed.

Lemma match_digits_parseInt s ds :
  match_digits s = Some ds -> is_Some (parseInt ds).
Proof.
  induction s as [|a s IH]; [done|]. cbn [match_digits].
  destruct (is_digit a) eqn:Ha; [|done].
  intros [= <-]. cbn. rewrite Ha.
  destruct (span_digits s) as [ds rest]. cbn.
  unfold parseInt. cbn. rewrite Ha.
  destruct (span_digits ds); cbn. eauto.
Qed.

Lemma match_digits_None s : match_digits s = None <-> has_digit s = false.
Proof.
  induction s as [|a s IH]; [done|]. cbn.
  destruct (is_digit a); [done|]. by rewrite IH.
Qed.

(** A duration has a day count exactly when it has a digit. *)
Lemma durationDaysOf_None s : durationDaysOf s = None <-> has_digit s = false.
Proof.
  rewrite <- match_digits_None. unfold durationDaysOf.
  destruct (match_digits s) as [ds|] eqn:Hds; [|done].
  destruct (match_digits_parseInt _ _ Hds) as [N ->]. done.
Qed.

#[local] Arguments is_digit : simpl never.

Lemma span_digits_app ds rest :
  all_digits ds = true -> has_digit (String.substring 0 1 rest) = false ->
  span_digits (String.append ds rest) = (ds, rest).
Proof.
  intros Hds Hrest. induction ds as [|c ds IH].
  - change (span_digits rest = ("", rest)).
    destruct rest as [|c rest]; [done|]. cbn [span_digits].
    assert (is_digit c = false) as ->; [|done].
    destruct rest; cbn in Hrest; by rewrite orb_false_r in Hrest.
  - change (span_digits (String c (String.append ds rest))
            = (String c ds, rest)).
    cbn [all_digits] in Hds. apply andb_prop in Hds as [Hc Hds].
    cbn [span_digits]. by rewrite Hc, IH.
Qed.

(** The day count of a duration is the number written by its first run
    of digits: [ds], after a prefix without a digit and before a
    character that is not a digit (or the end). *)
Lemma durationDaysOf_first_integer pre c ds rest :
  has_digit pre = false ->
  all_digits (String c ds) = true ->
  has_digit (String.substring 0 1 rest) = false ->
  durationDaysOf (String.append pre (String.append (String c ds) rest))
  = Some (parse_digits 0 (String c ds)).
Proof.
  intros Hpre Hds Hrest. unfold durationDaysOf.
  assert (match_digits (String.append pre (String.append (String c ds) rest))
          = Some (String c ds)) as ->.
  { induction pre as [|a pre IH].
    - change (String.append "" ?x) with x.
      pose proof (span_digits_app _ _ Hds Hrest) as Hspan.
      apply andb_prop in Hds as [Hc _].
      change (String.append (String c ds) rest)
        with (String c (String.append ds rest)) in *.
      cbn [match_digits]. by rewrite Hc, Hspan.
    - change (String.append (String a pre) ?x)
        with (String a (String.append pre x)).
      cbn [has_digit] in Hpre. apply orb_false_elim in Hpre as [Ha Hpre].
      cbn [match_digits]. rewrite Ha. by apply IH. }
  unfold parseInt.
  assert (span_digits (String c ds) = (String c ds, "")) as ->.
  { assert (forall s, String.append s "" = s) as Hnil.
    { induction s as [|a s IH]; [done|].
      change (String a (String.append s "") = String a s). by rewrite IH. }
    rewrite <- (Hnil (String c ds)) at 1. by apply span_digits_app. }
  done.
Qed.

Lemma eqb_Ongoing s : s ≠ "Ongoing" -> String.eqb s "Ongoing" = false.
Proof. intros H. by apply String.eqb_neq. Qed.

Section Scheduling.
Variable LocalTZA : Z.
Variable Date_parse : string -> Date.

Local Abbreviation isScheduled := (isMedicationScheduledForDate LocalTZA Date_parse).

Lemma endDateOf_midnight d s N :
  setHours LocalTZA d 0 0 0 0 = Some s ->
  endDateOf LocalTZA (Some s) (Some N) = TimeClip (s + (N - 1) * msPerDay).
Proof.
  intros (_ & tv & _ & ->)%setHours_midnight.
  apply setDate_getDate_midnight.
Qed.

(** Before the start date: not scheduled, whatever the duration. *)
Lemma before_start m d s q :
  normalizedStart LocalTZA Date_parse m = Some s ->
  normalized LocalTZA d = Some q ->
  q < s -> isScheduled m d = false.
Proof.
  intros Hs Hq Hlt. unfold isMedicationScheduledForDate.
  rewrite Hs, Hq. cbn. by rewrite (proj2 (Z.ltb_lt q s)).
Qed.

Lemma scheduled_unbounded m d s q :
  normalizedStart LocalTZA Date_parse m = Some s ->
  normalized LocalTZA d = Some q ->
  Medication.duration m = "Ongoing" \/
    match_digits (Medication.duration m) = None ->
  isScheduled m d = true <-> s <= q.
Proof.
  intros Hs Hq Hdur. unfold isMedicationScheduledForDate.
  rewrite Hs, Hq. cbn. destruct (Z.ltb_spec q s).
  - split; [done|lia].
  - split; [done|intros _].
    destruct Hdur as [->| ->]; [done|]. by case_match.
Qed.

(** Without a digit in its duration a medication is scheduled as one
    that is "Ongoing" from the same start date, on valid and invalid
    dates alike. *)
Lemma scheduled_like_ongoing m ongoing d :
  match_digits (Medication.duration m) = None ->
  Medication.startDate ongoing = Medication.startDate m ->
  Medication.duration ongoing = "Ongoing" ->
  isScheduled m d = isScheduled ongoing d.
Proof.
  intros Hdigits Hstart Hdur. unfold isMedicationScheduledForDate.
  unfold normalizedStart. rewrite Hstart, Hdur, Hdigits. cbn.
  by repeat case_match.
Qed.

(** An Invalid Date compares false with every date: with an invalid
    start date or an invalid query date no test of the predicate
    answers "not scheduled". *)
Lemma scheduled_invalid m d :
  normalizedStart LocalTZA Date_parse m = None \/ normalized LocalTZA d = None ->
  isScheduled m d = true.
Proof.
  intros Hinvalid. unfold isMedicationScheduledForDate, gt.
  assert (forall a, lt a None = false) as Hright by (by intros [a|]).
  assert (forall a, lt None a = false) as Hleft by done.
  destruct Hinvalid as [-> | ->]; cbn zeta; rewrite ?Hright, ?Hleft.
  - by repeat case_match.
  - repeat case_match; try done.
    match goal with H : lt _ None = true |- _ => by rewrite Hright in H end.
Qed.

Lemma scheduled_bounded m d s q N :
  Medication.duration m ≠ "Ongoing" ->
  durationDaysOf (Medication.duration m) = Some N ->
  normalizedStart LocalTZA Date_parse m = Some s ->
  normalized LocalTZA d = Some q ->
  (N = 0 -> - maxTime <= s - msPerDay) ->
  isScheduled m d = true <-> s <= q <= s + (N - 1) * msPerDay.
Proof.
  intros Hdur HN Hs Hq Hlow.
  pose proof (durationDaysOf_nonneg _ _ HN) as HN0.
  pose proof (setHours_midnight _ _ _ Hs) as [Hsr _].
  pose proof (setHours_midnight _ _ _ Hq) as [Hqr _].
  unfold isMedicationScheduledForDate.
  rewrite Hs, Hq. cbn [lt]. destruct (Z.ltb_spec q s) as [Hlt|Hge].
  { split; [done|lia]. }
  rewrite (eqb_Ongoing _ Hdur). cbn [negb].
  unfold durationDaysOf in HN.
  destruct (match_digits (Medication.duration m)) as [ds|]; [|done].
  rewrite HN. unfold normalizedStart in Hs.
  rewrite (endDateOf_midnight _ _ _ Hs).
  destruct (TimeClip (s + (N - 1) * msPerDay)) as [e|] eqn:He.
  - apply TimeClip_Some in He as [-> _]. unfold gt. cbn [lt].
    destruct (Z.ltb_spec (s + (N - 1) * msPerDay) q); split; (done || lia).
  - apply TimeClip_None in He. unfold gt. cbn [lt].
    split; [intros _|done]. unfold msPerDay in *. lia.
Qed.
End Scheduling.
End CalendarFacts.

(** ** Numbers: the integers that are exact

    Subtracting 1 from an integer number up to [2 ^ 53] gives the integer
    below it: the result needs no rounding. *)

Module NumberFacts.
Import JSNumber.

Lemma digits2_pos_bounds m :
  2 ^ (Zpos (digits2_pos m) - 1) <= Zpos m < 2 ^ Zpos (digits2_pos m).
Proof.
  induction m as [m IH|m IH|]; cbn [digits2_pos]; [| |by vm_compute].
  all: rewrite Pos2Z.inj_succ.
  all: replace (Z.succ (Zpos (digits2_pos m)) - 1)
         with (Z.succ (Zpos (digits2_pos m) - 1)) by lia.
  all: rewrite !Z.pow_succ_r by lia; lia.
Qed.

Lemma digits2_pos_unique m d :
  2 ^ (d - 1) <= Zpos m < 2 ^ d -> Zpos (digits2_pos m) = d.
Proof.
  intros Hd. pose proof (digits2_pos_bounds m) as Hm.
  assert (0 < d).
  { destruct (Z.lt_trichotomy d 0) as [Hneg|[->|Hpos]]; [|cbn in Hd; lia|done].
    rewrite (Z.pow_neg_r 2 d) in Hd by done. lia. }
  destruct (Z.lt_trichotomy (Zpos (digits2_pos m)) d) as [Hlt|[Heq|Hgt]];
    [|done|].
  - assert (2 ^ Zpos (digits2_pos m) <= 2 ^ (d - 1))
      by (apply Z.pow_le_mono_r; lia). lia.
  - assert (2 ^ d <= 2 ^ (Zpos (digits2_pos m) - 1))
      by (apply Z.pow_le_mono_r; lia). lia.
Qed.

Lemma shl_value m a : 0 <= a -> Zpos (shl m a) = Zpos m * 2 ^ a.
Proof.
  intros Ha. destruct a as [|d|d]; [cbn; lia| |lia]. cbn [shl].
  induction d as [|d IH] using Pos.peano_ind.
  - cbn. lia.
  - rewrite Pos.iter_succ, Pos2Z.inj_xO, IH by lia.
    rewrite Pos2Z.inj_succ, Z.pow_succ_r by lia. lia.
Qed.

Lemma shl_digits m a :
  0 <= a -> Zpos (digits2_pos (shl m a)) = Zpos (digits2_pos m) + a.
Proof.
  intros Ha. apply digits2_pos_unique. rewrite shl_value by done.
  pose proof (digits2_pos_bounds m) as Hm.
  replace (Zpos (digits2_pos m) + a - 1)
    with ((Zpos (digits2_pos m) - 1) + a) by lia.
  rewrite !Z.pow_add_r by lia.
  assert (0 < 2 ^ a) by (apply Z.pow_pos_nonneg; lia). nia.
Qed.

Lemma shl_shl m a b : 0 <= a -> 0 <= b -> shl (shl m a) b = shl m (a + b).
Proof.
  intros Ha Hb. apply Pos2Z.inj.
  rewrite !shl_value, Z.pow_add_r by lia. lia.
Qed.

Lemma iter_pos_swap {A} (f : A -> A) p x :
  iter_pos f p (f x) = f (iter_pos f p x).
Proof.
  revert x. induction p as [p IH|p IH|]; intros x; cbn; [|by rewrite !IH|done].
  by rewrite !IH.
Qed.

Lemma iter_pos_iter {A} (f : A -> A) p x : iter_pos f p x = Pos.iter f x p.
Proof.
  revert x. induction p as [p IH|p IH|]; intros x; cbn; [| |done].
  - by rewrite !iter_pos_swap, !IH.
  - by rewrite !IH.
Qed.

(** Shifting out zero bits is exact. *)
Lemma shr_exact m d :
  iter_pos shr_1 d (Build_shr_record (Zpos (Pos.iter xO m d)) false false)
  = Build_shr_record (Zpos m) false false.
Proof.
  rewrite iter_pos_iter. revert m.
  induction d as [|d IH] using Pos.peano_ind; intros m; [done|].
  rewrite Pos.iter_succ_r, Pos.iter_succ. cbn [shr_1 orb]. apply IH.
Qed.

Lemma fexp_normal x : - 1074 <= x - 53 -> fexp prec emax x = x - 53.
Proof. intros Hx. unfold fexp, emin, prec, emax. lia. Qed.

(** A mantissa of 53 bits at an exponent in range is kept as it is. *)
Lemma binary_round_aux_canonical m e :
  Zpos (digits2_pos m) = 53 -> - 1074 <= e <= 971 ->
  binary_round_aux prec emax false (Zpos m) e loc_Exact
  = S754_finite false m e.
Proof.
  intros Hm He. unfold binary_round_aux, shr_fexp.
  cbn [Zdigits2 shr_record_of_loc]. rewrite Hm, fexp_normal by lia.
  replace (53 + e - 53 - e) with 0 by lia. cbn [shr shr_m loc_of_shr_record
    round_nearest_even Zdigits2 shr_record_of_loc].
  rewrite Hm, fexp_normal by lia.
  replace (53 + e - 53 - e) with 0 by lia. cbn [shr shr_m].
  unfold emax, prec. destruct (Z.leb_spec e (1024 - 53)); [done|lia].
Qed.

(** [binary_round] of [q * 2 ^ a] at exponent [e], for a [q] of at most
    53 bits: the mantissa is moved to 53 bits without a loss. *)
Lemma binary_round_shl q a e :
  0 <= a -> Zpos (digits2_pos q) <= 53 ->
  - 1074 <= Zpos (digits2_pos q) + a + e - 53 <= 971 ->
  binary_round prec emax false (shl q a) e
  = S754_finite false (shl q (53 - Zpos (digits2_pos q)))
      (Zpos (digits2_pos q) + a + e - 53).
Proof.
  intros Ha Hq He. set (D := Zpos (digits2_pos q)) in *.
  assert (Zpos (digits2_pos (shl q (53 - D))) = 53) as Hfull
    by (rewrite shl_digits by lia; fold D; lia).
  unfold binary_round. rewrite shl_digits by done. fold D.
  rewrite fexp_normal by lia. unfold shl_align.
  destruct (D + a + e - 53 - e) as [|d|d] eqn:Hshift.
  - assert (a = 53 - D) as -> by lia.
    replace (D + (53 - D) + e - 53) with e by lia.
    apply binary_round_aux_canonical; [done|lia].
  - (* more bits than 53: the low bits are zeros *)
    unfold binary_round_aux, shr_fexp. cbn [Zdigits2 shr_record_of_loc].
    rewrite shl_digits by done. fold D. rewrite fexp_normal by lia.
    rewrite Hshift. cbn [shr].
    assert (shl q a = Pos.iter xO (shl q (53 - D)) d) as ->.
    { change (Pos.iter xO (shl q (53 - D)) d)
        with (shl (shl q (53 - D)) (Zpos d)).
      rewrite shl_shl by lia. f_equal. lia. }
    rewrite shr_exact.
    cbn [shr_m loc_of_shr_record round_nearest_even Zdigits2
         shr_record_of_loc].
    rewrite Hfull, fexp_normal by lia.
    replace (53 + (e + Zpos d) - 53 - (e + Zpos d)) with 0 by lia.
    cbn [shr shr_m]. replace (e + Zpos d) with (D + a + e - 53) by lia.
    unfold emax, prec.
    destruct (Z.leb_spec (D + a + e - 53) (1024 - 53)); [done|lia].
  - change (Pos.iter xO (shl q a) d) with (shl (shl q a) (Zpos d)).
    rewrite shl_shl by lia.
    replace (a + Zpos d) with (53 - D) by lia.
    apply binary_round_aux_canonical; [done|lia].
Qed.

(** The number of an integer from 1 to [2 ^ 53 - 1]. *)
Lemma float_of_Z_pos p :
  Zpos p < 2 ^ 53 ->
  float_of_Z (Zpos p)
  = S754_finite false (shl p (53 - Zpos (digits2_pos p)))
      (Zpos (digits2_pos p) - 53).
Proof.
  intros Hp. pose proof (digits2_pos_bounds p) as Hd.
  assert (Zpos (digits2_pos p) <= 53) as Hle.
  { destruct (Z.le_gt_cases (Zpos (digits2_pos p)) 53); [done|].
    assert (2 ^ 53 <= 2 ^ (Zpos (digits2_pos p) - 1))
      by (apply Z.pow_le_mono_r; lia). lia. }
  unfold float_of_Z, binary_normalize. change p with (shl p 0) at 1.
  rewrite binary_round_shl by lia. f_equal; lia.
Qed.

(** [n - 1] on the doubles of the integers from 1 to [2 ^ 53] is
    exact. *)
Lemma SFsub_float_of_Z_1 n :
  1 <= n <= 2 ^ 53 ->
  SFsub prec emax (float_of_Z n) (float_of_Z 1) = float_of_Z (n - 1).
Proof.
  intros Hn. destruct (Z.eq_dec n (2 ^ 53)) as [->|Hne].
  { vm_compute. reflexivity. }
  destruct n as [|p|p]; [lia| |lia].
  rewrite float_of_Z_pos by lia. change (float_of_Z 1) with
    (S754_finite false 4503599627370496 (-52)).
  pose proof (digits2_pos_bounds p) as Hd.
  set (D := Zpos (digits2_pos p)) in *.
  assert (1 <= D <= 53) as HD.
  { split; [lia|]. destruct (Z.le_gt_cases D 53); [done|].
    assert (2 ^ 53 <= 2 ^ (D - 1)) by (apply Z.pow_le_mono_r; lia). lia. }
  unfold SFsub. cbn [cond_Zopp].
  assert (Z.min (D - 53) (-52) = -52) as -> by lia.
  assert (fst (shl_align (shl p (53 - D)) (D - 53) (-52)) = shl p 52) as ->.
  { unfold shl_align. destruct (-52 - (D - 53)) as [|d|d] eqn:Hshift.
    - cbn [fst]. f_equal. lia.
    - lia.
    - cbn [fst]. change (Pos.iter xO (shl p (53 - D)) d)
        with (shl (shl p (53 - D)) (Zpos d)).
      rewrite shl_shl by lia. f_equal. lia. }
  change (fst (shl_align 4503599627370496 (-52) (-52))) with (shl 1 52).
  rewrite !shl_value by lia.
  destruct (Z.eq_dec (Zpos p) 1) as [Hone|Hmore].
  { rewrite Hone. done. }
  assert (Zpos p * 2 ^ 52 - 1 * 2 ^ 52 = Zpos (shl (Pos.pred p) 52)) as ->.
  { rewrite shl_value by lia. rewrite Pos2Z.inj_pred by lia. lia. }
  unfold binary_normalize.
  assert (Zpos p - 1 = Zpos (Pos.pred p)) as ->
    by (rewrite Pos2Z.inj_pred by lia; lia).
  assert (Zpos (Pos.pred p) < 2 ^ 53)
    by (rewrite Pos2Z.inj_pred by lia; lia).
  rewrite float_of_Z_pos by done.
  pose proof (digits2_pos_bounds (Pos.pred p)) as Hd'.
  assert (Zpos (digits2_pos (Pos.pred p)) <= 53) as Hle'.
  { destruct (Z.le_gt_cases (Zpos (digits2_pos (Pos.pred p))) 53); [done|].
    assert (2 ^ 53 <= 2 ^ (Zpos (digits2_pos (Pos.pred p)) - 1))
      by (apply Z.pow_le_mono_r; lia). lia. }
  rewrite binary_round_shl by lia. f_equal; lia.
Qed.

(** The number of a count is its double. *)
Lemma to_float_of_Z n :
  0 <= n <= 2 ^ 53 -> to_float (of_Z n) = float_of_Z n.
Proof.
  intros Hn. destruct (Z.eq_dec n (2 ^ 53)) as [->|Hne].
  { vm_compute. reflexivity. }
  destruct n as [|p|p]; [done| |lia].
  unfold of_Z. by rewrite float_of_Z_pos by lia.
Qed.

(** [n - 1] on the integers from 1 to [2 ^ 53] is exact. *)
Lemma sub_of_Z_1 n :
  1 <= n <= 2 ^ 53 -> sub (of_Z n) (of_Z 1) = of_Z (n - 1).
Proof.
  intros Hn. unfold sub. rewrite !to_float_of_Z by lia.
  by rewrite SFsub_float_of_Z_1.
Qed.

Lemma float_of_Z_sign n :
  0 <= n <= 2 ^ 53 ->
  SFltb (float_of_Z 0) (float_of_Z n) = (0 <? n) /\
  SFleb (float_of_Z 0) (float_of_Z n) = true.
Proof.
  intros Hn. destruct (Z.eq_dec n (2 ^ 53)) as [->|Hne].
  { vm_compute. done. }
  destruct n as [|p|p]; [done| |lia].
  by rewrite float_of_Z_pos by lia.
Qed.

Lemma gt_of_Z_0 n :
  0 <= n <= 2 ^ 53 -> gt (of_Z n) (of_Z 0) = (0 <? n).
Proof.
  intros Hn. unfold gt. rewrite !to_float_of_Z by lia.
  by apply float_of_Z_sign.
Qed.

Lemma ge_of_Z_0 n : 0 <= n <= 2 ^ 53 -> ge (of_Z n) (of_Z 0) = true.
Proof.
  intros Hn. unfold ge. rewrite !to_float_of_Z by lia.
  by apply float_of_Z_sign.
Qed.

(** A count is 0 or has an exponent of at least -52: its last bit stands
    for at least 1. *)
Lemma is_count_exponent x :
  is_count x ->
  x = Zero \/ exists m e, x = Finite false m e /\ - 52 <= e.
Proof.
  intros (n & Hn & ->). destruct (Z.eq_dec n (2 ^ 53)) as [->|Hne].
  { right. exists 4503599627370496%positive, 1.
    split; [vm_compute; reflexivity|lia]. }
  destruct n as [|p|p]; [by left| |lia]. right.
  unfold of_Z. rewrite float_of_Z_pos by lia.
  eexists _, _. split; [reflexivity|]. lia.
Qed.

End NumberFacts.

(** ** JSON *)

Module JSONFacts.
Import JSON.

#[global] Instance string_lossless : Lossless string.
Proof. by intros s. Qed.

#[global] Instance number_lossless : Lossless number.
Proof. by intros x. Qed.

#[global] Instance boolean_lossless : Lossless bool.
Proof. by intros b. Qed.

#[global] Instance array_lossless {A} `{Lossless A} : Lossless (list A).
Proof.
  intros l. cbn. induction l as [|a l IH]; [done|].
  cbn. rewrite decode_encode. cbn. rewrite IH. done.
Qed.

#[global] Instance DoseHistory_lossless : Lossless DoseHistory.
Proof. by intros []. Qed.

#[global] Instance Medication_lossless : Lossless Medication.
Proof.
  intros [id name dosage times startDate duration color re rr rc cs ts ra rfr
            [last|]].
  - unfold decode, encode, Medication_codec. cbn -[decode encode].
    unfold required, optional. cbn -[decode encode].
    rewrite !decode_encode. done.
  - unfold decode, encode, Medication_codec. cbn -[decode encode].
    unfold required, optional. cbn -[decode encode].
    rewrite !decode_encode. done.
Qed.
End JSONFacts.
(** ** The repository *)

Module StorageFacts.
Import JSON JSONFacts Async Storage Repository NumberFacts.

Lemma stored_absent {A} `{Codec A} key it :
  it !! key = None -> stored (A:=A) key it [].
Proof. intros Hk. by left. Qed.

Lemma stored_insert {A} `{Codec A} key it (l : list A) :
  stored key (<[key := JSON_stringify l]> it) l.
Proof. right. apply lookup_insert_eq. Qed.

Lemma stored_insert_ne {A} `{Codec A} key key' v it (l : list A) :
  key' <> key -> stored key it l -> stored key (<[key' := v]> it) l.
Proof. intros Hne. unfold stored. by rewrite lookup_insert_ne. Qed.

Lemma stored_parsed {A} `{Lossless A} key it (l : list A) :
  stored key it l -> parsed (it !! key) = l.
Proof.
  unfold stored, parsed, JSON_stringify.
  intros [[-> ->]| ->]; [done|]. by rewrite decode_encode.
Qed.

(** A stored list is the one list stored. *)
Lemma stored_inj {A} `{Lossless A} key it (l l' : list A) :
  stored key it l -> stored key it l' -> l = l'.
Proof.
  intros Hl Hl'. by rewrite <- (stored_parsed _ _ _ Hl), (stored_parsed _ _ _ Hl').
Qed.

Lemma read_stored {A} `{Lossless A} key w (l : list A) :
  stored key (items w) l -> read key w = l \/ read key w = [].
Proof.
  intros Hl. unfold read. destruct (next_fault w).1; [by right|left].
  by apply stored_parsed.
Qed.

Ltac frame_events :=
  unfold read_frame, write_failed, writes; cbn;
  rewrite ?List.filter_app, ?existsb_app; cbn;
  rewrite ?app_nil_r, ?orb_false_r; done.

Lemma getList_run {A} `{Codec A} key message w :
  exists w',
    getList (A:=A) key message w = (Return (read key w), w') /\
    read_frame w w'.
Proof.
  unfold getList, read, parsed, try_catch, bind, getItem, console_error, ret.
  destruct w as [it [|[] fs] rs ev]; cbn -[decode].
  2: { eexists; split; [reflexivity|frame_events]. }
  all: destruct (it !! key) as [[j|s]|]; cbn -[decode].
  all: try destruct (decode (A:=list A) j); try destruct s; cbn -[decode].
  all: eexists; split; [reflexivity|frame_events].
Qed.

Lemma getMedications_run w :
  exists w',
    getMedications w = (Return (read MEDICATIONS_KEY w), w') /\
    read_frame w w'.
Proof. apply (getList_run (A:=Medication)). Qed.

Lemma getDoseHistory_run w :
  exists w',
    getDoseHistory w = (Return (read DOSE_HISTORY_KEY w), w') /\
    read_frame w w'.
Proof. apply (getList_run (A:=DoseHistory)). Qed.

(** *** Runs without a fault of the store *)

Lemma getList_ok {A} `{Lossless A} key message it rs ev (l : list A) :
  stored key it l ->
  getList key message (mkWorld it [] rs ev)
  = (Return l, mkWorld it [] rs (ev ++ [GetItem key true])).
Proof.
  intros Hl. unfold getList, try_catch, bind, getItem, JSON_stringify. cbn.
  destruct Hl as [[-> ->]|Hl]; [done|]. rewrite Hl.
  unfold JSON_stringify, JSON_parse. cbn -[decode encode].
  by rewrite decode_encode.
Qed.

Lemma getMedications_ok it rs ev (l : list Medication) :
  stored MEDICATIONS_KEY it l ->
  getMedications (mkWorld it [] rs ev)
  = (Return l, mkWorld it [] rs (ev ++ [GetItem MEDICATIONS_KEY true])).
Proof. apply (getList_ok (A:=Medication)). Qed.

Lemma getDoseHistory_ok it rs ev (l : list DoseHistory) :
  stored DOSE_HISTORY_KEY it l ->
  getDoseHistory (mkWorld it [] rs ev)
  = (Return l, mkWorld it [] rs (ev ++ [GetItem DOSE_HISTORY_KEY true])).
Proof. apply (getList_ok (A:=DoseHistory)). Qed.

Lemma setItem_ok key value it rs ev :
  setItem key value (mkWorld it [] rs ev)
  = (Return tt,
     mkWorld (<[key := value]> it) [] rs (ev ++ [SetItem key value true])).
Proof. done. Qed.

Lemma addMedication_ok it rs ev (l : list Medication) medication :
  stored MEDICATIONS_KEY it l ->
  addMedication medication (mkWorld it [] rs ev)
  = (Return tt,
     mkWorld (<[MEDICATIONS_KEY := JSON_stringify (l ++ [medication])]> it)
       [] rs
       (ev ++ [GetItem MEDICATIONS_KEY true] ++
          [SetItem MEDICATIONS_KEY (JSON_stringify (l ++ [medication])) true])).
Proof.
  intros Hl. unfold addMedication, try_catch, bind.
  rewrite (getMedications_ok _ _ _ _ Hl), setItem_ok.
  by rewrite <- app_assoc.
Qed.

Lemma updateMedication_ok it rs ev (l : list Medication) updatedMedication :
  stored MEDICATIONS_KEY it l ->
  updateMedication updatedMedication (mkWorld it [] rs ev)
  = match list_find
            (fun med => Medication.id med = Medication.id updatedMedication)
            l with
    | Some (index, _) =>
        let l' := <[index := updatedMedication]> l in
        (Return tt,
         mkWorld (<[MEDICATIONS_KEY := JSON_stringify l']> it) [] rs
           (ev ++ [GetItem MEDICATIONS_KEY true] ++
              [SetItem MEDICATIONS_KEY (JSON_stringify l') true]))
    | None =>
        (Return tt, mkWorld it [] rs (ev ++ [GetItem MEDICATIONS_KEY true]))
    end.
Proof.
  intros Hl. unfold updateMedication, try_catch, bind.
  rewrite (getMedications_ok _ _ _ _ Hl).
  destruct (list_find _ l) as [[index med]|]; [|done].
  cbn zeta. rewrite setItem_ok. by rewrite <- app_assoc.
Qed.

(** [take_dose] is the search and the update of [recordDose]. *)
Lemma take_dose_find medicationId (l : list Medication) :
  take_dose medicationId l
  = match list_find (fun med => Medication.id med = medicationId) l with
    | Some (index, medication) =>
        if JSNumber.gt (Medication.currentSupply medication)
             (JSNumber.of_Z 0)
        then <[index := decrementSupply medication]> l
        else l
    | None => l
    end.
Proof.
  induction l as [|med l IH]; [done|]. cbn [take_dose list_find].
  destruct (String.eqb_spec (Medication.id med) medicationId) as [Heq|Hne].
  - rewrite decide_True by done. by destruct (JSNumber.gt _ _).
  - rewrite decide_False by done. rewrite IH.
    destruct (list_find _ l) as [[index medication]|]; cbn; [|done].
    by destruct (JSNumber.gt _ _).
Qed.

Lemma take_dose_length medicationId l :
  length (take_dose medicationId l) = length l.
Proof.
  induction l as [|med l IH]; [done|]. cbn.
  destruct (String.eqb _ _); cbn; by rewrite ?IH.
Qed.

Lemma take_dose_supplied medicationId l :
  Forall supplied l -> Forall supplied (take_dose medicationId l).
Proof.
  induction 1 as [|med l Hmed Hl IH]; [done|]. cbn.
  destruct (String.eqb _ _); [|by constructor].
  constructor; [|done].
  destruct Hmed as (n & Hn & Hsupply).
  rewrite Hsupply, gt_of_Z_0 by done.
  destruct (Z.ltb_spec 0 n); [|by exists n].
  exists (n - 1). split; [lia|]. unfold supplied. cbn.
  rewrite Hsupply. apply sub_of_Z_1. lia.
Qed.

Lemma recordDose_ok it rs ev (l : list Medication) (h : list DoseHistory)
    medicationId taken timestamp :
  stored MEDICATIONS_KEY it l ->
  stored DOSE_HISTORY_KEY it h ->
  let newDose := DoseHistory.mk (next_id rs) medicationId timestamp taken in
  exists it' ev',
    recordDose medicationId taken timestamp (mkWorld it [] rs ev)
    = (Return tt, mkWorld it' [] (tail rs) ev') /\
    stored DOSE_HISTORY_KEY it' (h ++ [newDose]) /\
    stored MEDICATIONS_KEY it' (if taken then take_dose medicationId l else l) /\
    (taken = false \/ no_decrement medicationId l ->
     it' !! MEDICATIONS_KEY = it !! MEDICATIONS_KEY /\
     writes ev' = writes ev ++
       [SetItem DOSE_HISTORY_KEY (JSON_stringify (h ++ [newDose])) true]).
Proof.
  intros Hl Hh newDose. unfold recordDose, try_catch, bind.
  rewrite (getDoseHistory_ok _ _ _ _ Hh).
  assert (random_id (mkWorld it [] rs (ev ++ [GetItem DOSE_HISTORY_KEY true]))
          = (Return (next_id rs),
             mkWorld it [] (tail rs) (ev ++ [GetItem DOSE_HISTORY_KEY true])))
    as -> by (by destruct rs).
  rewrite setItem_ok. fold newDose.
  set (it1 := <[DOSE_HISTORY_KEY := _]> it).
  assert (stored MEDICATIONS_KEY it1 l) as Hl1
    by (apply stored_insert_ne; [done|done]).
  assert (stored DOSE_HISTORY_KEY it1 (h ++ [newDose])) as Hh1
    by apply stored_insert.
  assert (it1 !! MEDICATIONS_KEY = it !! MEDICATIONS_KEY) as Hframe
    by (by apply lookup_insert_ne).
  destruct taken.
  2: { eexists _, _. split; [reflexivity|]. split_and!; [done..|].
       intros _. split; [done|]. unfold writes.
       rewrite !List.filter_app. cbn. by rewrite app_nil_r. }
  rewrite (getMedications_ok _ _ _ _ Hl1). rewrite take_dose_find.
  destruct (list_find _ l) as [[index medication]|] eqn:Hfind.
  2: { eexists _, _. split; [reflexivity|]. split_and!; [done..|].
       intros _. split; [done|]. unfold writes.
       rewrite !List.filter_app. cbn. by rewrite !app_nil_r. }
  destruct (JSNumber.gt (Medication.currentSupply medication)
              (JSNumber.of_Z 0)) eqn:Hpos.
  2: { eexists _, _. split; [reflexivity|]. split_and!; [done..|].
       intros _. split; [done|]. unfold writes.
       rewrite !List.filter_app. cbn. by rewrite !app_nil_r. }
  cbn zeta. rewrite (updateMedication_ok _ _ _ _ _ Hl1).
  apply list_find_Some in Hfind as Hfind'. destruct Hfind' as (Hi & Hid & Hbefore).
  assert (list_find
            (fun med => Medication.id med
                        = Medication.id (decrementSupply medication)) l
          = Some (index, medication)) as ->.
  { cbn [decrementSupply Medication.id]. rewrite Hid. exact Hfind. }
  cbn zeta. eexists _, _. split; [reflexivity|]. split_and!.
  - apply stored_insert_ne; [done|done].
  - apply stored_insert.
  - intros [?|Hsame]; [done|]. exfalso.
    unfold no_decrement in Hsame. rewrite Hfind in Hsame. congruence.
Qed.

(** *** Hoare rules *)

Section Rules.
Context {A B : Type}.
Implicit Types (P E : World -> Prop).

Lemma hoare_ret P (Q : A -> World -> Prop) E a :
  (forall w, P w -> Q a w) -> hoare P (ret a) Q E.
Proof. intros HQ w Hw. by apply HQ. Qed.

Lemma hoare_throw P (Q : A -> World -> Prop) E e :
  (forall w, P w -> E w) -> hoare P (throw e) Q E.
Proof. intros HE w Hw. by apply HE. Qed.

Lemma hoare_bind P (R : A -> World -> Prop) (Q : B -> World -> Prop) E
    (m : Promise A) (k : A -> Promise B) :
  hoare P m R E -> (forall a, hoare (R a) (k a) Q E) ->
  hoare P (bind m k) Q E.
Proof.
  intros Hm Hk w Hw. unfold bind. specialize (Hm w Hw).
  destruct (m w) as [[a|e] w']; [|done]. by apply Hk.
Qed.

Lemma hoare_try P (Q : A -> World -> Prop) R E
    (m : Promise A) (handler : error -> Promise A) :
  hoare P m Q R -> (forall e, hoare R (handler e) Q E) ->
  hoare P (try_catch m handler) Q E.
Proof.
  intros Hm Hh w Hw. unfold try_catch. specialize (Hm w Hw).
  destruct (m w) as [[a|e] w']; [done|]. by apply Hh.
Qed.

Lemma hoare_weaken P P' (Q Q' : A -> World -> Prop) E E' (m : Promise A) :
  hoare P' m Q' E' ->
  (forall w, P w -> P' w) -> (forall a w, Q' a w -> Q a w) ->
  (forall w, E' w -> E w) ->
  hoare P m Q E.
Proof.
  intros Hm HP HQ HE w Hw. specialize (Hm w (HP w Hw)).
  destruct (m w) as [[a|e] w']; auto.
Qed.
End Rules.

Lemma stable_supplies : stable supplies_nonneg.
Proof.
  intros w w' Hit _ (l & Hl & Hall). exists l. by rewrite Hit.
Qed.

Lemma stable_quiet : stable quiet.
Proof. intros w w' _ Hwf Hw. unfold quiet. by rewrite Hwf. Qed.

Section Stable.
Variable I : World -> Prop.
Hypothesis I_stable : stable I.

Lemma hoare_getList {A} `{Codec A} key message :
  hoare I (getList (A:=A) key message)
    (fun l w' => I w' /\ exists w, I w /\ l = read key w /\ items w' = items w)
    I.
Proof.
  intros w Hw. destruct (getList_run (A:=A) key message w)
    as (w' & -> & Hit & _ & _ & _ & Hwf).
  split; [by apply (I_stable w)|]. by exists w.
Qed.

Lemma hoare_console_error message :
  hoare I (console_error message) (fun _ => I) I.
Proof.
  intros w Hw. cbn. apply (I_stable w); [done| |done].
  unfold write_failed. cbn. rewrite existsb_app. cbn. by rewrite !orb_false_r.
Qed.

Lemma hoare_console_log message :
  hoare I (console_log message) (fun _ => I) I.
Proof.
  intros w Hw. cbn. apply (I_stable w); [done| |done].
  unfold write_failed. cbn. rewrite existsb_app. cbn. by rewrite !orb_false_r.
Qed.

Lemma hoare_random_id : hoare I random_id (fun _ => I) I.
Proof.
  intros w Hw. unfold random_id.
  destruct (randoms w); [done|]. by apply (I_stable w).
Qed.

(** The handler of every writing operation: log, then rethrow. *)
Lemma hoare_rethrow {A} (Q : A -> World -> Prop) (E : World -> Prop)
    message e :
  (forall w, I w -> E w) ->
  hoare I (bind (console_error message) (fun _ => throw e)) Q E.
Proof.
  intros HE w Hw. unfold bind, throw.
  pose proof (hoare_console_error message w Hw) as Hlog.
  destruct (console_error message w) as [[[]|e'] w']; auto.
Qed.
End Stable.

Lemma hoare_pure {A} (P : World -> Prop) (phi : Prop) (m : Promise A) Q E :
  (phi -> hoare P m Q E) -> hoare (fun w => P w /\ phi) m Q E.
Proof. intros Hm w [Hw Hphi]. by apply Hm. Qed.

(** *** Supplies stay counts, whatever the faults *)

Lemma supplies_read w :
  supplies_nonneg w -> Forall supplied (read MEDICATIONS_KEY w).
Proof.
  intros (l & Hl & Hall).
  by destruct (read_stored _ _ _ Hl) as [-> | ->].
Qed.

Lemma supplies_getMedications :
  hoare supplies_nonneg getMedications
    (fun l w => supplies_nonneg w /\ Forall supplied l) supplies_nonneg.
Proof.
  eapply hoare_weaken;
    [apply (hoare_getList _ stable_supplies (A:=Medication))|done| |done].
  intros l w' (Hw' & w & Hw & -> & _). split; [done|]. by apply supplies_read.
Qed.

Lemma supplies_getDoseHistory :
  hoare supplies_nonneg getDoseHistory
    (fun _ w => supplies_nonneg w) supplies_nonneg.
Proof.
  eapply hoare_weaken;
    [apply (hoare_getList _ stable_supplies (A:=DoseHistory))|done| |done].
  by intros l w' (Hw' & _).
Qed.

Lemma supplies_setItem_medications (l : list Medication) :
  Forall supplied l ->
  hoare supplies_nonneg (setItem MEDICATIONS_KEY (JSON_stringify l))
    (fun _ w => supplies_nonneg w) supplies_nonneg.
Proof.
  intros Hall [it [|[] fs] rs ev] Hw; cbn; try done.
  all: exists l; split; [apply stored_insert|done].
Qed.

Lemma supplies_setItem_doses value :
  hoare supplies_nonneg (setItem DOSE_HISTORY_KEY value)
    (fun _ w => supplies_nonneg w) supplies_nonneg.
Proof.
  intros [it [|[] fs] rs ev] (l & Hl & Hall); cbn; try by exists l.
  all: exists l; split; [by apply stored_insert_ne|done].
Qed.

Lemma supplies_removeItem key :
  hoare supplies_nonneg (removeItem key)
    (fun _ w => supplies_nonneg w) supplies_nonneg.
Proof.
  assert (forall it, (exists l : list Medication,
              stored MEDICATIONS_KEY it l /\ Forall supplied l) ->
            exists l : list Medication,
              stored MEDICATIONS_KEY (delete key it) l /\ Forall supplied l)
    as Hdelete.
  { intros it (l & Hl & Hall).
    destruct (decide (key = MEDICATIONS_KEY)) as [->|Hne].
    - exists []. split; [|done]. left. split; [|done]. apply lookup_delete_eq.
    - exists l. split; [|done]. unfold stored. by rewrite lookup_delete_ne. }
  intros [it [|[] fs] rs ev] Hw; cbn; try done.
  all: by apply Hdelete.
Qed.

Ltac supplies_handler :=
  intros ?; apply hoare_rethrow; [apply stable_supplies|done].

Lemma supplies_addMedication medication :
  supplied medication ->
  hoare supplies_nonneg (addMedication medication)
    (fun _ w => supplies_nonneg w) supplies_nonneg.
Proof.
  intros Hm. eapply hoare_try; [|supplies_handler].
  eapply hoare_bind; [apply supplies_getMedications|].
  intros l. apply hoare_pure. intros Hl.
  apply supplies_setItem_medications. apply Forall_app. by split; [|constructor].
Qed.

Lemma supplies_updateMedication updatedMedication :
  supplied updatedMedication ->
  hoare supplies_nonneg (updateMedication updatedMedication)
    (fun _ w => supplies_nonneg w) supplies_nonneg.
Proof.
  intros Hm. eapply hoare_try; [|supplies_handler].
  eapply hoare_bind; [apply supplies_getMedications|].
  intros l. apply hoare_pure. intros Hl.
  destruct (list_find _ l) as [[index med]|]; [|by apply hoare_ret].
  apply supplies_setItem_medications. by apply Forall_insert.
Qed.

Lemma supplies_filter (keep : Medication -> bool) l :
  Forall supplied l -> Forall supplied (List.filter keep l).
Proof.
  induction 1 as [|med l Hmed Hl IH]; cbn; [done|].
  destruct (keep med); [by constructor|done].
Qed.

Lemma supplies_deleteMedication id :
  hoare supplies_nonneg (deleteMedication id)
    (fun _ w => supplies_nonneg w) supplies_nonneg.
Proof.
  eapply hoare_try; [|supplies_handler].
  eapply hoare_bind; [apply supplies_getMedications|].
  intros l. apply hoare_pure. intros Hl.
  by apply supplies_setItem_medications, supplies_filter.
Qed.

Lemma supplies_recordDose medicationId taken timestamp :
  hoare supplies_nonneg (recordDose medicationId taken timestamp)
    (fun _ w => supplies_nonneg w) supplies_nonneg.
Proof.
  eapply hoare_try; [|supplies_handler].
  eapply hoare_bind; [apply supplies_getDoseHistory|]. intros history.
  eapply hoare_bind; [apply (hoare_random_id _ stable_supplies)|]. intros id.
  eapply hoare_bind; [apply supplies_setItem_doses|]. intros ?.
  destruct taken; [|by apply hoare_ret].
  eapply hoare_bind; [apply supplies_getMedications|].
  intros l. apply hoare_pure. intros Hl.
  destruct (list_find _ l) as [[index med]|] eqn:Hfind; [|by apply hoare_ret].
  apply list_find_Some in Hfind as (Hindex & _).
  destruct (Forall_lookup_1 _ _ _ _ Hl Hindex) as (n & Hn & Hsupply).
  rewrite Hsupply, gt_of_Z_0 by done.
  destruct (Z.ltb_spec 0 n); [|by apply hoare_ret].
  apply supplies_updateMedication. exists (n - 1). split; [lia|].
  cbn. rewrite Hsupply. apply sub_of_Z_1. lia.
Qed.

Lemma supplies_clearAllData :
  hoare supplies_nonneg clearAllData
    (fun _ w => supplies_nonneg w) supplies_nonneg.
Proof.
  eapply hoare_try; [|supplies_handler].
  eapply hoare_bind; [apply supplies_removeItem|]. intros ?.
  eapply hoare_bind; [apply supplies_removeItem|]. intros ?.
  apply (hoare_console_log _ stable_supplies).
Qed.

Section Dates.
Variable Date_parse : string -> JSDate.Date.

Lemma supplies_clearDataForDateRange startDate endDate :
  hoare supplies_nonneg (clearDataForDateRange Date_parse startDate endDate)
    (fun _ w => supplies_nonneg w) supplies_nonneg.
Proof.
  eapply hoare_try; [|supplies_handler].
  eapply hoare_bind; [apply supplies_getMedications|].
  intros l. apply hoare_pure. intros Hl.
  eapply hoare_bind; [apply supplies_getDoseHistory|]. intros history.
  eapply hoare_bind;
    [by apply supplies_setItem_medications, supplies_filter|]. intros ?.
  eapply hoare_bind; [apply supplies_setItem_doses|]. intros ?.
  apply (hoare_console_log _ stable_supplies).
Qed.

Lemma supplies_clearOldData beforeDate :
  hoare supplies_nonneg (clearOldData Date_parse beforeDate)
    (fun _ w => supplies_nonneg w) supplies_nonneg.
Proof.
  eapply hoare_try; [|supplies_handler].
  eapply hoare_bind; [apply supplies_getMedications|].
  intros l. apply hoare_pure. intros Hl.
  eapply hoare_bind; [apply supplies_getDoseHistory|]. intros history.
  eapply hoare_bind;
    [by apply supplies_setItem_medications, supplies_filter|]. intros ?.
  eapply hoare_bind; [apply supplies_setItem_doses|]. intros ?.
  apply (hoare_console_log _ stable_supplies).
Qed.

Lemma supplies_run c :
  admissible c ->
  hoare supplies_nonneg (run Date_parse c)
    (fun _ w => supplies_nonneg w) supplies_nonneg.
Proof.
  destruct c; cbn; intros Hc.
  - by apply supplies_addMedication.
  - by apply supplies_updateMedication.
  - apply supplies_deleteMedication.
  - apply supplies_recordDose.
  - apply supplies_clearAllData.
  - apply supplies_clearDataForDateRange.
  - apply supplies_clearOldData.
Qed.

Lemma reachable_supplies w :
  reachable Date_parse w -> supplies_nonneg w.
Proof.
  induction 1 as [fs rs|w c Hw IH Hc].
  - exists []. split; [|done]. by left.
  - pose proof (supplies_run c Hc w IH) as Hrun.
    by destruct (run Date_parse c w) as [[[]|e] w'].
Qed.

Lemma reachable_run_all cs w :
  Forall admissible cs ->
  reachable Date_parse w -> reachable Date_parse (run_all Date_parse cs w).
Proof.
  intros Hcs. revert w. induction Hcs as [|c cs Hc Hcs IH]; intros w Hw.
  - done.
  - cbn. apply IH. by constructor.
Qed.
End Dates.

(** *** A rejected write rejects the operation *)

Lemma loud_ret {A} (a : A) : loud (ret a).
Proof. by apply hoare_ret. Qed.

Lemma loud_bind {A B} (m : Promise A) (k : A -> Promise B) :
  loud m -> (forall a, loud (k a)) -> loud (bind m k).
Proof. intros Hm Hk. eapply hoare_bind; [apply Hm|apply Hk]. Qed.

(** The handler of a writing operation rethrows what it caught. *)
Lemma loud_try_rethrow {A} (m : Promise A) message :
  loud m ->
  loud (try_catch m
          (fun error => bind (console_error message) (fun _ => throw error))).
Proof.
  intros Hm. eapply hoare_try; [apply Hm|]. by intros e w _.
Qed.

Lemma loud_getList {A} `{Codec A} key message :
  loud (getList (A:=A) key message).
Proof.
  eapply hoare_weaken; [apply (hoare_getList _ stable_quiet)|done| |done].
  by intros l w [Hw _].
Qed.

Lemma quiet_emit e w : failed e = false -> quiet w -> quiet (emit e w).
Proof.
  unfold quiet, write_failed. cbn. intros He Hw.
  rewrite existsb_app, Hw. cbn. by rewrite He.
Qed.

Lemma loud_setItem key value : loud (setItem key value).
Proof.
  intros [it [|[] fs] rs ev] Hw; cbn; try done.
  all: by apply (quiet_emit (SetItem key value true)).
Qed.

Lemma loud_removeItem key : loud (removeItem key).
Proof.
  intros [it [|[] fs] rs ev] Hw; cbn; try done.
  all: by apply (quiet_emit (RemoveItem key true)).
Qed.

Lemma loud_keeps {A} (m : Promise A) :
  hoare quiet m (fun _ w => quiet w) quiet -> loud m.
Proof. intros Hm. by eapply hoare_weaken; [apply Hm|..]. Qed.

Lemma loud_console_log message : loud (console_log message).
Proof. apply loud_keeps, (hoare_console_log _ stable_quiet). Qed.

Lemma loud_random_id : loud random_id.
Proof. apply loud_keeps, (hoare_random_id _ stable_quiet). Qed.

Lemma loud_getMedications : loud getMedications.
Proof. apply (loud_getList (A:=Medication)). Qed.

Lemma loud_getDoseHistory : loud getDoseHistory.
Proof. apply (loud_getList (A:=DoseHistory)). Qed.

Create HintDb loud.
#[local] Hint Resolve loud_ret loud_getMedications loud_getDoseHistory
  loud_setItem loud_removeItem loud_console_log loud_random_id : loud.

Ltac loud_steps :=
  repeat first
    [ apply loud_try_rethrow
    | apply loud_bind; [|intros ?]
    | solve [auto with loud]
    | match goal with |- loud (match ?x with _ => _ end) => destruct x end
    | match goal with |- loud (if ?x then _ else _) => destruct x end
    | match goal with |- loud (let _ := _ in _) => cbn zeta end ].

Lemma loud_addMedication medication : loud (addMedication medication).
Proof. unfold addMedication. loud_steps. Qed.

Lemma loud_updateMedication updatedMedication :
  loud (updateMedication updatedMedication).
Proof. unfold updateMedication. loud_steps. Qed.

Lemma loud_deleteMedication id : loud (deleteMedication id).
Proof. unfold deleteMedication. loud_steps. Qed.

#[local] Hint Resolve loud_updateMedication : loud.

Lemma loud_recordDose medicationId taken timestamp :
  loud (recordDose medicationId taken timestamp).
Proof. unfold recordDose. loud_steps. Qed.

Lemma loud_clearAllData : loud clearAllData.
Proof. unfold clearAllData. loud_steps. Qed.

Lemma loud_run Date_parse c : loud (run Date_parse c).
Proof.
  destruct c; cbn.
  - apply loud_addMedication.
  - apply loud_updateMedication.
  - apply loud_deleteMedication.
  - apply loud_recordDose.
  - apply loud_clearAllData.
  - unfold clearDataForDateRange. loud_steps.
  - unfold clearOldData. loud_steps.
Qed.

(** *** Clearing a range of dates *)

Lemma outside_in_range s e (d : JSDate.Date) :
  is_Some d ->
  JSDate.lt d (Some s) || JSDate.gt d (Some e) = negb (in_range s e d).
Proof.
  intros [t ->]. unfold JSDate.gt, within. cbn. unfold within.
  destruct (Z.ltb_spec t s), (Z.leb_spec s t), (Z.ltb_spec e t),
    (Z.leb_spec t e); cbn; (done || lia).
Qed.

(** An entry whose date is invalid is not kept. *)
Lemma outside_invalid startDate endDate :
  JSDate.lt None startDate || JSDate.gt None endDate = false.
Proof. unfold JSDate.gt. by destruct endDate. Qed.

Lemma filter_outside {A} (date : A -> JSDate.Date) s e (l : list A) :
  Forall (fun a => is_Some (date a)) l ->
  List.filter
    (fun a => JSDate.lt (date a) (Some s) || JSDate.gt (date a) (Some e)) l
  = List.filter (fun a => negb (in_range s e (date a))) l.
Proof.
  induction 1 as [|a l Ha Hl IH]; [done|]. cbn [List.filter].
  by rewrite (outside_in_range s e (date a) Ha), IH.
Qed.

Lemma clearDataForDateRange_ok Date_parse it rs ev
    (l : list Medication) (h : list DoseHistory) startDate endDate :
  stored MEDICATIONS_KEY it l ->
  stored DOSE_HISTORY_KEY it h ->
  let l' :=
    List.filter
      (fun med =>
         JSDate.lt (Date_parse (Medication.startDate med)) startDate
         || JSDate.gt (Date_parse (Medication.startDate med)) endDate) l in
  let h' :=
    List.filter
      (fun dose =>
         JSDate.lt (Date_parse (DoseHistory.timestamp dose)) startDate
         || JSDate.gt (Date_parse (DoseHistory.timestamp dose)) endDate) h in
  exists it' ev',
    clearDataForDateRange Date_parse startDate endDate (mkWorld it [] rs ev)
    = (Return tt, mkWorld it' [] rs ev') /\
    stored MEDICATIONS_KEY it' l' /\ stored DOSE_HISTORY_KEY it' h' /\
    writes ev' = writes ev ++
      [SetItem MEDICATIONS_KEY (JSON_stringify l') true;
       SetItem DOSE_HISTORY_KEY (JSON_stringify h') true].
Proof.
  intros Hl Hh l' h'. unfold clearDataForDateRange, try_catch, bind.
  rewrite (getMedications_ok _ _ _ _ Hl), (getDoseHistory_ok _ _ _ _ Hh).
  cbn zeta. rewrite !setItem_ok. unfold console_log, emit.
  cbn [items faults randoms events].
  eexists _, _. split; [reflexivity|]. subst l' h'. split_and!.
  - apply stored_insert_ne; [done|]. apply stored_insert.
  - apply stored_insert.
  - unfold writes. rewrite !List.filter_app. cbn.
    by rewrite !app_nil_r, <- app_assoc.
Qed.

(** *** An update for an id that is not stored *)

Lemma updateMedication_absent w (l : list Medication) updatedMedication :
  stored MEDICATIONS_KEY (items w) l ->
  Forall (fun med => Medication.id med <> Medication.id updatedMedication) l ->
  exists w',
    updateMedication updatedMedication w = (Return tt, w') /\
    items w' = items w /\ writes (events w') = writes (events w).
Proof.
  intros Hl Hnone. unfold updateMedication, try_catch, bind.
  destruct (getMedications_run w) as (w' & -> & Hit & _ & _ & Hwr & _).
  assert (list_find
            (fun med => Medication.id med = Medication.id updatedMedication)
            (read MEDICATIONS_KEY w) = None) as ->.
  { apply list_find_None.
    by destruct (read_stored _ _ _ Hl) as [-> | ->]. }
  by exists w'.
Qed.

End StorageFacts.

(** ** Local midnights *)

Module MidnightFacts.
Import JSDate DateFields Calendar DateFacts.

Section Midnight.
Variable LocalTZA : Z.

Lemma localMidnight_le tv : localMidnight LocalTZA tv <= tv.
Proof.
  unfold localMidnight, LocalTime, Day.
  pose proof (Z.div_mod (tv + LocalTZA) msPerDay ltac:(done)).
  pose proof (Z.mod_pos_bound (tv + LocalTZA) msPerDay ltac:(done)). lia.
Qed.

(** [setHours(0, 0, 0, 0)] on a valid date whose local midnight is a
    valid date. *)
Lemma setHours_localMidnight tv :
  tv <= maxTime -> - maxTime <= localMidnight LocalTZA tv ->
  setHours LocalTZA (Some tv) 0 0 0 0 = Some (localMidnight LocalTZA tv).
Proof.
  intros Hhigh Hlow. pose proof (localMidnight_le tv) as Hle. cbn.
  unfold UTC, MakeDate, MakeTime.
  replace (Day (LocalTime LocalTZA tv) * msPerDay
           + (0 * msPerHour + 0 * msPerMinute + 0 * msPerSecond + 0)
           - LocalTZA)
    with (localMidnight LocalTZA tv) by (unfold localMidnight; lia).
  apply TimeClip_in. lia.
Qed.

(** Local midnights are ordered as the local days are. *)
Lemma localMidnight_days a b k :
  localMidnight LocalTZA a <= localMidnight LocalTZA b + k * msPerDay
  <-> Day (LocalTime LocalTZA a) <= Day (LocalTime LocalTZA b) + k.
Proof. unfold localMidnight, msPerDay. lia. Qed.

End Midnight.
End MidnightFacts.

(** * The claims of the specification *)

Import JSDate DateFields Calendar JSON Async Storage Repository.
Import DateFacts CalendarFacts NumberFacts JSONFacts StorageFacts.
Import MidnightFacts.

(** ** The scheduling predicate

    [ts] and [tq] are the time values of the start date, as
    [new Date(medication.startDate)] reads it, and of the query date;
    both are valid dates whose local midnight is a valid date.  The
    predicate compares the local days on which the two instants lie. *)

(** C1, as amended: for a medication whose duration is not "Ongoing" and
    holds an integer [N], both dates are set to the local midnight of
    their local day, and [isMedicationScheduledForDate] is true exactly
    when the local day of the query date lies from the local day of the
    start instant to [N - 1] days after it.  With "30 days" from an
    instant on the local day 2024-01-01 it is true on 2024-01-30 and
    false on 2024-01-31.  (For [N = 0] the day before the start has to
    be a representable date.) *)
Theorem scheduled_within_day_count LocalTZA Date_parse m d ts tq N :
  Medication.duration m <> "Ongoing" ->
  durationDaysOf (Medication.duration m) = Some N ->
  Date_parse (Medication.startDate m) = Some ts ->
  d = Some tq ->
  ts <= maxTime -> - maxTime <= localMidnight LocalTZA ts ->
  tq <= maxTime -> - maxTime <= localMidnight LocalTZA tq ->
  (N = 0 -> - maxTime <= localMidnight LocalTZA ts - msPerDay) ->
  normalizedStart LocalTZA Date_parse m = Some (localMidnight LocalTZA ts) /\
  normalized LocalTZA d = Some (localMidnight LocalTZA tq) /\
  (isMedicationScheduledForDate LocalTZA Date_parse m d = true
   <-> Day (LocalTime LocalTZA ts) <= Day (LocalTime LocalTZA tq)
       <= Day (LocalTime LocalTZA ts) + (N - 1)) /\
  (Medication.duration m = "30 days" ->
   Day (LocalTime LocalTZA ts) = MakeDay 2024 0 1 ->
   (Day (LocalTime LocalTZA tq) = MakeDay 2024 0 30 ->
    isMedicationScheduledForDate LocalTZA Date_parse m d = true) /\
   (Day (LocalTime LocalTZA tq) = MakeDay 2024 0 31 ->
    isMedicationScheduledForDate LocalTZA Date_parse m d = false)).
Proof.
  intros Hdur HN Hts -> Hs1 Hs2 Hq1 Hq2 Hlow.
  assert (normalizedStart LocalTZA Date_parse m
          = Some (localMidnight LocalTZA ts)) as Hs
    by (unfold normalizedStart; rewrite Hts; by apply setHours_localMidnight).
  assert (normalized LocalTZA (Some tq) = Some (localMidnight LocalTZA tq))
    as Hq by (by apply setHours_localMidnight).
  pose proof (scheduled_bounded _ _ _ _ _ _ _ Hdur HN Hs Hq Hlow) as Hiff.
  assert (isMedicationScheduledForDate LocalTZA Date_parse m (Some tq) = true
          <-> Day (LocalTime LocalTZA ts) <= Day (LocalTime LocalTZA tq)
              <= Day (LocalTime LocalTZA ts) + (N - 1)) as Hdays.
  { rewrite Hiff. unfold localMidnight, msPerDay. lia. }
  split; [done|]. split; [done|]. split; [done|]. intros H30 Hstart.
  rewrite H30 in HN. vm_compute in HN. injection HN as <-.
  change (MakeDay 2024 0 1) with 19723 in Hstart.
  split; intros Hd.
  - change (MakeDay 2024 0 30) with 19752 in Hd. apply Hdays. lia.
  - change (MakeDay 2024 0 31) with 19753 in Hd.
    apply not_true_is_false. rewrite Hdays. lia.
Qed.

Lemma scheduled_within_day_count_witness :
  isMedicationScheduledForDate 0 ISO.Date_parse Sample.amoxicillin
    (ISO.Date_parse "2024-01-30T10:00:00.000Z") = true.
Proof.
  assert (Medication.duration Sample.amoxicillin <> "Ongoing") as Hdur
    by discriminate.
  assert (durationDaysOf (Medication.duration Sample.amoxicillin) = Some 30)
    as HN by (vm_compute; reflexivity).
  assert (ISO.Date_parse (Medication.startDate Sample.amoxicillin)
          = Some 1704097800000) as Hts by (vm_compute; reflexivity).
  assert (ISO.Date_parse "2024-01-30T10:00:00.000Z" = Some 1706608800000)
    as Hd by (vm_compute; reflexivity).
  assert (1704097800000 <= maxTime) as Hs1 by (vm_compute; discriminate).
  assert (- maxTime <= localMidnight 0 1704097800000) as Hs2
    by (vm_compute; discriminate).
  assert (1706608800000 <= maxTime) as Hq1 by (vm_compute; discriminate).
  assert (- maxTime <= localMidnight 0 1706608800000) as Hq2
    by (vm_compute; discriminate).
  assert (30 = 0 -> - maxTime <= localMidnight 0 1704097800000 - msPerDay)
    as Hlow by discriminate.
  destruct (scheduled_within_day_count 0 ISO.Date_parse Sample.amoxicillin
              _ _ _ _ Hdur HN Hts Hd Hs1 Hs2 Hq1 Hq2 Hlow)
    as (_ & _ & _ & H30).
  destruct H30 as [Hin _]; [reflexivity|vm_compute; reflexivity|].
  apply Hin. vm_compute. reflexivity.
Defined.

(** C1, as the specification states it, fails for a start date written
    without a time.  [new Date("2024-01-01")] is midnight UTC; five hours
    west of UTC that instant lies on the local day 2023-12-31, so the
    thirty days run from 2023-12-31 to 2024-01-29: the medication is
    scheduled on 2023-12-31 and not on 2024-01-30. *)
Lemma scheduled_start_without_time :
  Medication.startDate Sample.course = "2024-01-01" /\
  Medication.duration Sample.course = "30 days" /\
  ISO.Date_parse "2024-01-01" = Some 1704067200000 /\
  isMedicationScheduledForDate (-18000000) ISO.Date_parse Sample.course
    (fromYMD (-18000000) 2024 0 30) = false /\
  isMedicationScheduledForDate (-18000000) ISO.Date_parse Sample.course
    (fromYMD (-18000000) 2023 11 31) = true.
Proof. by vm_compute. Qed.

(** C4: for a medication whose duration is "Ongoing", both dates are set
    to the local midnight of their local day, and
    [isMedicationScheduledForDate] is true exactly when the normalized
    query date is on or after the normalized start date, that is when
    the local day of the query date is not before the local day of the
    start instant: there is no upper bound. *)
Theorem scheduled_ongoing LocalTZA Date_parse m d ts tq :
  Medication.duration m = "Ongoing" ->
  Date_parse (Medication.startDate m) = Some ts ->
  d = Some tq ->
  ts <= maxTime -> - maxTime <= localMidnight LocalTZA ts ->
  tq <= maxTime -> - maxTime <= localMidnight LocalTZA tq ->
  normalizedStart LocalTZA Date_parse m = Some (localMidnight LocalTZA ts) /\
  normalized LocalTZA d = Some (localMidnight LocalTZA tq) /\
  (isMedicationScheduledForDate LocalTZA Date_parse m d = true
   <-> localMidnight LocalTZA ts <= localMidnight LocalTZA tq) /\
  (Day (LocalTime LocalTZA ts) <= Day (LocalTime LocalTZA tq) ->
   isMedicationScheduledForDate LocalTZA Date_parse m d = true) /\
  (Day (LocalTime LocalTZA tq) < Day (LocalTime LocalTZA ts) ->
   isMedicationScheduledForDate LocalTZA Date_parse m d = false).
Proof.
  intros Hdur Hts -> Hs1 Hs2 Hq1 Hq2.
  assert (normalizedStart LocalTZA Date_parse m
          = Some (localMidnight LocalTZA ts)) as Hs
    by (unfold normalizedStart; rewrite Hts; by apply setHours_localMidnight).
  assert (normalized LocalTZA (Some tq) = Some (localMidnight LocalTZA tq))
    as Hq by (by apply setHours_localMidnight).
  pose proof (scheduled_unbounded _ _ _ _ _ _ Hs Hq (or_introl Hdur)) as Hiff.
  split; [done|]. split; [done|]. split; [done|]. split.
  - intros Hle. apply Hiff. unfold localMidnight, msPerDay. lia.
  - intros Hlt. apply not_true_is_false. rewrite Hiff.
    unfold localMidnight, msPerDay. lia.
Qed.

Lemma scheduled_ongoing_witness :
  isMedicationScheduledForDate 0 ISO.Date_parse Sample.vitaminD
    (ISO.Date_parse "2031-07-15T10:00:00.000Z") = true.
Proof.
  assert (Medication.duration Sample.vitaminD = "Ongoing") as Hdur
    by reflexivity.
  assert (ISO.Date_parse (Medication.startDate Sample.vitaminD)
          = Some 1704067200000) as Hts by (vm_compute; reflexivity).
  assert (ISO.Date_parse "2031-07-15T10:00:00.000Z" = Some 1941876000000)
    as Hd by (vm_compute; reflexivity).
  assert (1704067200000 <= maxTime) as Hs1 by (vm_compute; discriminate).
  assert (- maxTime <= localMidnight 0 1704067200000) as Hs2
    by (vm_compute; discriminate).
  assert (1941876000000 <= maxTime) as Hq1 by (vm_compute; discriminate).
  assert (- maxTime <= localMidnight 0 1941876000000) as Hq2
    by (vm_compute; discriminate).
  destruct (scheduled_ongoing 0 ISO.Date_parse Sample.vitaminD
              _ _ _ Hdur Hts Hd Hs1 Hs2 Hq1 Hq2) as (_ & _ & _ & Hge & _).
  apply Hge. vm_compute. discriminate.
Defined.

(** C5: a duration that is not "Ongoing" and holds no digit is no error:
    both dates are set to the local midnight of their local day, and the
    medication is scheduled exactly when the normalized query date is on
    or after the normalized start date, that is on every local day from
    the local day of the start instant on, exactly as a medication that
    is "Ongoing" from the same start date. *)
Theorem scheduled_without_day_count LocalTZA Date_parse m d ts tq :
  Medication.duration m <> "Ongoing" ->
  has_digit (Medication.duration m) = false ->
  Date_parse (Medication.startDate m) = Some ts ->
  d = Some tq ->
  ts <= maxTime -> - maxTime <= localMidnight LocalTZA ts ->
  tq <= maxTime -> - maxTime <= localMidnight LocalTZA tq ->
  normalizedStart LocalTZA Date_parse m = Some (localMidnight LocalTZA ts) /\
  normalized LocalTZA d = Some (localMidnight LocalTZA tq) /\
  (Day (LocalTime LocalTZA ts) <= Day (LocalTime LocalTZA tq) ->
   isMedicationScheduledForDate LocalTZA Date_parse m d = true) /\
  (isMedicationScheduledForDate LocalTZA Date_parse m d = true
   <-> localMidnight LocalTZA ts <= localMidnight LocalTZA tq) /\
  (isMedicationScheduledForDate LocalTZA Date_parse m d = true
   <-> Day (LocalTime LocalTZA ts) <= Day (LocalTime LocalTZA tq)) /\
  (forall ongoing,
     Medication.startDate ongoing = Medication.startDate m ->
     Medication.duration ongoing = "Ongoing" ->
     isMedicationScheduledForDate LocalTZA Date_parse m d
     = isMedicationScheduledForDate LocalTZA Date_parse ongoing d).
Proof.
  intros _ Hdigits%match_digits_None Hts -> Hs1 Hs2 Hq1 Hq2.
  assert (normalizedStart LocalTZA Date_parse m
          = Some (localMidnight LocalTZA ts)) as Hs
    by (unfold normalizedStart; rewrite Hts; by apply setHours_localMidnight).
  assert (normalized LocalTZA (Some tq) = Some (localMidnight LocalTZA tq))
    as Hq by (by apply setHours_localMidnight).
  pose proof (scheduled_unbounded _ _ _ _ _ _ Hs Hq (or_intror Hdigits))
    as Hiff.
  assert (localMidnight LocalTZA ts <= localMidnight LocalTZA tq
          <-> Day (LocalTime LocalTZA ts) <= Day (LocalTime LocalTZA tq))
    as Hdays by (unfold localMidnight, msPerDay; lia).
  split; [done|]. split; [done|]. split; [|split; [done|split]].
  - intros Hle. by apply Hiff, Hdays.
  - by rewrite Hiff.
  - intros ongoing Hstart Hdur. by apply scheduled_like_ongoing.
Qed.

Lemma scheduled_without_day_count_witness :
  isMedicationScheduledForDate 0 ISO.Date_parse Sample.asNeeded
    (ISO.Date_parse "2031-07-15T10:00:00.000Z") = true.
Proof.
  assert (Medication.duration Sample.asNeeded <> "Ongoing") as Hdur
    by discriminate.
  assert (has_digit (Medication.duration Sample.asNeeded) = false)
    as Hdigits by reflexivity.
  assert (ISO.Date_parse (Medication.startDate Sample.asNeeded)
          = Some 1704067200000) as Hts by (vm_compute; reflexivity).
  assert (ISO.Date_parse "2031-07-15T10:00:00.000Z" = Some 1941876000000)
    as Hd by (vm_compute; reflexivity).
  assert (1704067200000 <= maxTime) as Hs1 by (vm_compute; discriminate).
  assert (- maxTime <= localMidnight 0 1704067200000) as Hs2
    by (vm_compute; discriminate).
  assert (1941876000000 <= maxTime) as Hq1 by (vm_compute; discriminate).
  assert (- maxTime <= localMidnight 0 1941876000000) as Hq2
    by (vm_compute; discriminate).
  destruct (scheduled_without_day_count 0 ISO.Date_parse Sample.asNeeded
              _ _ _ Hdur Hdigits Hts Hd Hs1 Hs2 Hq1 Hq2) as (_ & _ & Hge & _).
  apply Hge. vm_compute. discriminate.
Defined.

(** C9: when the first integer of a duration that is not "Ongoing" is 0,
    the end date is the day before the start date and
    [isMedicationScheduledForDate] is false on every date, the start
    date included.  (The day before the start date has to be a
    representable date.) *)
Theorem scheduled_zero_days LocalTZA Date_parse m d s q :
  Medication.duration m <> "Ongoing" ->
  durationDaysOf (Medication.duration m) = Some 0 ->
  normalizedStart LocalTZA Date_parse m = Some s ->
  normalized LocalTZA d = Some q ->
  - maxTime <= s - msPerDay ->
  endDateOf LocalTZA (normalizedStart LocalTZA Date_parse m) (Some 0)
  = Some (s - msPerDay) /\
  isMedicationScheduledForDate LocalTZA Date_parse m d = false.
Proof.
  intros Hdur HN Hs Hq Hlow.
  pose proof (setHours_midnight _ _ _ Hs) as [Hsr _]. split.
  - rewrite Hs. unfold normalizedStart in Hs.
    rewrite (endDateOf_midnight _ _ _ _ Hs).
    replace (s + (0 - 1) * msPerDay) with (s - msPerDay) by lia.
    apply TimeClip_in. unfold msPerDay in *. lia.
  - apply not_true_is_false.
    rewrite (scheduled_bounded _ _ _ _ _ _ _ Hdur HN Hs Hq (fun _ => Hlow)).
    unfold msPerDay. lia.
Qed.

Lemma scheduled_zero_days_witness :
  isMedicationScheduledForDate 0 ISO.Date_parse Sample.zeroDays
    (fromYMD 0 2024 0 1) = false.
Proof.
  assert (Medication.duration Sample.zeroDays <> "Ongoing") as Hdur
    by discriminate.
  assert (durationDaysOf (Medication.duration Sample.zeroDays) = Some 0)
    as HN by reflexivity.
  assert (normalizedStart 0 ISO.Date_parse Sample.zeroDays
          = Some 1704067200000) as Hs by (vm_compute; reflexivity).
  assert (normalized 0 (fromYMD 0 2024 0 1) = Some 1704067200000) as Hq
    by (vm_compute; reflexivity).
  assert (- maxTime <= 1704067200000 - msPerDay) as Hlow
    by (vm_compute; discriminate).
  exact (proj2 (scheduled_zero_days 0 ISO.Date_parse Sample.zeroDays
                  (fromYMD 0 2024 0 1) _ _ Hdur HN Hs Hq Hlow)).
Defined.

(** ** The repository

    A world [mkWorld it [] rs ev] has no fault pending: its store
    resolves every call. *)

(** C6: on a store that holds the list [L], [addMedication m] followed by
    [getMedications] returns [L] with exactly one more entry, [m] itself
    at the end: the document written for [m] reads back as [m], field by
    field, with [lastRefillDate] absent when it was absent. *)
Theorem addMedication_then_list it rs ev (L : list Medication) m :
  stored MEDICATIONS_KEY it L ->
  exists w1 w2,
    addMedication m (mkWorld it [] rs ev) = (Return tt, w1) /\
    getMedications w1 = (Return (L ++ [m]), w2) /\
    items w1 !! MEDICATIONS_KEY = Some (JSON_stringify (L ++ [m])) /\
    length (L ++ [m]) = S (length L) /\
    (L ++ [m]) !! length L = Some m /\
    (forall i, (i < length L)%nat -> (L ++ [m]) !! i = L !! i) /\
    decode (encode m) = Some m /\
    (Medication.lastRefillDate m = None ->
     get "lastRefillDate"
       match encode m with JObject o => o | _ => [] end = None).
Proof.
  intros HL. eexists _, _. rewrite (addMedication_ok _ _ _ _ _ HL).
  split; [reflexivity|]. split.
  { apply getMedications_ok, stored_insert. }
  split_and!.
  - apply lookup_insert_eq.
  - rewrite length_app. cbn. lia.
  - by rewrite lookup_app_r, Nat.sub_diag.
  - intros i Hi. by rewrite lookup_app_l.
  - apply decode_encode.
  - destruct m. cbn. by intros ->.
Qed.

Lemma addMedication_then_list_witness :
  exists w1 w2,
    addMedication Sample.asNeeded Sample.world = (Return tt, w1) /\
    getMedications w1
    = (Return [Sample.amoxicillin; Sample.vitaminD; Sample.zeroDays;
               Sample.asNeeded], w2).
Proof.
  assert (stored MEDICATIONS_KEY Sample.items
            [Sample.amoxicillin; Sample.vitaminD; Sample.zeroDays]) as HL
    by (right; vm_compute; reflexivity).
  destruct (addMedication_then_list Sample.items
              ["q1w2e3r4t"; "z9y8x7w6v"] [] _ Sample.asNeeded HL)
    as (w1 & w2 & Hadd & Hget & _).
  by exists w1, w2.
Defined.

(** C8: [updateMedication m] on a store whose list has no entry with the
    id of [m] fulfils and writes nothing, the items stay as they were;
    when an entry has the id, the first such entry becomes [m] and every
    other entry keeps its value and its position. *)
Theorem updateMedication_by_id w (L : list Medication) m :
  stored MEDICATIONS_KEY (items w) L ->
  (Forall (fun med => Medication.id med <> Medication.id m) L ->
   exists w',
     updateMedication m w = (Return tt, w') /\
     items w' = items w /\ writes (events w') = writes (events w)) /\
  (forall i m0,
     faults w = [] ->
     L !! i = Some m0 -> Medication.id m0 = Medication.id m ->
     (forall j mj, L !! j = Some mj -> (j < i)%nat ->
                   Medication.id mj <> Medication.id m) ->
     exists w' L',
       updateMedication m w = (Return tt, w') /\
       stored MEDICATIONS_KEY (items w') L' /\
       L' !! i = Some m /\ length L' = length L /\
       (forall j, j <> i -> L' !! j = L !! j) /\
       items w' !! DOSE_HISTORY_KEY = items w !! DOSE_HISTORY_KEY).
Proof.
  intros HL. split; [by apply updateMedication_absent|].
  intros i m0 Hfaults Hi Hid Hfirst.
  destruct w as [it fs rs ev]. cbn in *. subst fs.
  rewrite (updateMedication_ok _ _ _ _ _ HL).
  assert (list_find (fun med => Medication.id med = Medication.id m) L
          = Some (i, m0)) as -> by (by apply list_find_Some).
  cbn zeta. eexists _, (<[i := m]> L). split; [reflexivity|]. cbn [items].
  split_and!.
  - apply stored_insert.
  - apply list_lookup_insert_eq. by eapply lookup_lt_Some.
  - apply length_insert.
  - intros j Hj. by apply list_lookup_insert_ne.
  - by apply lookup_insert_ne.
Qed.

Lemma updateMedication_by_id_witness :
  exists w',
    updateMedication Sample.asNeeded Sample.world = (Return tt, w') /\
    items w' = items Sample.world.
Proof.
  assert (stored MEDICATIONS_KEY (items Sample.world)
            [Sample.amoxicillin; Sample.vitaminD; Sample.zeroDays]) as HL
    by (right; vm_compute; reflexivity).
  destruct (updateMedication_by_id Sample.world _ Sample.asNeeded HL)
    as [Habsent _].
  destruct Habsent as (w' & Hrun & Hit & _).
  - repeat constructor; discriminate.
  - by exists w'.
Defined.

(** C3: on a store whose medications and doses all carry valid dates,
    [clearDataForDateRange] from the instant [s] to the instant [e] keeps,
    in order, exactly the medications whose start date and the doses
    whose timestamp lie outside the closed range: an entry strictly
    before [s] or strictly after [e] stays, an entry exactly on [s] or on
    [e] goes. *)
Theorem clearDataForDateRange_inclusive Date_parse it rs ev
    (L : list Medication) (H : list DoseHistory) s e :
  stored MEDICATIONS_KEY it L ->
  stored DOSE_HISTORY_KEY it H ->
  Forall (fun med => is_Some (Date_parse (Medication.startDate med))) L ->
  Forall (fun dose => is_Some (Date_parse (DoseHistory.timestamp dose))) H ->
  let L' :=
    List.filter
      (fun med => negb (in_range s e (Date_parse (Medication.startDate med))))
      L in
  let H' :=
    List.filter
      (fun dose =>
         negb (in_range s e (Date_parse (DoseHistory.timestamp dose)))) H in
  (exists it' ev',
     clearDataForDateRange Date_parse (Some s) (Some e) (mkWorld it [] rs ev)
     = (Return tt, mkWorld it' [] rs ev') /\
     stored MEDICATIONS_KEY it' L' /\ stored DOSE_HISTORY_KEY it' H') /\
  (forall med t,
     In med L -> Date_parse (Medication.startDate med) = Some t ->
     (In med L' <-> t < s \/ e < t) /\
     (s <= e -> t = s \/ t = e -> ~ In med L')) /\
  (forall dose t,
     In dose H -> Date_parse (DoseHistory.timestamp dose) = Some t ->
     (In dose H' <-> t < s \/ e < t) /\
     (s <= e -> t = s \/ t = e -> ~ In dose H')).
Proof.
  intros HL HH HLvalid HHvalid L' H'. split_and!.
  - destruct (clearDataForDateRange_ok Date_parse it rs ev L H (Some s)
                (Some e) HL HH) as (it' & ev' & Hrun & HL' & HH' & _).
    rewrite (filter_outside (fun med => Date_parse (Medication.startDate med)))
      in HL' by done.
    rewrite (filter_outside
               (fun dose => Date_parse (DoseHistory.timestamp dose)))
      in HH' by done.
    by exists it', ev'.
  - intros med t Hin Ht.
    assert (In med L' <-> t < s \/ e < t) as Hiff.
    { unfold L'. rewrite List.filter_In, Ht. cbn. unfold within.
      destruct (Z.leb_spec s t), (Z.leb_spec t e); cbn; split;
        try tauto; try lia; intros _; split; done || lia. }
    split; [done|]. rewrite Hiff. lia.
  - intros dose t Hin Ht.
    assert (In dose H' <-> t < s \/ e < t) as Hiff.
    { unfold H'. rewrite List.filter_In, Ht. cbn. unfold within.
      destruct (Z.leb_spec s t), (Z.leb_spec t e); cbn; split;
        try tauto; try lia; intros _; split; done || lia. }
    split; [done|]. rewrite Hiff. lia.
Qed.

Lemma clearDataForDateRange_inclusive_witness :
  exists it' ev',
    clearDataForDateRange ISO.Date_parse
      (ISO.Date_parse "2024-01-02T09:00:00.000Z")
      (ISO.Date_parse "2024-01-05T00:00:00.000Z") Sample.world
    = (Return tt, mkWorld it' [] (randoms Sample.world) ev') /\
    stored MEDICATIONS_KEY it'
      [Sample.amoxicillin; Sample.vitaminD; Sample.zeroDays] /\
    stored DOSE_HISTORY_KEY it' [Sample.dose2].
Proof.
  assert (stored MEDICATIONS_KEY Sample.items
            [Sample.amoxicillin; Sample.vitaminD; Sample.zeroDays]) as HL
    by (right; vm_compute; reflexivity).
  assert (stored DOSE_HISTORY_KEY Sample.items [Sample.dose1; Sample.dose2])
    as HH by (right; vm_compute; reflexivity).
  assert (Forall
            (fun med => is_Some (ISO.Date_parse (Medication.startDate med)))
            [Sample.amoxicillin; Sample.vitaminD; Sample.zeroDays])
    as HLvalid by (repeat constructor; vm_compute; eauto).
  assert (Forall
            (fun dose => is_Some (ISO.Date_parse (DoseHistory.timestamp dose)))
            [Sample.dose1; Sample.dose2])
    as HHvalid by (repeat constructor; vm_compute; eauto).
  destruct (clearDataForDateRange_inclusive ISO.Date_parse Sample.items
              (randoms Sample.world) [] _ _ 1704186000000 1704412800000
              HL HH HLvalid HHvalid) as [Hrun _].
  exact Hrun.
Defined.

(** C10: when the dose is not taken, or no stored medication has the id,
    or the medication that [find] returns has no supply left,
    [recordDose] still appends the new entry, with the given medication
    id, timestamp and flag, to the stored dose history, and leaves the
    stored medications as they were: its one write is the dose
    history. *)
Theorem recordDose_without_decrement it rs ev
    (L : list Medication) (H : list DoseHistory) medicationId taken timestamp :
  stored MEDICATIONS_KEY it L ->
  stored DOSE_HISTORY_KEY it H ->
  taken = false \/
  list_find (fun med => Medication.id med = medicationId) L = None \/
  (exists index medication,
     list_find (fun med => Medication.id med = medicationId) L
     = Some (index, medication) /\
     Medication.currentSupply medication = JSNumber.of_Z 0) ->
  let newDose := DoseHistory.mk (next_id rs) medicationId timestamp taken in
  exists it' ev',
    recordDose medicationId taken timestamp (mkWorld it [] rs ev)
    = (Return tt, mkWorld it' [] (tail rs) ev') /\
    stored DOSE_HISTORY_KEY it' (H ++ [newDose]) /\
    it' !! MEDICATIONS_KEY = it !! MEDICATIONS_KEY /\
    stored MEDICATIONS_KEY it' L /\
    writes ev' = writes ev ++
      [SetItem DOSE_HISTORY_KEY (JSON_stringify (H ++ [newDose])) true].
Proof.
  intros HL HH Hcase newDose.
  destruct (recordDose_ok it rs ev L H medicationId taken timestamp HL HH)
    as (it' & ev' & Hrun & HH' & HL' & Hframe).
  assert (taken = false \/ no_decrement medicationId L) as Hsame.
  { destruct Hcase as [Htaken|Hcase]; [by left|right].
    unfold no_decrement.
    destruct Hcase as [-> |(index & medication & -> & Hzero)]; [done|].
    by rewrite Hzero. }
  destruct (Hframe Hsame) as [Hmeds Hwrites].
  exists it', ev'. split_and!; try done.
  unfold stored. by rewrite Hmeds.
Qed.

Lemma recordDose_without_decrement_witness :
  exists it' ev',
    recordDose "m1" false "2024-01-03T09:00:00.000Z" Sample.world
    = (Return tt, mkWorld it' [] ["z9y8x7w6v"] ev') /\
    stored DOSE_HISTORY_KEY it'
      [Sample.dose1; Sample.dose2;
       DoseHistory.mk "q1w2e3r4t" "m1" "2024-01-03T09:00:00.000Z" false] /\
    it' !! MEDICATIONS_KEY = Sample.items !! MEDICATIONS_KEY.
Proof.
  assert (stored MEDICATIONS_KEY Sample.items
            [Sample.amoxicillin; Sample.vitaminD; Sample.zeroDays]) as HL
    by (right; vm_compute; reflexivity).
  assert (stored DOSE_HISTORY_KEY Sample.items [Sample.dose1; Sample.dose2])
    as HH by (right; vm_compute; reflexivity).
  destruct (recordDose_without_decrement Sample.items
              ["q1w2e3r4t"; "z9y8x7w6v"] [] _ _ "m1" false
              "2024-01-03T09:00:00.000Z" HL HH (or_introl eq_refl))
    as (it' & ev' & Hrun & HH' & Hmeds & _).
  by exists it', ev'.
Defined.

(** C2, as amended: a taken dose of a medication with one dose left
    stores it with a supply of 0, and a second taken dose leaves the
    supply at 0.  When every medication handed to [addMedication] and
    [updateMedication] has a count as its supply, an integer from 0 to
    [2 ^ 53], then after every sequence of operations of the repository
    on an empty store, whatever the faults of the store, every stored
    supply is such a count, so at least 0.  A taken dose changes the
    supply of the medication that [find] returns only when it is above
    0, and a count [n] above 0 becomes the count [n - 1]. *)
Theorem recordDose_supply_floor :
  (forall it rs ev (L : list Medication) (H : list DoseHistory)
          medicationId t t2 index medication,
     stored MEDICATIONS_KEY it L ->
     stored DOSE_HISTORY_KEY it H ->
     list_find (fun med => Medication.id med = medicationId) L
     = Some (index, medication) ->
     Medication.currentSupply medication = JSNumber.of_Z 1 ->
     exists w1 w2 L1 medication1,
       recordDose medicationId true t (mkWorld it [] rs ev) = (Return tt, w1) /\
       stored MEDICATIONS_KEY (items w1) L1 /\
       L1 !! index = Some medication1 /\
       Medication.id medication1 = medicationId /\
       Medication.currentSupply medication1 = JSNumber.of_Z 0 /\
       recordDose medicationId true t2 w1 = (Return tt, w2) /\
       stored MEDICATIONS_KEY (items w2) L1) /\
  (forall Date_parse fs rs (cs : list command),
     Forall
       (fun c =>
          forall medication,
            c = AddMedication medication \/ c = UpdateMedication medication ->
            JSNumber.is_count (Medication.currentSupply medication))
       cs ->
     exists L : list Medication,
       stored MEDICATIONS_KEY
         (items (run_all Date_parse cs (mkWorld ∅ fs rs []))) L /\
       Forall
         (fun med =>
            JSNumber.is_count (Medication.currentSupply med) /\
            JSNumber.ge (Medication.currentSupply med) (JSNumber.of_Z 0)
            = true)
         L) /\
  (forall it rs ev (L : list Medication) (H : list DoseHistory)
          medicationId t,
     stored MEDICATIONS_KEY it L ->
     stored DOSE_HISTORY_KEY it H ->
     exists w1,
       recordDose medicationId true t (mkWorld it [] rs ev) = (Return tt, w1) /\
       stored MEDICATIONS_KEY (items w1) (take_dose medicationId L) /\
       match list_find (fun med => Medication.id med = medicationId) L with
       | Some (index, medication) =>
           take_dose medicationId L
           = (if JSNumber.gt (Medication.currentSupply medication)
                   (JSNumber.of_Z 0)
              then <[index := decrementSupply medication]> L else L) /\
           forall n,
             0 <= n <= 2 ^ 53 ->
             Medication.currentSupply medication = JSNumber.of_Z n ->
             JSNumber.gt (Medication.currentSupply medication)
               (JSNumber.of_Z 0)
             = (0 <? n) /\
             (0 < n ->
              Medication.currentSupply (decrementSupply medication)
              = JSNumber.of_Z (n - 1))
       | None => take_dose medicationId L = L
       end).
Proof.
  split_and!.
  - intros it rs ev L H medicationId t t2 index medication HL HH Hfind Hone.
    destruct (recordDose_ok it rs ev L H medicationId true t HL HH)
      as (it1 & ev1 & Hrun1 & HH1 & HL1 & _).
    destruct (recordDose_ok it1 (tail rs) ev1 _ _ medicationId true t2 HL1 HH1)
      as (it2 & ev2 & Hrun2 & _ & HL2 & _).
    apply list_find_Some in Hfind as Hfind'.
    destruct Hfind' as (Hindex & Hid & _).
    assert (take_dose medicationId L = <[index := decrementSupply medication]> L)
      as Htake by (by rewrite take_dose_find, Hfind, Hone).
    assert (Medication.currentSupply (decrementSupply medication)
            = JSNumber.of_Z 0) as Hzero by (cbn; by rewrite Hone).
    assert (take_dose medicationId (take_dose medicationId L)
            = take_dose medicationId L) as Hagain.
    { rewrite Htake at 1. rewrite take_dose_find.
      assert (list_find (fun med => Medication.id med = medicationId)
                (<[index := decrementSupply medication]> L)
              = Some (index, decrementSupply medication)) as ->.
      { apply list_find_Some. split_and!.
        - apply list_lookup_insert_eq. by eapply lookup_lt_Some.
        - done.
        - intros j y Hj Hlt. rewrite list_lookup_insert_ne in Hj by lia.
          apply list_find_Some in Hfind as (_ & _ & Hbefore).
          by eapply Hbefore. }
      rewrite Hzero. by rewrite Htake. }
    eexists _, _, (take_dose medicationId L), (decrementSupply medication).
    rewrite Hrun1. split; [reflexivity|]. split; [exact HL1|].
    rewrite Hrun2. split_and!.
    + rewrite Htake. apply list_lookup_insert_eq. by eapply lookup_lt_Some.
    + done.
    + exact Hzero.
    + reflexivity.
    + cbn [items]. by rewrite <- Hagain.
  - intros Date_parse fs rs cs Hcs.
    assert (reachable Date_parse
              (run_all Date_parse cs (mkWorld ∅ fs rs []))) as Hw.
    { apply reachable_run_all; [|constructor].
      eapply Forall_impl; [exact Hcs|].
      intros [medication|medication| | | | |] Hc; cbn; try done.
      - apply Hc. by left.
      - apply Hc. by right. }
    destruct (reachable_supplies Date_parse _ Hw) as (L & HL & Hcounts).
    exists L. split; [done|]. eapply Forall_impl; [exact Hcounts|].
    intros med (n & Hn & Hsupply). split; [by exists n|].
    rewrite Hsupply. by apply ge_of_Z_0.
  - intros it rs ev L H medicationId t HL HH.
    destruct (recordDose_ok it rs ev L H medicationId true t HL HH)
      as (it1 & ev1 & Hrun1 & _ & HL1 & _).
    eexists. rewrite Hrun1. split; [reflexivity|]. split; [exact HL1|].
    rewrite take_dose_find.
    destruct (list_find _ L) as [[index medication]|]; [|done].
    split; [done|]. intros n Hn Hsupply. rewrite Hsupply.
    split; [by apply gt_of_Z_0|]. intros Hpos. cbn. rewrite Hsupply.
    apply sub_of_Z_1. lia.
Qed.

Lemma recordDose_supply_floor_witness :
  exists w1 w2 L1 medication1,
    recordDose "m1" true "2024-01-03T09:00:00.000Z" Sample.world
    = (Return tt, w1) /\
    stored MEDICATIONS_KEY (items w1) L1 /\
    L1 !! 0%nat = Some medication1 /\
    Medication.id medication1 = "m1" /\
    Medication.currentSupply medication1 = JSNumber.of_Z 0 /\
    recordDose "m1" true "2024-01-03T21:00:00.000Z" w1 = (Return tt, w2) /\
    stored MEDICATIONS_KEY (items w2) L1.
Proof.
  assert (stored MEDICATIONS_KEY Sample.items
            [Sample.amoxicillin; Sample.vitaminD; Sample.zeroDays]) as HL
    by (right; vm_compute; reflexivity).
  assert (stored DOSE_HISTORY_KEY Sample.items [Sample.dose1; Sample.dose2])
    as HH by (right; vm_compute; reflexivity).
  destruct recordDose_supply_floor as [Hscenario _].
  apply (Hscenario Sample.items ["q1w2e3r4t"; "z9y8x7w6v"] [] _ _ "m1"
           "2024-01-03T09:00:00.000Z" "2024-01-03T21:00:00.000Z" 0%nat
           Sample.amoxicillin HL HH); reflexivity.
Defined.

(** C2, as the specification states it, fails on a supply that is not a
    count.  A medication added to the empty store with half a dose left
    has a supply of at least 0; it is above 0, so a taken dose subtracts
    1 and the store holds the same medication with a supply of -0.5,
    below 0.  Above [2 ^ 53] a taken dose does not lower the supply by
    1: [2 ^ 53 + 2] becomes [2 ^ 53]. *)
Lemma recordDose_supply_below_zero :
  ~ JSNumber.is_count (Medication.currentSupply Sample.syrup) /\
  JSNumber.ge (Medication.currentSupply Sample.syrup) (JSNumber.of_Z 0)
  = true /\
  stored MEDICATIONS_KEY
    (items
       (run_all ISO.Date_parse
          [AddMedication Sample.syrup;
           RecordDose "m6" true "2024-01-03T20:00:00.000Z"]
          (mkWorld ∅ [] ["q1w2e3r4t"] [])))
    [Sample.syrup_taken] /\
  Medication.currentSupply Sample.syrup_taken = JSNumber.minus_half /\
  JSNumber.ge JSNumber.minus_half (JSNumber.of_Z 0) = false /\
  JSNumber.gt (JSNumber.of_Z 0) JSNumber.minus_half = true /\
  JSNumber.sub (JSNumber.of_Z (2 ^ 53 + 2)) (JSNumber.of_Z 1)
  = JSNumber.of_Z (2 ^ 53).
Proof.
  split; [|split; [|split]].
  - intros [Hzero|(m & e & Hhalf & He)]%is_count_exponent.
    + discriminate Hzero.
    + injection Hhalf as _ <-. lia.
  - vm_compute. reflexivity.
  - right. vm_compute. reflexivity.
  - vm_compute. repeat split.
Qed.

(** C7: [getMedications] and [getDoseHistory] fulfil in every world, with
    the empty list when nothing is stored under their key and when the
    read of the store is rejected, and they leave the items alone; every
    writing operation rejects when a write of the store was rejected
    during its run. *)
Theorem reads_degrade_writes_propagate :
  (forall w, exists l w',
     getMedications w = (Return l, w') /\ items w' = items w /\
     (items w !! MEDICATIONS_KEY = None -> l = []) /\
     (head (faults w) = Some true -> l = [])) /\
  (forall w, exists l w',
     getDoseHistory w = (Return l, w') /\ items w' = items w /\
     (items w !! DOSE_HISTORY_KEY = None -> l = []) /\
     (head (faults w) = Some true -> l = [])) /\
  (forall Date_parse c w r w',
     write_failed w = false ->
     run Date_parse c w = (r, w') ->
     write_failed w' = true ->
     exists e, r = Throw e).
Proof.
  assert (forall A (C : Codec A) key (w : World),
            (items w !! key = None -> read (A:=A) key w = []) /\
            (head (faults w) = Some true -> read (A:=A) key w = []))
    as Hread.
  { intros A C key [it fs rs ev]. unfold read, next_fault. cbn. split.
    - intros ->. by destruct fs as [|[] fs].
    - destruct fs as [|[] fs]; [done|done|]. by intros [=]. }
  split_and!.
  - intros w. destruct (getMedications_run w) as (w' & Hrun & Hit & _).
    exists (read MEDICATIONS_KEY w), w'.
    destruct (Hread Medication _ MEDICATIONS_KEY w). by split_and!.
  - intros w. destruct (getDoseHistory_run w) as (w' & Hrun & Hit & _).
    exists (read DOSE_HISTORY_KEY w), w'.
    destruct (Hread DoseHistory _ DOSE_HISTORY_KEY w). by split_and!.
  - intros Date_parse c w r w' Hquiet Hrun Hfailed.
    pose proof (loud_run Date_parse c w Hquiet) as Hloud.
    rewrite Hrun in Hloud. destruct r as [[]|e]; [|by exists e].
    unfold quiet in Hloud. congruence.
Qed.

Lemma reads_degrade_writes_propagate_witness :
  exists e,
    fst (run ISO.Date_parse (AddMedication Sample.asNeeded)
           (mkWorld Sample.items [false; true] [] []))
    = Throw e.
Proof.
  destruct reads_degrade_writes_propagate as (_ & _ & Hloud).
  apply (Hloud ISO.Date_parse (AddMedication Sample.asNeeded)
           (mkWorld Sample.items [false; true] [] []) _
           (snd (run ISO.Date_parse (AddMedication Sample.asNeeded)
                   (mkWorld Sample.items [false; true] [] [])))).
  - reflexivity.
  - apply surjective_pairing.
  - vm_compute. reflexivity.
Defined.

(** * Beyond the claims *)

(** ** Calendar days *)

Module DateFieldFacts.
Import JSDate DateFields DateFacts.

Lemma DayFromYear_mono y1 y2 : y1 < y2 -> DayFromYear y1 < DayFromYear y2.
Proof.
  intros Hlt. unfold DayFromYear. Z.to_euclidean_division_equations; lia.
Qed.

(** The year of a time is the only year that holds its day. *)
Lemma YearFromTime_unique t y :
  DayFromYear y <= Day t < DayFromYear (y + 1) -> YearFromTime t = y.
Proof.
  intros Hy. pose proof (YearFromTime_spec t) as HY.
  destruct (Z.lt_trichotomy (YearFromTime t) y) as [Hlt|[Heq|Hgt]]; [|done|].
  - assert (DayFromYear (YearFromTime t + 1) <= DayFromYear y); [|lia].
    destruct (Z.eq_dec (YearFromTime t + 1) y) as [->|]; [lia|].
    apply Z.lt_le_incl, DayFromYear_mono. lia.
  - assert (DayFromYear (y + 1) <= DayFromYear (YearFromTime t)); [|lia].
    destruct (Z.eq_dec (y + 1) (YearFromTime t)) as [->|]; [lia|].
    apply Z.lt_le_incl, DayFromYear_mono. lia.
Qed.

Lemma DaysInYear_leap y : DaysInYear y = 365 + leap_of y.
Proof. unfold leap_of, DaysInYear. by repeat case_match. Qed.

(** A calendar date reads back from its day number. *)
Lemma fields_of_MakeDay t y m k :
  0 <= m <= 11 -> 1 <= k <= DaysInMonth m (leap_of y) ->
  Day t = MakeDay y m k ->
  YearFromTime t = y /\ MonthFromTime t = m /\ DateFromTime t = k.
Proof.
  intros Hm Hk Hday.
  assert (Day t = DayFromYear y + FirstDayOfMonth m (leap_of y) + k - 1)
    as Hday'.
  { rewrite Hday. unfold MakeDay. rewrite Z.div_small, Z.mod_small by lia.
    rewrite Z.add_0_r. done. }
  pose proof (DaysInYear_spec y) as Hnext.
  pose proof (DaysInYear_leap y) as Hleap.
  assert (0 <= leap_of y <= 1) as Hl by (unfold leap_of; case_match; lia).
  assert (YearFromTime t = y) as HY.
  { apply YearFromTime_unique. rewrite Hday'.
    unfold FirstDayOfMonth, DaysInMonth in *.
    repeat case_match; lia. }
  assert (InLeapYear t = leap_of y) as HL by (unfold InLeapYear; by rewrite HY).
  assert (DayWithinYear t = FirstDayOfMonth m (leap_of y) + k - 1) as HD
    by (unfold DayWithinYear; rewrite HY; lia).
  assert (MonthFromTime t = m) as HM.
  { unfold MonthFromTime. rewrite HD, HL.
    unfold FirstDayOfMonth, DaysInMonth in *.
    repeat case_match; lia. }
  split_and!; [done|done|].
  unfold DateFromTime. rewrite HM, HL, HD. lia.
Qed.

End DateFieldFacts.

(** ** Runs of the repository under a schedule of faults *)

Module FaultFacts.
Import JSON JSONFacts Async Storage Repository StorageFacts.

Lemma getList_resolved {A} `{Lossless A} key message it fs rs ev (l : list A) :
  stored key it l ->
  getList key message (mkWorld it (false :: fs) rs ev)
  = (Return l, mkWorld it fs rs (ev ++ [GetItem key true])).
Proof.
  intros Hl. unfold getList, try_catch, bind, getItem, JSON_stringify. cbn.
  destruct Hl as [[-> ->]|Hl]; [done|]. rewrite Hl.
  unfold JSON_stringify, JSON_parse. cbn -[decode encode].
  by rewrite decode_encode.
Qed.

Lemma getList_rejected {A} `{Codec A} key message it fs rs ev :
  getList (A:=A) key message (mkWorld it (true :: fs) rs ev)
  = (Return [],
     mkWorld it fs rs (ev ++ [GetItem key false] ++ [ConsoleError message])).
Proof.
  unfold getList, try_catch, bind, getItem, console_error, emit. cbn.
  by rewrite <- !app_assoc.
Qed.

Lemma getMedications_resolved it fs rs ev (l : list Medication) :
  stored MEDICATIONS_KEY it l ->
  getMedications (mkWorld it (false :: fs) rs ev)
  = (Return l, mkWorld it fs rs (ev ++ [GetItem MEDICATIONS_KEY true])).
Proof. apply (getList_resolved (A:=Medication)). Qed.

Lemma getDoseHistory_resolved it fs rs ev (l : list DoseHistory) :
  stored DOSE_HISTORY_KEY it l ->
  getDoseHistory (mkWorld it (false :: fs) rs ev)
  = (Return l, mkWorld it fs rs (ev ++ [GetItem DOSE_HISTORY_KEY true])).
Proof. apply (getList_resolved (A:=DoseHistory)). Qed.

Lemma getMedications_rejected it fs rs ev :
  getMedications (mkWorld it (true :: fs) rs ev)
  = (Return [],
     mkWorld it fs rs
       (ev ++ [GetItem MEDICATIONS_KEY false] ++
          [ConsoleError "Error getting medications:"])).
Proof. apply (getList_rejected (A:=Medication)). Qed.

Lemma getDoseHistory_rejected it fs rs ev :
  getDoseHistory (mkWorld it (true :: fs) rs ev)
  = (Return [],
     mkWorld it fs rs
       (ev ++ [GetItem DOSE_HISTORY_KEY false] ++
          [ConsoleError "Error getting dose history:"])).
Proof. apply (getList_rejected (A:=DoseHistory)). Qed.

Lemma setItem_resolved key value it fs rs ev :
  setItem key value (mkWorld it (false :: fs) rs ev)
  = (Return tt,
     mkWorld (<[key := value]> it) fs rs (ev ++ [SetItem key value true])).
Proof. done. Qed.

Lemma setItem_rejected key value it fs rs ev :
  setItem key value (mkWorld it (true :: fs) rs ev)
  = (Throw StoreFailure,
     mkWorld it fs rs (ev ++ [SetItem key value false])).
Proof. done. Qed.

Lemma random_id_run it fs rs ev :
  random_id (mkWorld it fs rs ev)
  = (Return (next_id rs), mkWorld it fs (tail rs) ev).
Proof. by destruct rs. Qed.

Lemma list_find_decrement medicationId (l : list Medication) index medication :
  list_find (fun med => Medication.id med = medicationId) l
  = Some (index, medication) ->
  list_find
    (fun med => Medication.id med = Medication.id (decrementSupply medication))
    l
  = Some (index, medication).
Proof.
  intros Hfind. apply list_find_Some in Hfind as Hfind'.
  destruct Hfind' as (_ & Hid & _).
  cbn [decrementSupply Medication.id]. by rewrite Hid.
Qed.

End FaultFacts.

Import FaultFacts.

(** ** More of the repository *)

(** X1: on a store that holds the list [L], [deleteMedication id] stores
    [L] without every entry that has the id, the others in their order,
    and leaves the dose history alone; the write happens also when no
    entry has the id, so a store without a medications item has one
    afterwards. *)
Theorem deleteMedication_removes_id it rs ev (L : list Medication) id :
  stored MEDICATIONS_KEY it L ->
  exists it' ev' (L' : list Medication),
    deleteMedication id (mkWorld it [] rs ev)
    = (Return tt, mkWorld it' [] rs ev') /\
    it' !! MEDICATIONS_KEY = Some (JSON_stringify L') /\
    it' !! DOSE_HISTORY_KEY = it !! DOSE_HISTORY_KEY /\
    (forall med, In med L' <-> In med L /\ Medication.id med <> id) /\
    sublist L' L /\
    (Forall (fun med => Medication.id med <> id) L -> L' = L).
Proof.
  intros HL. unfold deleteMedication, try_catch, bind.
  rewrite (getMedications_ok _ _ _ _ HL). cbn zeta. rewrite setItem_ok.
  eexists _, _, _. split; [reflexivity|]. split_and!.
  - apply lookup_insert_eq.
  - by apply lookup_insert_ne.
  - intros med. rewrite List.filter_In, negb_true_iff, String.eqb_neq. done.
  - clear. induction L as [|med L IH]; cbn; [done|].
    destruct (negb _); by constructor.
  - clear. induction 1 as [|med L Hmed _ IH]; cbn; [done|].
    apply String.eqb_neq in Hmed. rewrite Hmed. cbn. by rewrite IH.
Qed.

Lemma deleteMedication_removes_id_witness :
  exists it' ev' (L' : list Medication),
    deleteMedication "m2" Sample.world
    = (Return tt, mkWorld it' [] (randoms Sample.world) ev') /\
    it' !! MEDICATIONS_KEY = Some (JSON_stringify L') /\
    (forall med, In med L' <->
       In med [Sample.amoxicillin; Sample.vitaminD; Sample.zeroDays] /\
       Medication.id med <> "m2").
Proof.
  assert (stored MEDICATIONS_KEY Sample.items
            [Sample.amoxicillin; Sample.vitaminD; Sample.zeroDays]) as HL
    by (right; vm_compute; reflexivity).
  destruct (deleteMedication_removes_id Sample.items
              (randoms Sample.world) [] _ "m2" HL)
    as (it' & ev' & L' & Hrun & Hmeds & _ & Hin & _).
  by exists it', ev', L'.
Defined.

(** X2: [addMedication m] followed by [deleteMedication] of the id of [m]
    stores the list that was stored before, less the entries that had
    the same id as [m]: the old list itself when the id was new. *)
Theorem add_then_delete it rs ev (L : list Medication) m :
  stored MEDICATIONS_KEY it L ->
  exists w1 w2,
    addMedication m (mkWorld it [] rs ev) = (Return tt, w1) /\
    deleteMedication (Medication.id m) w1 = (Return tt, w2) /\
    stored MEDICATIONS_KEY (items w2)
      (List.filter
         (fun med => negb (String.eqb (Medication.id med) (Medication.id m)))
         L) /\
    (Forall (fun med => Medication.id med <> Medication.id m) L ->
     stored MEDICATIONS_KEY (items w2) L).
Proof.
  intros HL. rewrite (addMedication_ok _ _ _ _ _ HL).
  eexists _, _. split; [reflexivity|].
  unfold deleteMedication, try_catch, bind.
  rewrite (getMedications_ok _ _ _ (L ++ [m])) by apply stored_insert.
  cbn zeta. rewrite setItem_ok. split; [reflexivity|]. cbn [items].
  assert (List.filter
            (fun med => negb (String.eqb (Medication.id med) (Medication.id m)))
            (L ++ [m])
          = List.filter
              (fun med =>
                 negb (String.eqb (Medication.id med) (Medication.id m))) L)
    as ->.
  { rewrite List.filter_app. cbn. rewrite String.eqb_refl. cbn.
    by rewrite app_nil_r. }
  split; [apply stored_insert|].
  intros Hnew.
  assert (List.filter
            (fun med => negb (String.eqb (Medication.id med) (Medication.id m)))
            L = L) as ->; [|apply stored_insert].
  clear -Hnew. induction Hnew as [|med L Hmed _ IH]; cbn; [done|].
  apply String.eqb_neq in Hmed. rewrite Hmed. cbn. by rewrite IH.
Qed.

Lemma add_then_delete_witness :
  exists w1 w2,
    addMedication Sample.asNeeded Sample.world = (Return tt, w1) /\
    deleteMedication "m3" w1 = (Return tt, w2) /\
    stored MEDICATIONS_KEY (items w2)
      [Sample.amoxicillin; Sample.vitaminD; Sample.zeroDays].
Proof.
  assert (stored MEDICATIONS_KEY Sample.items
            [Sample.amoxicillin; Sample.vitaminD; Sample.zeroDays]) as HL
    by (right; vm_compute; reflexivity).
  destruct (add_then_delete Sample.items (randoms Sample.world) [] _
              Sample.asNeeded HL) as (w1 & w2 & Hadd & Hdel & _ & Hsame).
  exists w1, w2. split_and!; [done|done|].
  apply Hsame. repeat constructor; discriminate.
Defined.

(** X3: [clearAllData] on a store that resolves both removals leaves no
    medications item and no dose-history item, whatever they held, and
    touches no other key; both reads return the empty list
    afterwards. *)
Theorem clearAllData_empties it rs ev :
  exists w',
    clearAllData (mkWorld it [] rs ev) = (Return tt, w') /\
    items w' = delete DOSE_HISTORY_KEY (delete MEDICATIONS_KEY it) /\
    items w' !! MEDICATIONS_KEY = None /\
    items w' !! DOSE_HISTORY_KEY = None /\
    (forall key, key <> MEDICATIONS_KEY -> key <> DOSE_HISTORY_KEY ->
                 items w' !! key = it !! key) /\
    fst (getMedications w') = Return [] /\
    fst (getDoseHistory w') = Return [].
Proof.
  eexists. split; [reflexivity|]. cbn [items emit console_log].
  assert (delete DOSE_HISTORY_KEY (delete MEDICATIONS_KEY it)
          !! MEDICATIONS_KEY = None) as Hmeds
    by (rewrite lookup_delete_ne by done; apply lookup_delete_eq).
  assert (delete DOSE_HISTORY_KEY (delete MEDICATIONS_KEY it)
          !! DOSE_HISTORY_KEY = None) as Hdoses by apply lookup_delete_eq.
  split_and!; try done.
  - intros key Hm Hd. by rewrite !lookup_delete_ne.
  - unfold getMedications, try_catch, bind, getItem. cbn. by rewrite Hmeds.
  - unfold getDoseHistory, try_catch, bind, getItem. cbn. by rewrite Hdoses.
Qed.

(** X4: [clearAllData] is two removals: when the second is rejected the
    call rejects with the medications already removed and the dose
    history still stored; when the first is rejected the call rejects
    with the items as they were, and the second removal is not
    attempted. *)
Theorem clearAllData_partial it fs rs ev :
  (exists ev',
     clearAllData (mkWorld it (false :: true :: fs) rs ev)
     = (Throw StoreFailure,
        mkWorld (delete MEDICATIONS_KEY it) fs rs ev') /\
     delete MEDICATIONS_KEY it !! DOSE_HISTORY_KEY = it !! DOSE_HISTORY_KEY) /\
  (exists ev',
     clearAllData (mkWorld it (true :: fs) rs ev)
     = (Throw StoreFailure, mkWorld it fs rs ev') /\
     writes ev' = writes ev ++ [RemoveItem MEDICATIONS_KEY false]).
Proof.
  split.
  - eexists. split; [reflexivity|]. by apply lookup_delete_ne.
  - eexists. split; [reflexivity|]. unfold writes.
    repeat (rewrite ?List.filter_app; cbn). by rewrite ?app_nil_r.
Qed.

(** X5: [clearOldData] keeps, in order, exactly the medications and the
    doses whose date is valid and on or after a valid [beforeDate]: an
    entry whose date does not parse is dropped, and with an invalid
    [beforeDate] both lists are emptied. *)
Theorem clearOldData_keeps Date_parse it rs ev
    (L : list Medication) (H : list DoseHistory) beforeDate :
  stored MEDICATIONS_KEY it L ->
  stored DOSE_HISTORY_KEY it H ->
  exists it' ev' (L' : list Medication) (H' : list DoseHistory),
    clearOldData Date_parse beforeDate (mkWorld it [] rs ev)
    = (Return tt, mkWorld it' [] rs ev') /\
    stored MEDICATIONS_KEY it' L' /\ stored DOSE_HISTORY_KEY it' H' /\
    sublist L' L /\ sublist H' H /\
    (forall med,
       In med L' <->
       In med L /\
       exists t b, Date_parse (Medication.startDate med) = Some t /\
                   beforeDate = Some b /\ b <= t) /\
    (forall dose,
       In dose H' <->
       In dose H /\
       exists t b, Date_parse (DoseHistory.timestamp dose) = Some t /\
                   beforeDate = Some b /\ b <= t) /\
    (beforeDate = None -> L' = [] /\ H' = []).
Proof.
  intros HL HH. unfold clearOldData, try_catch, bind.
  rewrite (getMedications_ok _ _ _ _ HL), (getDoseHistory_ok _ _ _ _ HH).
  cbn zeta. rewrite !setItem_ok. unfold console_log, emit.
  cbn [items faults randoms events].
  assert (forall d, JSDate.ge d beforeDate = true <->
                    exists t b, d = Some t /\ beforeDate = Some b /\ b <= t)
    as Hge.
  { intros [t|]; destruct beforeDate as [b|]; cbn; split;
      try done; try (by intros (? & ? & ? & ? & ?)).
    - intros Hle%Z.leb_le. by exists t, b.
    - intros (t' & b' & [= <-] & [= <-] & Hle). by apply Z.leb_le. }
  assert (forall A (keep : A -> bool) (l : list A),
            sublist (List.filter keep l) l) as Hsub.
  { intros A keep l. induction l as [|a l IH]; cbn; [done|].
    destruct (keep a); by constructor. }
  eexists _, _, _, _. split; [reflexivity|]. split_and!.
  - apply stored_insert_ne; [done|]. apply stored_insert.
  - apply stored_insert.
  - apply Hsub.
  - apply Hsub.
  - intros med. by rewrite List.filter_In, Hge.
  - intros dose. by rewrite List.filter_In, Hge.
  - intros ->. split.
    + clear. induction L as [|med L IH]; cbn; [done|].
      by destruct (Date_parse _).
    + clear. induction H as [|dose H IH]; cbn; [done|].
      by destruct (Date_parse _).
Qed.

Lemma clearOldData_keeps_witness :
  exists it' ev' (L' : list Medication) (H' : list DoseHistory),
    clearOldData ISO.Date_parse (ISO.Date_parse "2024-01-05")
      Sample.world
    = (Return tt, mkWorld it' [] (randoms Sample.world) ev') /\
    stored MEDICATIONS_KEY it' L' /\ stored DOSE_HISTORY_KEY it' H' /\
    sublist L' [Sample.amoxicillin; Sample.vitaminD; Sample.zeroDays] /\
    sublist H' [Sample.dose1; Sample.dose2].
Proof.
  assert (stored MEDICATIONS_KEY Sample.items
            [Sample.amoxicillin; Sample.vitaminD; Sample.zeroDays]) as HL
    by (right; vm_compute; reflexivity).
  assert (stored DOSE_HISTORY_KEY Sample.items [Sample.dose1; Sample.dose2])
    as HH by (right; vm_compute; reflexivity).
  destruct (clearOldData_keeps ISO.Date_parse Sample.items
              (randoms Sample.world) [] _ _
              (ISO.Date_parse "2024-01-05") HL HH)
    as (it' & ev' & L' & H' & Hrun & HL' & HH' & HsubL & HsubH & _).
  by exists it', ev', L', H'.
Defined.

(** X6: [clearDataForDateRange] keeps an entry only when its date is
    valid and strictly before a valid start or strictly after a valid
    end: an entry whose date does not parse is removed by every call,
    and a call whose two bounds are invalid empties both lists. *)
Theorem clearDataForDateRange_keeps Date_parse it rs ev
    (L : list Medication) (H : list DoseHistory) startDate endDate :
  stored MEDICATIONS_KEY it L ->
  stored DOSE_HISTORY_KEY it H ->
  exists it' ev' (L' : list Medication) (H' : list DoseHistory),
    clearDataForDateRange Date_parse startDate endDate (mkWorld it [] rs ev)
    = (Return tt, mkWorld it' [] rs ev') /\
    stored MEDICATIONS_KEY it' L' /\ stored DOSE_HISTORY_KEY it' H' /\
    (forall med,
       In med L' <->
       In med L /\
       exists t, Date_parse (Medication.startDate med) = Some t /\
                 ((exists s, startDate = Some s /\ t < s) \/
                  (exists e, endDate = Some e /\ e < t))) /\
    (forall dose,
       In dose H' <->
       In dose H /\
       exists t, Date_parse (DoseHistory.timestamp dose) = Some t /\
                 ((exists s, startDate = Some s /\ t < s) \/
                  (exists e, endDate = Some e /\ e < t))) /\
    (startDate = None -> endDate = None -> L' = [] /\ H' = []).
Proof.
  intros HL HH.
  destruct (clearDataForDateRange_ok Date_parse it rs ev L H startDate
              endDate HL HH) as (it' & ev' & Hrun & HL' & HH' & _).
  assert (forall d,
            JSDate.lt d startDate || JSDate.gt d endDate = true <->
            exists t, d = Some t /\
                      ((exists s, startDate = Some s /\ t < s) \/
                       (exists e, endDate = Some e /\ e < t))) as Hkeep.
  { intros d. rewrite orb_true_iff. unfold JSDate.gt. split.
    - intros [Hlt|Hgt].
      + destruct d as [t|], startDate as [s|]; try done.
        apply Z.ltb_lt in Hlt. exists t. split; [done|left]. by exists s.
      + destruct endDate as [e|], d as [t|]; try done.
        apply Z.ltb_lt in Hgt. exists t. split; [done|right]. by exists e.
    - intros (t & -> & [(s & -> & Hlt)|(e & -> & Hgt)]).
      + left. by apply Z.ltb_lt.
      + right. by apply Z.ltb_lt. }
  eexists it', ev', _, _. split; [exact Hrun|]. split_and!.
  - exact HL'.
  - exact HH'.
  - intros med. by rewrite List.filter_In, Hkeep.
  - intros dose. by rewrite List.filter_In, Hkeep.
  - intros -> ->. split.
    + clear. induction L as [|med L IH]; cbn; [done|].
      by destruct (Date_parse _).
    + clear. induction H as [|dose H IH]; cbn; [done|].
      by destruct (Date_parse _).
Qed.

Lemma clearDataForDateRange_keeps_witness :
  exists it' ev' (L' : list Medication) (H' : list DoseHistory),
    clearDataForDateRange ISO.Date_parse None None Sample.world
    = (Return tt, mkWorld it' [] (randoms Sample.world) ev') /\
    stored MEDICATIONS_KEY it' L' /\ stored DOSE_HISTORY_KEY it' H' /\
    L' = [] /\ H' = [].
Proof.
  assert (stored MEDICATIONS_KEY Sample.items
            [Sample.amoxicillin; Sample.vitaminD; Sample.zeroDays]) as HL
    by (right; vm_compute; reflexivity).
  assert (stored DOSE_HISTORY_KEY Sample.items [Sample.dose1; Sample.dose2])
    as HH by (right; vm_compute; reflexivity).
  destruct (clearDataForDateRange_keeps ISO.Date_parse Sample.items
              (randoms Sample.world) [] _ _ None None HL HH)
    as (it' & ev' & L' & H' & Hrun & HL' & HH' & _ & _ & Hnone).
  destruct (Hnone eq_refl eq_refl) as [-> ->].
  by exists it', ev', [], [].
Defined.

(** ** A rejected read is an empty list *)

(** X7: when the store rejects the read of [addMedication] and resolves
    its write, the call fulfils and the stored list is [m] alone: the
    medications that were stored are overwritten. *)
Theorem addMedication_after_rejected_read it fs rs ev m :
  exists it' ev',
    addMedication m (mkWorld it (true :: false :: fs) rs ev)
    = (Return tt, mkWorld it' fs rs ev') /\
    it' !! MEDICATIONS_KEY = Some (JSON_stringify [m]) /\
    stored MEDICATIONS_KEY it' [m] /\
    it' !! DOSE_HISTORY_KEY = it !! DOSE_HISTORY_KEY.
Proof.
  unfold addMedication, try_catch, bind.
  rewrite getMedications_rejected, setItem_resolved.
  eexists _, _. split; [reflexivity|]. split_and!.
  - apply lookup_insert_eq.
  - apply (stored_insert MEDICATIONS_KEY it [m]).
  - by apply lookup_insert_ne.
Qed.

(** X8: when the store rejects the read of [deleteMedication] and
    resolves its write, the call fulfils and the stored list is empty,
    whatever the id: every medication is gone. *)
Theorem deleteMedication_after_rejected_read it fs rs ev id :
  exists it' ev',
    deleteMedication id (mkWorld it (true :: false :: fs) rs ev)
    = (Return tt, mkWorld it' fs rs ev') /\
    it' !! MEDICATIONS_KEY
    = Some (JSON_stringify (@nil Medication)) /\
    fst (getMedications (mkWorld it' [] rs ev')) = Return [].
Proof.
  unfold deleteMedication, try_catch, bind.
  rewrite getMedications_rejected. cbn zeta. rewrite setItem_resolved.
  eexists _, _. split; [reflexivity|]. split.
  - apply lookup_insert_eq.
  - rewrite (getMedications_ok _ _ _ []); [done|].
    apply (stored_insert MEDICATIONS_KEY it (@nil Medication)).
Qed.

(** X9: when the store rejects the read of [updateMedication], the call
    fulfils without a write, also when an entry with the id is stored:
    the update is lost in silence. *)
Theorem updateMedication_after_rejected_read it fs rs ev m :
  exists ev',
    updateMedication m (mkWorld it (true :: fs) rs ev)
    = (Return tt, mkWorld it fs rs ev') /\
    writes ev' = writes ev.
Proof.
  unfold updateMedication, try_catch, bind.
  rewrite getMedications_rejected. cbn.
  eexists. split; [reflexivity|]. unfold writes.
  repeat (rewrite ?List.filter_app; cbn). by rewrite ?app_nil_r.
Qed.

(** X10: when the store rejects the read of the dose history in
    [recordDose] and resolves the write, the stored history is the new
    entry alone: the doses recorded before are overwritten. *)
Theorem recordDose_after_rejected_read it fs rs ev medicationId timestamp :
  exists it' ev',
    recordDose medicationId false timestamp
      (mkWorld it (true :: false :: fs) rs ev)
    = (Return tt, mkWorld it' fs (tail rs) ev') /\
    it' !! DOSE_HISTORY_KEY
    = Some (JSON_stringify
              [DoseHistory.mk (next_id rs) medicationId timestamp false]) /\
    it' !! MEDICATIONS_KEY = it !! MEDICATIONS_KEY.
Proof.
  unfold recordDose, try_catch, bind.
  rewrite getDoseHistory_rejected, random_id_run. cbn zeta.
  rewrite setItem_resolved.
  eexists _, _. split; [reflexivity|]. split.
  - apply lookup_insert_eq.
  - by apply lookup_insert_ne.
Qed.

(** X11: when the store rejects one of the two reads of the medications
    in a taken [recordDose], the call fulfils with the dose appended and
    no supply lowered: the dose is in the history, the count is not
    touched. *)
Theorem recordDose_supply_read_rejected it fs rs ev
    (L : list Medication) (H : list DoseHistory) medicationId timestamp :
  stored MEDICATIONS_KEY it L ->
  stored DOSE_HISTORY_KEY it H ->
  let newDose := DoseHistory.mk (next_id rs) medicationId timestamp true in
  (exists it' ev',
     recordDose medicationId true timestamp
       (mkWorld it (false :: false :: true :: fs) rs ev)
     = (Return tt, mkWorld it' fs (tail rs) ev') /\
     stored DOSE_HISTORY_KEY it' (H ++ [newDose]) /\
     it' !! MEDICATIONS_KEY = it !! MEDICATIONS_KEY) /\
  (forall index medication,
     list_find (fun med => Medication.id med = medicationId) L
     = Some (index, medication) ->
     JSNumber.gt (Medication.currentSupply medication) (JSNumber.of_Z 0)
     = true ->
     exists it' ev',
       recordDose medicationId true timestamp
         (mkWorld it (false :: false :: false :: true :: fs) rs ev)
       = (Return tt, mkWorld it' fs (tail rs) ev') /\
       stored DOSE_HISTORY_KEY it' (H ++ [newDose]) /\
       it' !! MEDICATIONS_KEY = it !! MEDICATIONS_KEY).
Proof.
  intros HL HH newDose. split.
  - unfold recordDose, try_catch, bind.
    rewrite (getDoseHistory_resolved _ _ _ _ _ HH), random_id_run.
    cbn zeta. rewrite setItem_resolved, getMedications_rejected. cbn.
    eexists _, _. split; [reflexivity|]. split.
    + apply stored_insert.
    + by apply lookup_insert_ne.
  - intros index medication Hfind Hpos.
    unfold recordDose, try_catch, bind.
    rewrite (getDoseHistory_resolved _ _ _ _ _ HH), random_id_run.
    cbn zeta. rewrite setItem_resolved.
    rewrite (getMedications_resolved _ _ _ _ L)
      by (by apply stored_insert_ne).
    rewrite Hfind, Hpos. cbn zeta.
    unfold updateMedication, try_catch, bind.
    rewrite getMedications_rejected. cbn.
    eexists _, _. split; [reflexivity|]. split.
    + apply stored_insert.
    + by apply lookup_insert_ne.
Qed.

Lemma recordDose_supply_read_rejected_witness :
  exists it' ev',
    recordDose "m1" true "2024-01-03T09:00:00.000Z"
      (mkWorld Sample.items [false; false; true] ["q1w2e3r4t"] [])
    = (Return tt, mkWorld it' [] [] ev') /\
    it' !! MEDICATIONS_KEY = Sample.items !! MEDICATIONS_KEY.
Proof.
  assert (stored MEDICATIONS_KEY Sample.items
            [Sample.amoxicillin; Sample.vitaminD; Sample.zeroDays]) as HL
    by (right; vm_compute; reflexivity).
  assert (stored DOSE_HISTORY_KEY Sample.items [Sample.dose1; Sample.dose2])
    as HH by (right; vm_compute; reflexivity).
  destruct (recordDose_supply_read_rejected Sample.items [] ["q1w2e3r4t"] []
              _ _ "m1" "2024-01-03T09:00:00.000Z" HL HH)
    as [(it' & ev' & Hrun & _ & Hmeds) _].
  by exists it', ev'.
Defined.

(** X12: [recordDose] is two writes: when the write of the lowered supply
    is rejected, the call rejects with the dose already in the stored
    history and the medications as they were; when the write of the
    history is rejected, the call rejects with the items as they were
    and the medications are not read. *)
Theorem recordDose_partial it fs rs ev
    (L : list Medication) (H : list DoseHistory) medicationId timestamp
    index medication :
  stored MEDICATIONS_KEY it L ->
  stored DOSE_HISTORY_KEY it H ->
  list_find (fun med => Medication.id med = medicationId) L
  = Some (index, medication) ->
  JSNumber.gt (Medication.currentSupply medication) (JSNumber.of_Z 0)
  = true ->
  let newDose := DoseHistory.mk (next_id rs) medicationId timestamp true in
  (exists it' ev',
     recordDose medicationId true timestamp
       (mkWorld it (false :: false :: false :: false :: true :: fs) rs ev)
     = (Throw StoreFailure, mkWorld it' fs (tail rs) ev') /\
     stored DOSE_HISTORY_KEY it' (H ++ [newDose]) /\
     it' !! MEDICATIONS_KEY = it !! MEDICATIONS_KEY) /\
  recordDose medicationId true timestamp
    (mkWorld it (false :: true :: fs) rs ev)
  = (Throw StoreFailure,
     mkWorld it fs (tail rs)
       (ev ++
        [GetItem DOSE_HISTORY_KEY true;
         SetItem DOSE_HISTORY_KEY (JSON_stringify (H ++ [newDose])) false;
         ConsoleError "Error recording dose:"])).
Proof.
  intros HL HH Hfind Hpos newDose. split.
  - unfold recordDose, try_catch, bind.
    rewrite (getDoseHistory_resolved _ _ _ _ _ HH), random_id_run.
    cbn zeta. rewrite setItem_resolved.
    rewrite (getMedications_resolved _ _ _ _ L)
      by (by apply stored_insert_ne).
    rewrite Hfind, Hpos. cbn zeta.
    unfold updateMedication, try_catch, bind.
    rewrite (getMedications_resolved _ _ _ _ L)
      by (by apply stored_insert_ne).
    rewrite (list_find_decrement _ _ _ _ Hfind). cbn zeta.
    rewrite setItem_rejected. cbn.
    eexists _, _. split; [reflexivity|]. split.
    + apply stored_insert.
    + by apply lookup_insert_ne.
  - unfold recordDose, try_catch, bind.
    rewrite (getDoseHistory_resolved _ _ _ _ _ HH), random_id_run.
    cbn zeta. rewrite setItem_rejected. unfold throw, console_error, emit.
    cbn. by rewrite <- !app_assoc.
Qed.

Lemma recordDose_partial_witness :
  exists it' ev',
    recordDose "m1" true "2024-01-03T09:00:00.000Z"
      (mkWorld Sample.items [false; false; false; false; true]
         ["q1w2e3r4t"] [])
    = (Throw StoreFailure, mkWorld it' [] [] ev') /\
    stored DOSE_HISTORY_KEY it'
      [Sample.dose1; Sample.dose2;
       DoseHistory.mk "q1w2e3r4t" "m1" "2024-01-03T09:00:00.000Z" true] /\
    it' !! MEDICATIONS_KEY = Sample.items !! MEDICATIONS_KEY.
Proof.
  assert (stored MEDICATIONS_KEY Sample.items
            [Sample.amoxicillin; Sample.vitaminD; Sample.zeroDays]) as HL
    by (right; vm_compute; reflexivity).
  assert (stored DOSE_HISTORY_KEY Sample.items [Sample.dose1; Sample.dose2])
    as HH by (right; vm_compute; reflexivity).
  destruct (recordDose_partial Sample.items [] ["q1w2e3r4t"] [] _ _ "m1"
              "2024-01-03T09:00:00.000Z" 0%nat Sample.amoxicillin HL HH)
    as [(it' & ev' & Hrun & HH' & Hmeds) _]; [reflexivity|reflexivity|].
  by exists it', ev'.
Defined.

(** ** What a dose changes *)

Module DoseFacts.
Import JSON JSONFacts Async Storage Repository StorageFacts Doses.
Import NumberFacts.

Lemma list_find_take_dose medicationId (l : list Medication) index medication :
  list_find (fun med => Medication.id med = medicationId) l
  = Some (index, medication) ->
  list_find (fun med => Medication.id med = medicationId)
    (take_dose medicationId l)
  = Some (index,
          if JSNumber.gt (Medication.currentSupply medication)
               (JSNumber.of_Z 0)
          then decrementSupply medication else medication).
Proof.
  intros Hfind. rewrite take_dose_find, Hfind.
  destruct (JSNumber.gt _ _); [|done].
  apply list_find_Some in Hfind as (Hindex & Hid & Hbefore).
  apply list_find_Some. split_and!.
  - apply list_lookup_insert_eq. by eapply lookup_lt_Some.
  - done.
  - intros j y Hj Hlt. rewrite list_lookup_insert_ne in Hj by lia.
    by eapply Hbefore.
Qed.

Lemma take_dose_none medicationId (l : list Medication) :
  list_find (fun med => Medication.id med = medicationId) l = None ->
  take_dose medicationId l = l.
Proof. intros Hfind. by rewrite take_dose_find, Hfind. Qed.

(** A taken dose changes at most one entry, and that entry only in its
    supply. *)
Lemma take_dose_pointwise medicationId (l : list Medication) :
  Forall2 (fun med med' => med' = med \/ med' = decrementSupply med)
    l (take_dose medicationId l).
Proof.
  induction l as [|med l IH]; cbn; [constructor|].
  destruct (String.eqb _ _).
  - constructor; [destruct (JSNumber.gt _ _); auto|].
    clear. induction l; constructor; auto.
  - constructor; auto.
Qed.

(** On counts, the entry that changes goes from [n] to [n - 1]. *)
Lemma take_dose_counts medicationId (l : list Medication) :
  Forall supplied l ->
  Forall2
    (fun med med' =>
       med' = med \/
       med' = decrementSupply med /\
       exists n,
         1 <= n <= 2 ^ 53 /\
         Medication.currentSupply med = JSNumber.of_Z n /\
         Medication.currentSupply med' = JSNumber.of_Z (n - 1))
    l (take_dose medicationId l).
Proof.
  induction 1 as [|med l Hmed Hl IH]; cbn; [constructor|].
  destruct (String.eqb _ _).
  - constructor; [|clear; induction l; constructor; auto].
    destruct Hmed as (n & Hn & Hsupply).
    rewrite Hsupply, gt_of_Z_0 by done.
    destruct (Z.ltb_spec 0 n); [right|by left].
    split; [done|]. exists n. split; [lia|]. split; [done|].
    cbn. rewrite Hsupply. apply sub_of_Z_1. lia.
  - constructor; auto.
Qed.

Lemma take_dose_one_change medicationId (l : list Medication) i j :
  take_dose medicationId l !! i <> l !! i ->
  take_dose medicationId l !! j <> l !! j ->
  i = j.
Proof.
  rewrite take_dose_find.
  destruct (list_find _ l) as [[index medication]|]; [|done].
  destruct (JSNumber.gt _ _); [|done]. intros Hi Hj.
  destruct (decide (index = i)) as [<-|Hne];
    [|by rewrite list_lookup_insert_ne in Hi].
  destruct (decide (index = j)) as [<-|Hne];
    [done|by rewrite list_lookup_insert_ne in Hj].
Qed.

End DoseFacts.

Import DoseFacts Doses.

(** X13: on a store that resolves every call and holds medications
    whose supplies are counts (integers from 0 to [2 ^ 53]),
    [recordDose] fulfils, appends exactly one entry to the stored dose
    history, with the next random id and the arguments given, and stores
    a list of medications of the same length in which at most one entry
    has changed, and that one only in its supply, from a count [n] of at
    least 1 to [n - 1]. *)
Theorem recordDose_changes it rs ev
    (L : list Medication) (H : list DoseHistory) medicationId taken timestamp :
  stored MEDICATIONS_KEY it L ->
  stored DOSE_HISTORY_KEY it H ->
  Forall (fun med => JSNumber.is_count (Medication.currentSupply med)) L ->
  exists it' ev' (L' : list Medication),
    recordDose medicationId taken timestamp (mkWorld it [] rs ev)
    = (Return tt, mkWorld it' [] (tail rs) ev') /\
    stored DOSE_HISTORY_KEY it'
      (H ++ [DoseHistory.mk (next_id rs) medicationId timestamp taken]) /\
    stored MEDICATIONS_KEY it' L' /\
    length L' = length L /\
    Forall2
      (fun med med' =>
         med' = med \/
         med' = decrementSupply med /\
         exists n,
           1 <= n <= 2 ^ 53 /\
           Medication.currentSupply med = JSNumber.of_Z n /\
           Medication.currentSupply med' = JSNumber.of_Z (n - 1))
      L L' /\
    (forall i j, L' !! i <> L !! i -> L' !! j <> L !! j -> i = j) /\
    (taken = false -> L' = L).
Proof.
  intros HL HH Hcounts.
  destruct (recordDose_ok it rs ev L H medicationId taken timestamp HL HH)
    as (it' & ev' & Hrun & HH' & HL' & _).
  exists it', ev', (if taken then take_dose medicationId L else L).
  split_and!; try done.
  - destruct taken; [apply take_dose_length|done].
  - destruct taken; [by apply take_dose_counts|].
    clear. induction L; constructor; auto.
  - destruct taken; [apply take_dose_one_change|done].
  - by intros ->.
Qed.

Lemma recordDose_changes_witness :
  exists it' ev' (L' : list Medication),
    recordDose "m2" true "2024-01-11T08:00:00.000Z" Sample.world
    = (Return tt, mkWorld it' [] ["z9y8x7w6v"] ev') /\
    stored DOSE_HISTORY_KEY it'
      [Sample.dose1; Sample.dose2;
       DoseHistory.mk "q1w2e3r4t" "m2" "2024-01-11T08:00:00.000Z" true] /\
    stored MEDICATIONS_KEY it' L' /\ length L' = 3%nat.
Proof.
  assert (stored MEDICATIONS_KEY Sample.items
            [Sample.amoxicillin; Sample.vitaminD; Sample.zeroDays]) as HL
    by (right; vm_compute; reflexivity).
  assert (stored DOSE_HISTORY_KEY Sample.items [Sample.dose1; Sample.dose2])
    as HH by (right; vm_compute; reflexivity).
  assert (Forall (fun med => JSNumber.is_count (Medication.currentSupply med))
            [Sample.amoxicillin; Sample.vitaminD; Sample.zeroDays])
    as Hcounts.
  { repeat constructor.
    - exists 1. split; [lia|reflexivity].
    - exists 60. split; [lia|reflexivity].
    - exists 3. split; [lia|reflexivity]. }
  destruct (recordDose_changes Sample.items ["q1w2e3r4t"; "z9y8x7w6v"] []
              _ _ "m2" true "2024-01-11T08:00:00.000Z" HL HH Hcounts)
    as (it' & ev' & L' & Hrun & HH' & HL' & Hlen & _).
  exists it', ev', L'.
  split; [exact Hrun|]. split; [exact HH'|]. split; [exact HL'|exact Hlen].
Defined.

(** X14: a stored string that is not JSON reads as the empty list: the
    parse error is caught and logged; the empty string reads as the
    empty list without a parse and without a log.  The stored string
    stays, and the next [addMedication] replaces it with the list of its
    one medication. *)
Theorem read_of_text_that_is_not_JSON it fs rs ev s m :
  it !! MEDICATIONS_KEY = Some (Raw s) ->
  exists ev',
    getMedications (mkWorld it (false :: fs) rs ev)
    = (Return [], mkWorld it fs rs ev') /\
    (s = "" -> ev' = ev ++ [GetItem MEDICATIONS_KEY true]) /\
    (s <> "" ->
     ev' = ev ++ [GetItem MEDICATIONS_KEY true;
                  ConsoleError "Error getting medications:"]) /\
    exists it' ev'',
      addMedication m (mkWorld it [] rs ev)
      = (Return tt, mkWorld it' [] rs ev'') /\
      stored MEDICATIONS_KEY it' [m].
Proof.
  intros Hraw. unfold addMedication, getMedications, try_catch, bind, getItem.
  unfold console_error, emit, ret, throw, JSON_parse.
  cbn. rewrite Hraw. destruct s as [|c s]; cbn.
  - eexists. split; [reflexivity|]. split_and!; [done|done|].
    eexists _, _. split; [reflexivity|].
    apply (stored_insert MEDICATIONS_KEY it [m]).
  - eexists. split; [reflexivity|]. split_and!; [done| |].
    + intros _. by rewrite <- app_assoc.
    + eexists _, _. split; [reflexivity|].
      apply (stored_insert MEDICATIONS_KEY it [m]).
Qed.

Lemma read_of_text_that_is_not_JSON_witness :
  exists ev',
    getMedications
      (mkWorld (<[MEDICATIONS_KEY := Raw "[{"]> Sample.items) [false] [] [])
    = (Return [],
       mkWorld (<[MEDICATIONS_KEY := Raw "[{"]> Sample.items) [] [] ev').
Proof.
  destruct (read_of_text_that_is_not_JSON
              (<[MEDICATIONS_KEY := Raw "[{"]> Sample.items) [] [] [] "[{"
              Sample.asNeeded) as (ev' & Hrun & _).
  - apply lookup_insert_eq.
  - by exists ev'.
Defined.

(** X15: [updateMedication m] run twice stores what one run stores: the
    second run finds [m] itself at the first position with its id. *)
Theorem updateMedication_twice it rs ev (L : list Medication) m :
  stored MEDICATIONS_KEY it L ->
  exists w1 w2 (L1 : list Medication),
    updateMedication m (mkWorld it [] rs ev) = (Return tt, w1) /\
    updateMedication m w1 = (Return tt, w2) /\
    stored MEDICATIONS_KEY (items w1) L1 /\
    stored MEDICATIONS_KEY (items w2) L1.
Proof.
  intros HL. rewrite (updateMedication_ok _ _ _ _ _ HL).
  destruct (list_find _ L) as [[index m0]|] eqn:Hfind.
  - cbn zeta. eexists _, _, (<[index := m]> L). split; [reflexivity|].
    rewrite (updateMedication_ok _ _ _ (<[index := m]> L))
      by apply stored_insert.
    assert (list_find (fun med => Medication.id med = Medication.id m)
              (<[index := m]> L) = Some (index, m)) as ->.
    { apply list_find_Some in Hfind as (Hindex & Hid & Hbefore).
      apply list_find_Some. split_and!.
      - apply list_lookup_insert_eq. by eapply lookup_lt_Some.
      - done.
      - intros j y Hj Hlt. rewrite list_lookup_insert_ne in Hj by lia.
        by eapply Hbefore. }
    cbn zeta. rewrite list_insert_insert_eq. split; [reflexivity|].
    cbn [items]. split; apply stored_insert.
  - eexists _, _, L. split; [reflexivity|].
    rewrite (updateMedication_ok _ _ _ _ _ HL), Hfind. done.
Qed.

Lemma updateMedication_twice_witness :
  exists w1 w2 (L1 : list Medication),
    updateMedication (decrementSupply Sample.vitaminD) Sample.world
    = (Return tt, w1) /\
    updateMedication (decrementSupply Sample.vitaminD) w1 = (Return tt, w2) /\
    stored MEDICATIONS_KEY (items w1) L1 /\
    stored MEDICATIONS_KEY (items w2) L1.
Proof.
  assert (stored MEDICATIONS_KEY Sample.items
            [Sample.amoxicillin; Sample.vitaminD; Sample.zeroDays]) as HL
    by (right; vm_compute; reflexivity).
  exact (updateMedication_twice Sample.items (randoms Sample.world) [] _
           (decrementSupply Sample.vitaminD) HL).
Defined.

(** X16: taken doses recorded one after the other, on a store that
    resolves every call, lower the supply of the first medication with
    the id once each while it is above 0 and stop at 0: from a supply
    that is a count [s] (an integer from 0 to [2 ^ 53]), [n] doses leave
    the count [max 0 (s - n)], and the history has [n] more entries. *)
Theorem recordDoses_drain timestamps :
  forall it rs ev (L : list Medication) (H : list DoseHistory) medicationId
         index medication s,
    stored MEDICATIONS_KEY it L ->
    stored DOSE_HISTORY_KEY it H ->
    list_find (fun med => Medication.id med = medicationId) L
    = Some (index, medication) ->
    0 <= s <= 2 ^ 53 ->
    Medication.currentSupply medication = JSNumber.of_Z s ->
    exists w' (L' : list Medication) (H' : list DoseHistory) medication',
      recordDoses medicationId timestamps (mkWorld it [] rs ev)
      = (Return tt, w') /\
      faults w' = [] /\
      stored MEDICATIONS_KEY (items w') L' /\
      stored DOSE_HISTORY_KEY (items w') H' /\
      L' !! index = Some medication' /\
      Medication.id medication' = medicationId /\
      Medication.currentSupply medication'
      = JSNumber.of_Z (Z.max 0 (s - Z.of_nat (length timestamps))) /\
      length H' = (length H + length timestamps)%nat /\
      length L' = length L.
Proof.
  induction timestamps as [|t ts IH];
    intros it rs ev L H medicationId index medication s HL HH Hfind Hs
      Hsupply.
  - apply list_find_Some in Hfind as Hfind'.
    destruct Hfind' as (Hindex & Hid & _).
    exists (mkWorld it [] rs ev), L, H, medication.
    split_and!; try done; try (cbn; lia).
    rewrite Hsupply. f_equal. cbn. lia.
  - destruct (recordDose_ok it rs ev L H medicationId true t HL HH)
      as (it1 & ev1 & Hrun & HH1 & HL1 & _).
    pose proof (list_find_take_dose _ _ _ _ Hfind) as Hfind1.
    rewrite Hsupply, gt_of_Z_0 in Hfind1 by done.
    assert (exists s1,
              0 <= s1 <= 2 ^ 53 /\
              Z.max 0 (s1 - Z.of_nat (length ts))
              = Z.max 0 (s - Z.of_nat (length (t :: ts))) /\
              Medication.currentSupply
                (if 0 <? s then decrementSupply medication else medication)
              = JSNumber.of_Z s1) as (s1 & Hs1 & Hmax & Hsupply1).
    { destruct (Z.ltb_spec 0 s).
      - exists (s - 1). split; [lia|]. split; [cbn [length]; lia|].
        cbn. rewrite Hsupply. apply sub_of_Z_1. lia.
      - exists s. split; [lia|]. split; [cbn [length]; lia|done]. }
    destruct (IH it1 (tail rs) ev1 _ _ medicationId index _ s1 HL1 HH1 Hfind1
                Hs1 Hsupply1)
      as (w' & L' & H' & medication' & Hruns & Hfaults & HL' & HH' & Hindex
          & Hid & Hsupply' & HlenH & HlenL).
    exists w', L', H', medication'.
    cbn [recordDoses]. unfold bind at 1. rewrite Hrun.
    split_and!; try done.
    + by rewrite Hsupply', Hmax.
    + rewrite HlenH, length_app. cbn. lia.
    + by rewrite HlenL, take_dose_length.
Qed.

Lemma recordDoses_drain_witness :
  exists w' (L' : list Medication) medication',
    recordDoses "m4" ["t1"; "t2"; "t3"; "t4"; "t5"] Sample.world
    = (Return tt, w') /\
    stored MEDICATIONS_KEY (items w') L' /\
    L' !! 2%nat = Some medication' /\
    Medication.currentSupply medication' = JSNumber.of_Z 0.
Proof.
  assert (stored MEDICATIONS_KEY Sample.items
            [Sample.amoxicillin; Sample.vitaminD; Sample.zeroDays]) as HL
    by (right; vm_compute; reflexivity).
  assert (stored DOSE_HISTORY_KEY Sample.items [Sample.dose1; Sample.dose2])
    as HH by (right; vm_compute; reflexivity).
  assert (0 <= 3 <= 2 ^ 53) as Hs by lia.
  destruct (recordDoses_drain ["t1"; "t2"; "t3"; "t4"; "t5"] Sample.items
              (randoms Sample.world) [] _ _ "m4" 2%nat Sample.zeroDays 3
              HL HH eq_refl Hs eq_refl)
    as (w' & L' & H' & medication' & Hrun & _ & HL' & _ & Hindex & _
        & Hsupply & _).
  exists w', L', medication'.
  split; [exact Hrun|]. split; [exact HL'|]. split; [exact Hindex|].
  exact Hsupply.
Defined.

(** X17: [clearDataForDateRange] is two writes: when the write of the
    dose history is rejected the call rejects with the filtered
    medications already stored and the dose history as it was. *)
Theorem clearDataForDateRange_partial Date_parse it fs rs ev
    (L : list Medication) (H : list DoseHistory) startDate endDate :
  stored MEDICATIONS_KEY it L ->
  stored DOSE_HISTORY_KEY it H ->
  exists it' ev',
    clearDataForDateRange Date_parse startDate endDate
      (mkWorld it (false :: false :: false :: true :: fs) rs ev)
    = (Throw StoreFailure, mkWorld it' fs rs ev') /\
    stored MEDICATIONS_KEY it'
      (List.filter
         (fun med =>
            JSDate.lt (Date_parse (Medication.startDate med)) startDate
            || JSDate.gt (Date_parse (Medication.startDate med)) endDate) L) /\
    it' !! DOSE_HISTORY_KEY = it !! DOSE_HISTORY_KEY.
Proof.
  intros HL HH. unfold clearDataForDateRange, try_catch, bind.
  rewrite (getMedications_resolved _ _ _ _ _ HL).
  rewrite (getDoseHistory_resolved _ _ _ _ _ HH). cbn zeta.
  rewrite setItem_resolved, setItem_rejected.
  eexists _, _. split; [reflexivity|]. split.
  - apply stored_insert.
  - by apply lookup_insert_ne.
Qed.

Lemma clearDataForDateRange_partial_witness :
  exists it' ev',
    clearDataForDateRange ISO.Date_parse
      (ISO.Date_parse "2024-01-01") (ISO.Date_parse "2024-01-01")
      (mkWorld Sample.items [false; false; false; true] [] [])
    = (Throw StoreFailure, mkWorld it' [] [] ev') /\
    stored MEDICATIONS_KEY it' [Sample.amoxicillin] /\
    it' !! DOSE_HISTORY_KEY = Sample.items !! DOSE_HISTORY_KEY.
Proof.
  assert (stored MEDICATIONS_KEY Sample.items
            [Sample.amoxicillin; Sample.vitaminD; Sample.zeroDays]) as HL
    by (right; vm_compute; reflexivity).
  assert (stored DOSE_HISTORY_KEY Sample.items [Sample.dose1; Sample.dose2])
    as HH by (right; vm_compute; reflexivity).
  exact (clearDataForDateRange_partial ISO.Date_parse Sample.items [] [] []
           _ _ (ISO.Date_parse "2024-01-01") (ISO.Date_parse "2024-01-01")
           HL HH).
Defined.

(** ** Dates that print the same *)

Module DateStringFacts.
Import JSDate DateFields DateFacts DateFieldFacts.

Lemma fields_same_day t1 t2 :
  Day t1 = Day t2 ->
  YearFromTime t1 = YearFromTime t2 /\ MonthFromTime t1 = MonthFromTime t2
  /\ DateFromTime t1 = DateFromTime t2 /\ WeekDay t1 = WeekDay t2.
Proof.
  intros Hday.
  assert (YearFromTime t1 = YearFromTime t2) as HY
    by (unfold YearFromTime; by rewrite Hday).
  assert (InLeapYear t1 = InLeapYear t2) as HL
    by (unfold InLeapYear; by rewrite HY).
  assert (DayWithinYear t1 = DayWithinYear t2) as HD
    by (unfold DayWithinYear; by rewrite HY, Hday).
  assert (MonthFromTime t1 = MonthFromTime t2) as HM
    by (unfold MonthFromTime; by rewrite HD, HL).
  split_and!; [done|done| |].
  - unfold DateFromTime. by rewrite HD, HM, HL.
  - unfold WeekDay. by rewrite Hday.
Qed.

(** Two dates print the same date string exactly when they lie on the
    same local day, or are both invalid. *)
Lemma toDateString_localDay LocalTZA (a b : Date) :
  toDateString LocalTZA a = toDateString LocalTZA b
  <-> localDay LocalTZA a = localDay LocalTZA b.
Proof.
  destruct a as [ta|], b as [tb|]; cbn; try done.
  split.
  - intros [= _ HM HD HY]. f_equal.
    rewrite <- (Z.add_0_r (Day (LocalTime LocalTZA ta))).
    rewrite <- (Z.add_0_r (Day (LocalTime LocalTZA tb))).
    rewrite <- !MakeDay_DateFromTime. by rewrite HY, HM, HD.
  - intros [= Hday].
    destruct (fields_same_day _ _ Hday) as (-> & -> & -> & ->). done.
Qed.

Lemma Day_midnight D r : 0 <= r < msPerDay -> Day (D * msPerDay + r) = D.
Proof.
  intros Hr. unfold Day. rewrite Z.add_comm, Z.div_add by done.
  rewrite Z.div_small by done. lia.
Qed.

(** [setHours(0, 0, 0, 0)] keeps the local day, when the midnight is
    representable. *)
Lemma normalized_localDay LocalTZA d s :
  setHours LocalTZA d 0 0 0 0 = Some s ->
  localDay LocalTZA (Some s) = localDay LocalTZA d /\
  exists D, localDay LocalTZA d = Some D /\ s = D * msPerDay - LocalTZA.
Proof.
  intros (_ & tv & -> & ->)%setHours_midnight. cbn. unfold LocalTime.
  replace (Day (tv + LocalTZA) * msPerDay - LocalTZA + LocalTZA)
    with (Day (tv + LocalTZA) * msPerDay + 0) by lia.
  rewrite Day_midnight by done. split; [done|]. by eexists.
Qed.

End DateStringFacts.

Import DateFields Today DateFieldFacts DateStringFacts.

(** X18: [getTodaysDoses] fulfils in every world, writes nothing and
    returns the empty list when the read is rejected; on a store that
    resolves the read it returns, in their stored order, exactly the doses
    whose timestamp lies on the local day of [now] (a dose whose
    timestamp does not parse is listed only when [now] is invalid
    too). *)
Theorem getTodaysDoses_same_day LocalTZA Date_parse now :
  (forall w, exists l w',
     getTodaysDoses LocalTZA Date_parse now w = (Return l, w') /\
     items w' = items w /\ writes (events w') = writes (events w) /\
     (head (faults w) = Some true -> l = [])) /\
  (forall it rs ev (H : list DoseHistory),
     stored DOSE_HISTORY_KEY it H ->
     exists l ev',
       getTodaysDoses LocalTZA Date_parse now (mkWorld it [] rs ev)
       = (Return l, mkWorld it [] rs ev') /\
       sublist l H /\
       forall dose,
         In dose l <->
         In dose H /\
         localDay LocalTZA (Date_parse (DoseHistory.timestamp dose))
         = localDay LocalTZA now).
Proof.
  split.
  - intros w. unfold getTodaysDoses, try_catch, bind.
    destruct (getDoseHistory_run w) as (w' & -> & Hit & _ & _ & Hwr & _).
    cbn zeta. eexists _, w'. split; [reflexivity|]. split_and!; [done..|].
    intros Hhead. unfold read, next_fault.
    destruct w as [it [|[] fs] rs ev]; by cbn in *.
  - intros it rs ev H HH. unfold getTodaysDoses, try_catch, bind.
    rewrite (getDoseHistory_ok _ _ _ _ HH). cbn zeta.
    eexists _, _. split; [reflexivity|]. split.
    + clear. induction H as [|dose H IH]; cbn; [done|].
      destruct (onDay _ _ _ _); by constructor.
    + intros dose. rewrite List.filter_In. unfold onDay.
      by rewrite bool_decide_eq_true, toDateString_localDay.
Qed.

Lemma getTodaysDoses_same_day_witness :
  exists l ev',
    getTodaysDoses 0 ISO.Date_parse
      (ISO.Date_parse "2024-01-10T23:00:00.000Z") Sample.world
    = (Return l, mkWorld Sample.items [] (randoms Sample.world) ev') /\
    sublist l [Sample.dose1; Sample.dose2].
Proof.
  assert (stored DOSE_HISTORY_KEY Sample.items [Sample.dose1; Sample.dose2])
    as HH by (right; vm_compute; reflexivity).
  destruct (getTodaysDoses_same_day 0 ISO.Date_parse
              (ISO.Date_parse "2024-01-10T23:00:00.000Z")) as [_ Hok].
  destruct (Hok Sample.items (randoms Sample.world) [] _ HH)
    as (l & ev' & Hrun & Hsub & _).
  exists l, ev'. split; [exact Hrun|exact Hsub].
Defined.

(** ** More of the scheduling predicate *)

Module ScheduleFacts.
Import JSDate Calendar DateFacts CalendarFacts.

Lemma normalized_by_localDay LocalTZA (d d' : Date) :
  localDay LocalTZA d = localDay LocalTZA d' ->
  setHours LocalTZA d 0 0 0 0 = setHours LocalTZA d' 0 0 0 0.
Proof.
  destruct d as [t|], d' as [t'|]; cbn; try done.
  intros [= Hday]. by rewrite Hday.
Qed.

End ScheduleFacts.

Import ScheduleFacts.

(** X19: the days on which a medication is scheduled have no gap: when
    it is scheduled on two valid dates it is scheduled on every valid
    date between them, whatever its duration and its start date. *)
Theorem scheduled_days_contiguous LocalTZA Date_parse m d1 d2 d3 q1 q2 q3 :
  normalized LocalTZA d1 = Some q1 ->
  normalized LocalTZA d2 = Some q2 ->
  normalized LocalTZA d3 = Some q3 ->
  q1 <= q2 <= q3 ->
  isMedicationScheduledForDate LocalTZA Date_parse m d1 = true ->
  isMedicationScheduledForDate LocalTZA Date_parse m d3 = true ->
  isMedicationScheduledForDate LocalTZA Date_parse m d2 = true.
Proof.
  intros H1 H2 H3 Hle. unfold isMedicationScheduledForDate.
  rewrite H1, H2, H3. cbn zeta.
  destruct (normalizedStart LocalTZA Date_parse m) as [s|]; cbn [lt].
  - destruct (Z.ltb_spec q1 s); [done|]. destruct (Z.ltb_spec q3 s); [done|].
    destruct (Z.ltb_spec q2 s); [lia|].
    destruct (negb _); [|done].
    destruct (match_digits _) as [ds|]; [|done].
    unfold gt. destruct (endDateOf _ _ _) as [e|]; cbn [lt]; [|done].
    destruct (Z.ltb_spec e q1); [done|]. destruct (Z.ltb_spec e q3); [done|].
    destruct (Z.ltb_spec e q2); [lia|done].
  - destruct (negb _); [|done].
    destruct (match_digits _) as [ds|]; [|done].
    unfold gt. destruct (endDateOf _ _ _) as [e|]; cbn [lt]; [|done].
    destruct (Z.ltb_spec e q1); [done|]. destruct (Z.ltb_spec e q3); [done|].
    destruct (Z.ltb_spec e q2); [lia|done].
Qed.

Lemma scheduled_days_contiguous_witness :
  isMedicationScheduledForDate 0 ISO.Date_parse Sample.amoxicillin
    (fromYMD 0 2024 0 15) = true.
Proof.
  apply (scheduled_days_contiguous 0 ISO.Date_parse Sample.amoxicillin
           (fromYMD 0 2024 0 1) (fromYMD 0 2024 0 15) (fromYMD 0 2024 0 30)
           1704067200000 1705276800000 1706572800000).
  - vm_compute; reflexivity.
  - vm_compute; reflexivity.
  - vm_compute; reflexivity.
  - lia.
  - vm_compute; reflexivity.
  - vm_compute; reflexivity.
Defined.

(** X20: the predicate looks at local calendar days only: two
    medications with one duration whose start dates lie on one local
    day, asked about two dates on one local day, get one answer,
    whatever the times of day. *)
Theorem scheduled_by_local_day LocalTZA Date_parse m m' d d' :
  localDay LocalTZA (Date_parse (Medication.startDate m))
  = localDay LocalTZA (Date_parse (Medication.startDate m')) ->
  Medication.duration m = Medication.duration m' ->
  localDay LocalTZA d = localDay LocalTZA d' ->
  isMedicationScheduledForDate LocalTZA Date_parse m d
  = isMedicationScheduledForDate LocalTZA Date_parse m' d'.
Proof.
  intros Hstart Hdur Hday.
  unfold isMedicationScheduledForDate, normalizedStart, normalized.
  by rewrite (normalized_by_localDay _ _ _ Hstart),
    (normalized_by_localDay _ _ _ Hday), Hdur.
Qed.

Lemma scheduled_by_local_day_witness :
  isMedicationScheduledForDate 0 ISO.Date_parse Sample.amoxicillin
    (ISO.Date_parse "2024-01-30T23:59:59.999Z")
  = isMedicationScheduledForDate 0 ISO.Date_parse Sample.amoxicillin
      (fromYMD 0 2024 0 30).
Proof.
  apply (scheduled_by_local_day 0 ISO.Date_parse Sample.amoxicillin
           Sample.amoxicillin);
    vm_compute; reflexivity.
Defined.

(** X21: a start date stored as midnight UTC of day [D], read in a zone
    west of UTC, is normalized to the local midnight of the day before:
    a medication with [N >= 1] days is scheduled on the local day
    [D - 1] and no longer on the local day [D + N - 1].  In a zone at or
    east of UTC the normalized start is the local midnight of [D]. *)
Theorem start_at_UTC_midnight LocalTZA Date_parse m D s :
  Date_parse (Medication.startDate m) = Some (D * msPerDay) ->
  normalizedStart LocalTZA Date_parse m = Some s ->
  (0 <= LocalTZA < msPerDay -> s = D * msPerDay - LocalTZA) /\
  (- msPerDay <= LocalTZA < 0 ->
   s = (D - 1) * msPerDay - LocalTZA /\
   forall N d,
     Medication.duration m <> "Ongoing" ->
     durationDaysOf (Medication.duration m) = Some N -> 1 <= N ->
     (normalized LocalTZA d = Some ((D - 1) * msPerDay - LocalTZA) ->
      isMedicationScheduledForDate LocalTZA Date_parse m d = true) /\
     (normalized LocalTZA d = Some ((D + N - 1) * msPerDay - LocalTZA) ->
      isMedicationScheduledForDate LocalTZA Date_parse m d = false)).
Proof.
  intros Hparse Hs.
  assert (s = Day (D * msPerDay + LocalTZA) * msPerDay - LocalTZA) as Hs'.
  { unfold normalizedStart in Hs. rewrite Hparse in Hs.
    apply setHours_midnight in Hs as (_ & tv & [= <-] & ->). done. }
  split.
  - intros Htz. by rewrite Hs', Day_midnight.
  - intros Htz.
    assert (s = (D - 1) * msPerDay - LocalTZA) as ->.
    { rewrite Hs'. replace (D * msPerDay + LocalTZA)
        with ((D - 1) * msPerDay + (msPerDay + LocalTZA)) by lia.
      by rewrite Day_midnight by lia. }
    split; [done|]. intros N d Hdur HN Hpos.
    split; intros Hq.
    + apply (scheduled_bounded _ _ _ _ _ _ _ Hdur HN Hs Hq); [lia|].
      unfold msPerDay. lia.
    + apply not_true_is_false.
      rewrite (scheduled_bounded _ _ _ _ _ _ _ Hdur HN Hs Hq) by lia.
      unfold msPerDay. lia.
Qed.

Lemma start_at_UTC_midnight_witness :
  normalizedStart (-18000000) ISO.Date_parse Sample.vitaminD
  = Some (19722 * msPerDay + 18000000).
Proof.
  assert (ISO.Date_parse (Medication.startDate Sample.vitaminD)
          = Some (19723 * msPerDay)) as Hparse by (vm_compute; reflexivity).
  assert (normalizedStart (-18000000) ISO.Date_parse Sample.vitaminD
          = Some 1703998800000) as Hs by (vm_compute; reflexivity).
  destruct (start_at_UTC_midnight (-18000000) ISO.Date_parse Sample.vitaminD
              19723 _ Hparse Hs) as [_ Hwest].
  destruct Hwest as [Heq _]; [vm_compute; split; [discriminate|reflexivity]|].
  rewrite Hs. f_equal.
Defined.

(** X22: an Invalid Date compares false with every date, so with a start
    date that does not parse, or an invalid query date, the predicate
    answers "scheduled" and [getScheduledTimesForDate] returns every
    time of the medication. *)
Theorem scheduled_on_invalid_dates LocalTZA Date_parse m d :
  Date_parse (Medication.startDate m) = None \/ d = None ->
  isMedicationScheduledForDate LocalTZA Date_parse m d = true /\
  getScheduledTimesForDate LocalTZA Date_parse m d = Medication.times m.
Proof.
  intros Hinvalid.
  assert (isMedicationScheduledForDate LocalTZA Date_parse m d = true) as Hyes.
  { apply scheduled_invalid. unfold normalizedStart, normalized.
    destruct Hinvalid as [-> | ->]; [by left|by right]. }
  split; [done|]. unfold getScheduledTimesForDate. by rewrite Hyes.
Qed.

Lemma scheduled_on_invalid_dates_witness :
  getScheduledTimesForDate 0 ISO.Date_parse Sample.zeroDays None
  = ["12:00"].
Proof.
  exact (proj2 (scheduled_on_invalid_dates 0 ISO.Date_parse Sample.zeroDays
                  None (or_intror eq_refl))).
Defined.

(** X23: on the day it starts a medication is scheduled with all its
    times, unless its day count is 0: [getScheduledTimesForDate] on a
    date of the start day returns the times when the duration is
    "Ongoing", has no digit, or counts at least one day. *)
Theorem scheduled_on_start_day LocalTZA Date_parse m d s :
  normalizedStart LocalTZA Date_parse m = Some s ->
  normalized LocalTZA d = Some s ->
  Medication.duration m = "Ongoing" \/
  durationDaysOf (Medication.duration m) <> Some 0 ->
  isMedicationScheduledForDate LocalTZA Date_parse m d = true /\
  getScheduledTimesForDate LocalTZA Date_parse m d = Medication.times m.
Proof.
  intros Hs Hq Hdur.
  assert (isMedicationScheduledForDate LocalTZA Date_parse m d = true) as Hyes.
  { destruct Hdur as [Hongoing|Hcount].
    - apply (scheduled_unbounded _ _ _ _ _ _ Hs Hq); [by left|lia].
    - destruct (decide (Medication.duration m = "Ongoing")) as [Hongoing|Hnot].
      { apply (scheduled_unbounded _ _ _ _ _ _ Hs Hq); [by left|lia]. }
      destruct (durationDaysOf (Medication.duration m)) as [N|] eqn:HN.
      + pose proof (durationDaysOf_nonneg _ _ HN) as HN0.
        assert (N <> 0) as HN1 by congruence.
        apply (scheduled_bounded _ _ _ _ _ _ _ Hnot HN Hs Hq); [lia|].
        unfold msPerDay. lia.
      + apply durationDaysOf_None, match_digits_None in HN.
        apply (scheduled_unbounded _ _ _ _ _ _ Hs Hq); [by right|lia]. }
  split; [done|]. unfold getScheduledTimesForDate. by rewrite Hyes.
Qed.

Lemma scheduled_on_start_day_witness :
  getScheduledTimesForDate 0 ISO.Date_parse Sample.amoxicillin
    (ISO.Date_parse "2024-01-01T23:00:00.000Z")
  = ["09:00"; "21:00"].
Proof.
  assert (normalizedStart 0 ISO.Date_parse Sample.amoxicillin
          = Some 1704067200000) as Hs by (vm_compute; reflexivity).
  assert (normalized 0 (ISO.Date_parse "2024-01-01T23:00:00.000Z")
          = Some 1704067200000) as Hq by (vm_compute; reflexivity).
  assert (Medication.duration Sample.amoxicillin = "Ongoing" \/
          durationDaysOf (Medication.duration Sample.amoxicillin) <> Some 0)
    as Hdur by (right; vm_compute; discriminate).
  exact (proj2 (scheduled_on_start_day 0 ISO.Date_parse Sample.amoxicillin
                  _ _ Hs Hq Hdur)).
Defined.

(** ** The month of the calendar screen *)

Module MonthFacts.
Import JSDate DateFields DateFacts DateFieldFacts DateStringFacts.

Lemma InLeapYear_leap_of t : InLeapYear t = leap_of (YearFromTime t).
Proof. done. Qed.

Lemma DateFromTime_DaysInMonth t :
  1 <= DateFromTime t <= DaysInMonth (MonthFromTime t) (InLeapYear t).
Proof.
  pose proof (DayWithinYear_range t) as Hd.
  pose proof (DaysInYear_leap (YearFromTime t)) as Hl.
  rewrite <- InLeapYear_leap_of in Hl.
  assert (0 <= InLeapYear t <= 1) as Hl01
    by (unfold InLeapYear; case_match; lia).
  split; [apply DateFromTime_range|].
  unfold DateFromTime, MonthFromTime, DaysInMonth, FirstDayOfMonth.
  repeat case_match; cbn in *; lia.
Qed.

Lemma DaysInMonth_range m leap :
  0 <= leap <= 1 -> 28 <= DaysInMonth m leap <= 31.
Proof. intros Hl. unfold DaysInMonth. repeat case_match; lia. Qed.

(** Day 0 of the next month is the last day of this month. *)
Lemma MakeDay_next_month y m :
  0 <= m <= 11 ->
  MakeDay y (m + 1) 0 = MakeDay y m (DaysInMonth m (leap_of y)).
Proof.
  intros Hm. unfold MakeDay.
  rewrite (Z.div_small m), (Z.mod_small m), !Z.add_0_r by lia.
  fold (leap_of y). destruct (Z.eq_dec m 11) as [->|Hne].
  - change ((11 + 1) / 12) with 1. change ((11 + 1) mod 12) with 0.
    pose proof (DaysInYear_spec y) as Hnext.
    pose proof (DaysInYear_leap y) as Hleap.
    unfold FirstDayOfMonth, DaysInMonth. repeat case_match; lia.
  - rewrite Z.div_small, Z.mod_small, !Z.add_0_r by lia. fold (leap_of y).
    unfold FirstDayOfMonth, DaysInMonth. repeat case_match; lia.
Qed.

Lemma MakeDay_shift y m k j : MakeDay y m (k + j) = MakeDay y m k + j.
Proof. unfold MakeDay. lia. Qed.

Section Month.
Variable LocalTZA : Z.

(** The local day of [new Date(year, month, day)] for a year outside
    0..99, when the date is representable. *)
Lemma newDate_day y m k tv :
  ~ 0 <= y <= 99 ->
  newDate LocalTZA (Some y) (Some m) (Some k) = Some tv ->
  LocalTime LocalTZA tv = MakeDay y m k * msPerDay.
Proof.
  intros Hy. cbn. unfold fromYMD.
  assert ((0 <=? y) && (y <=? 99) = false) as ->.
  { destruct (Z.leb_spec 0 y), (Z.leb_spec y 99); cbn; (done || lia). }
  intros [-> _]%TimeClip_Some. unfold LocalTime, UTC, MakeDate, MakeTime. lia.
Qed.

Lemma newDate_valid y m k :
  ~ 0 <= y <= 99 ->
  - maxTime <= MakeDay y m k * msPerDay - LocalTZA <= maxTime ->
  newDate LocalTZA (Some y) (Some m) (Some k)
  = Some (MakeDay y m k * msPerDay - LocalTZA).
Proof.
  intros Hy Hrange. cbn. unfold fromYMD.
  assert ((0 <=? y) && (y <=? 99) = false) as ->.
  { destruct (Z.leb_spec 0 y), (Z.leb_spec y 99); cbn; (done || lia). }
  unfold UTC, MakeDate, MakeTime.
  replace (MakeDay y m k * msPerDay + (0 * msPerHour + 0 * msPerMinute
             + 0 * msPerSecond + 0) - LocalTZA)
    with (MakeDay y m k * msPerDay - LocalTZA) by lia.
  by apply TimeClip_in.
Qed.
End Month.

End MonthFacts.

Module GridFacts.
Import JSDate DateFields Calendar Screen.
Import DateFacts DateFieldFacts DateStringFacts MonthFacts.

(** What [getDaysInMonth] computes for a valid date, with the day
    numbers of the month it looks at. *)
Lemma getDaysInMonth_run LocalTZA tv :
  let t := tv + LocalTZA in
  let y := YearFromTime t in
  let m := MonthFromTime t in
  ~ 0 <= y <= 99 ->
  - maxTime + 31 * msPerDay <= tv <= maxTime - 31 * msPerDay ->
  getDaysInMonth LocalTZA (Some tv)
  = (Some (DaysInMonth m (leap_of y)), Some (WeekDay (MakeDay y m 1 * msPerDay)))
  /\ MakeDay y m 1 = Day t + (1 - DateFromTime t)
  /\ 1 <= DateFromTime t <= DaysInMonth m (leap_of y)
  /\ 28 <= DaysInMonth m (leap_of y) <= 31.
Proof.
  intros t y m Hyear Hrange.
  set (k := DateFromTime t). set (dim := DaysInMonth m (leap_of y)).
  pose proof (MonthFromTime_range t) as Hm. fold m in Hm.
  pose proof (DateFromTime_DaysInMonth t) as Hk.
  rewrite InLeapYear_leap_of in Hk. fold k m y dim in Hk.
  assert (0 <= leap_of y <= 1) as Hl by (unfold leap_of; case_match; lia).
  pose proof (DaysInMonth_range m _ Hl) as Hdim. fold dim in Hdim.
  assert (MakeDay y m k = Day t) as Hday.
  { rewrite <- (Z.add_0_r k). unfold y, m, k.
    rewrite MakeDay_DateFromTime. lia. }
  assert (Day t * msPerDay <= t < Day t * msPerDay + msPerDay) as Hfloor.
  { unfold Day. pose proof (Z.div_mod t msPerDay ltac:(done)).
    pose proof (Z.mod_pos_bound t msPerDay ltac:(done)). lia. }
  assert (MakeDay y (m + 1) 0 = Day t + (dim - k)) as Hlast.
  { rewrite MakeDay_next_month by done. rewrite <- Hday.
    rewrite <- MakeDay_shift. f_equal. fold dim. lia. }
  assert (MakeDay y m 1 = Day t + (1 - k)) as Hfirst.
  { rewrite <- Hday, <- MakeDay_shift. f_equal. lia. }
  refine (conj _ (conj Hfirst (conj Hk Hdim))).
  unfold getDaysInMonth. cbn [getFullYear getMonth add].
  unfold LocalTime. fold t y m.
  rewrite (newDate_valid _ y (m + 1) 0), (newDate_valid _ y m 1);
    [|done|rewrite Hfirst; unfold t in *; unfold msPerDay in *; lia
     |done|rewrite Hlast; unfold t in *; unfold msPerDay in *; lia].
  cbn [getDate getDay]. unfold LocalTime.
  replace (MakeDay y (m + 1) 0 * msPerDay - LocalTZA + LocalTZA)
    with (MakeDay y (m + 1) 0 * msPerDay) by lia.
  replace (MakeDay y m 1 * msPerDay - LocalTZA + LocalTZA)
    with (MakeDay y m 1 * msPerDay) by lia.
  assert (DateFromTime (MakeDay y (m + 1) 0 * msPerDay) = dim) as ->; [|done].
  apply (fields_of_MakeDay _ y m dim); [done| |].
  - fold dim. lia.
  - unfold Day at 1. rewrite Z.div_mul by done.
    rewrite Hlast, <- Hday, <- MakeDay_shift. f_equal. lia.
Qed.

Lemma WeekDay_midnight D : WeekDay (D * msPerDay) = (D + 4) mod 7.
Proof. unfold WeekDay, Day. by rewrite Z.div_mul. Qed.

End GridFacts.

Import Screen MonthFacts GridFacts.

(** X24: for a valid date (not within a month of the ends of the time
    range, in a year outside 0..99) [getDaysInMonth] returns the number
    of days of the month of the date, between 28 and 31 and at least the
    day of the date, and the week day of the first of the month: the
    week day of the date is [firstDay + getDate - 1] modulo 7. *)
Theorem getDaysInMonth_of_date LocalTZA tv :
  ~ 0 <= YearFromTime (tv + LocalTZA) <= 99 ->
  - maxTime + 31 * msPerDay <= tv <= maxTime - 31 * msPerDay ->
  exists days firstDay,
    getDaysInMonth LocalTZA (Some tv) = (Some days, Some firstDay) /\
    days = DaysInMonth (MonthFromTime (tv + LocalTZA))
             (InLeapYear (tv + LocalTZA)) /\
    28 <= days <= 31 /\
    1 <= DateFromTime (tv + LocalTZA) <= days /\
    0 <= firstDay <= 6 /\
    WeekDay (tv + LocalTZA)
    = (firstDay + DateFromTime (tv + LocalTZA) - 1) mod 7.
Proof.
  intros Hyear Hrange.
  destruct (getDaysInMonth_run LocalTZA tv Hyear Hrange)
    as (Hrun & Hfirst & Hk & Hdim).
  eexists _, _. split; [exact Hrun|].
  rewrite WeekDay_midnight, Hfirst, InLeapYear_leap_of.
  pose proof (Z.mod_pos_bound
                (Day (tv + LocalTZA) + (1 - DateFromTime (tv + LocalTZA)) + 4)
                7 ltac:(done)) as Hmod.
  refine (conj eq_refl (conj Hdim (conj Hk (conj _ _)))); [lia|].
  unfold WeekDay.
  rewrite <- Z.add_sub_assoc, Z.add_mod_idemp_l by done. f_equal. lia.
Qed.

Lemma getDaysInMonth_of_date_witness :
  exists days firstDay,
    getDaysInMonth 0 (fromYMD 0 2024 1 15) = (Some days, Some firstDay) /\
    28 <= days <= 31 /\ 0 <= firstDay <= 6.
Proof.
  assert (fromYMD 0 2024 1 15 = Some 1707955200000) as ->
    by (vm_compute; reflexivity).
  assert (~ 0 <= YearFromTime (1707955200000 + 0) <= 99) as Hyear
    by (vm_compute; intros [_ H]; apply H; reflexivity).
  assert (- maxTime + 31 * msPerDay <= 1707955200000
          <= maxTime - 31 * msPerDay) as Hrange
    by (vm_compute; split; discriminate).
  destruct (getDaysInMonth_of_date 0 1707955200000 Hyear Hrange)
    as (days & firstDay & Hrun & _ & Hdays & _ & Hfirst & _).
  exists days, firstDay. split; [exact Hrun|]. split; assumption.
Defined.

(** ** The grid of the calendar screen *)

Module CalendarGridFacts.
Import JSDate DateFields Calendar Screen.

(** Where a cell of the concatenation sits when every row but the last
    has seven cells. *)
Lemma concat_lookup_weeks {A} (rows : list (list A)) (p : nat) (c : A) :
  (forall i row,
     rows !! i = Some row -> (S i < length rows)%nat -> length row = 7%nat) ->
  Forall (fun row => (length row <= 7)%nat) rows ->
  concat rows !! p = Some c ->
  exists row, rows !! (p / 7)%nat = Some row /\ row !! (p mod 7)%nat = Some c.
Proof.
  revert p. induction rows as [|row rows IH]; intros p Hfull Hlen Hp.
  { done. }
  apply Forall_cons in Hlen as [Hrow Hlen]. cbn [concat] in Hp.
  destruct (decide (p < length row)%nat) as [Hlt|Hge].
  - rewrite lookup_app_l in Hp by done. exists row.
    rewrite Nat.div_small, Nat.mod_small by lia. done.
  - rewrite lookup_app_r in Hp by lia.
    destruct rows as [|row' rows']; [done|].
    assert (length row = 7%nat) as Hseven
      by (apply (Hfull 0%nat); [done|cbn; lia]).
    rewrite Hseven in Hp.
    destruct (IH (p - 7)%nat) as (r & Hr & Hc); [|done|done|].
    { intros i r Hi Hl. apply (Hfull (S i)); [done|cbn in *; lia]. }
    assert (p = ((p - 7) + 1 * 7)%nat) as Hsplit by lia.
    exists r. rewrite Hsplit, Nat.div_add, Nat.Div0.mod_add by done.
    by rewrite Nat.add_1_r.
Qed.

Section Grid.
Variable LocalTZA : Z.
Variable Date_parse : string -> Date.
Variable st : State.
Variable clock : Z -> Date.

Local Abbreviation cellOf := (dayCell LocalTZA Date_parse st clock).
Local Abbreviation loop := (daysLoop LocalTZA Date_parse st clock).

Lemma endsWeek_eq days f day :
  0 <= f -> 0 <= day ->
  endsWeek (Some days) (Some f) day
  = ((f + day) mod 7 =? 0) || (day =? days).
Proof.
  intros Hf Hday. unfold endsWeek. cbn.
  by rewrite Z.rem_mod_nonneg by lia.
Qed.

Lemma emptyCells_length f :
  0 <= f -> Z.of_nat (length (emptyCells (Some f))) = f.
Proof.
  intros Hf. cbn. rewrite length_map, length_seq. lia.
Qed.

(** The invariant of the second loop of [renderCalendar]: entering the
    iteration of [day], the week collects the cells of the columns
    before the column of [day]. *)
Lemma daysLoop_rows days f :
  0 <= f ->
  forall remaining day week calendar,
    1 <= day -> day + Z.of_nat remaining = days + 1 ->
    Z.of_nat (length week) = (f + day - 1) mod 7 ->
    exists rows,
      loop (Some days) (Some f) remaining day week calendar
      = calendar ++ rows /\
      (remaining <> O ->
       concat rows.*2
       = week ++ map cellOf (seqZ day (Z.of_nat remaining))) /\
      Forall (fun row => (1 <= length row.2 <= 7)%nat) rows /\
      (forall i row,
         rows !! i = Some row -> (S i < length rows)%nat ->
         length row.2 = 7%nat) /\
      Forall (fun row => last row.2 = Some (cellOf row.1)) rows.
Proof.
  intros Hf. induction remaining as [|r IH]; intros day week calendar
    Hday Hsum Hweek.
  { exists []. rewrite app_nil_r. by split_and!. }
  cbn [daysLoop]. rewrite endsWeek_eq by lia.
  assert (seqZ day (Z.of_nat (S r)) = day :: seqZ (day + 1) (Z.of_nat r))
    as Hseq.
  { rewrite seqZ_cons by lia. f_equal. f_equal; lia. }
  pose proof (Z.mod_pos_bound (f + day - 1) 7 ltac:(done)) as Hcol.
  assert (length (week ++ [cellOf day])
          = S (Z.to_nat ((f + day - 1) mod 7))) as Hlen.
  { rewrite length_app. cbn. lia. }
  destruct (((f + day) mod 7 =? 0) || (day =? days)) eqn:Hends.
  - destruct r as [|r'].
    + exists [(day, week ++ [cellOf day])].
      split; [done|]. split; [|split; [|split]].
      * intros _. rewrite Hseq. cbn. by rewrite app_nil_r.
      * constructor; [cbn [snd]; lia|constructor].
      * intros i row _ Hi. cbn in Hi. lia.
      * constructor; [cbn [fst snd]; by rewrite last_snoc|constructor].
    + assert ((f + day) mod 7 = 0) as Hzero.
      { apply orb_true_iff in Hends as [H|H]; lia. }
      assert ((f + day - 1) mod 7 = 6) as Hsix
        by (revert Hzero; clear; intros; Z.to_euclidean_division_equations; lia).
      destruct (IH (day + 1) [] (calendar ++ [(day, week ++ [cellOf day])]))
        as (rows & Hrun & Hcells & Hsize & Hfull & Hkeys).
      { lia. }
      { lia. }
      { cbn. replace (f + (day + 1) - 1) with (f + day) by lia. lia. }
      exists ((day, week ++ [cellOf day]) :: rows).
      rewrite Hrun, <- app_assoc. split; [done|].
      split; [|split; [|split]].
      * intros _. rewrite fmap_cons. cbn [concat snd].
        rewrite Hcells by done. rewrite Hseq.
        cbn. by rewrite <- app_assoc.
      * constructor; [cbn [snd]; lia|done].
      * intros [|i] row Hrow Hi.
        -- injection Hrow as <-. cbn [snd]. lia.
        -- apply (Hfull i); [done|cbn in Hi; lia].
      * constructor; [cbn [fst snd]; by rewrite last_snoc|done].
  - apply orb_false_iff in Hends as [Hmod Hlast].
    assert ((f + day) mod 7 = (f + day - 1) mod 7 + 1) as Hnext.
    { apply Z.eqb_neq in Hmod. revert Hmod. clear. intros.
      Z.to_euclidean_division_equations. lia. }
    destruct r as [|r']; [lia|].
    destruct (IH (day + 1) (week ++ [cellOf day]) calendar)
      as (rows & Hrun & Hcells & Hsize & Hfull & Hkeys).
    { lia. }
    { lia. }
    { replace (f + (day + 1) - 1) with (f + day) by lia. lia. }
    exists rows. split; [done|]. split; [|done].
    intros _. rewrite Hcells by done. rewrite Hseq.
    cbn. by rewrite <- app_assoc.
Qed.

(** [renderCalendar] for a valid selected date, in terms of the year
    and the month of the date. *)
Lemma renderCalendar_run tv :
  let t := tv + LocalTZA in
  let y := YearFromTime t in
  let m := MonthFromTime t in
  let rows := renderCalendar LocalTZA Date_parse st clock in
  selectedDate st = Some tv ->
  ~ 0 <= y <= 99 ->
  - maxTime + 31 * msPerDay <= tv <= maxTime - 31 * msPerDay ->
  concat rows.*2
  = emptyCells (Some (WeekDay (MakeDay y m 1 * msPerDay)))
      ++ map cellOf (seqZ 1 (DaysInMonth m (leap_of y))) /\
  Forall (fun row => (1 <= length row.2 <= 7)%nat) rows /\
  (forall i row,
     rows !! i = Some row -> (S i < length rows)%nat ->
     length row.2 = 7%nat) /\
  Forall (fun row => last row.2 = Some (cellOf row.1)) rows.
Proof.
  intros t y m rows Hsel Hyear Hrange.
  destruct (GridFacts.getDaysInMonth_run LocalTZA tv Hyear Hrange)
    as (Hrun & _ & _ & Hdim). fold t y m in Hrun, Hdim.
  set (f := WeekDay (MakeDay y m 1 * msPerDay)) in *.
  set (dim := DaysInMonth m (leap_of y)) in *.
  assert (0 <= f < 7) as Hf by (apply Z.mod_pos_bound; done).
  destruct (daysLoop_rows dim f (proj1 Hf) (Z.to_nat dim) 1
              (emptyCells (Some f)) [])
    as (rows' & Hloop & Hcells & Hsize & Hfull & Hkeys).
  { done. }
  { lia. }
  { rewrite emptyCells_length by lia.
    replace (f + 1 - 1) with f by lia. by rewrite Z.mod_small. }
  assert (rows = rows') as ->.
  { unfold rows, renderCalendar. rewrite Hsel, Hrun. exact Hloop. }
  split; [|done]. rewrite Hcells by lia. by rewrite Z2Nat.id by lia.
Qed.

(** The date of the cell of a day of the selected month. *)
Lemma dayCell_date tv day :
  let t := tv + LocalTZA in
  let y := YearFromTime t in
  let m := MonthFromTime t in
  selectedDate st = Some tv ->
  ~ 0 <= y <= 99 ->
  - maxTime + 31 * msPerDay <= tv <= maxTime - 31 * msPerDay ->
  1 <= day <= DaysInMonth m (leap_of y) ->
  exists isToday hasScheduledMedications,
    cellOf day
    = DayCell day (Some (MakeDay y m day * msPerDay - LocalTZA))
        isToday hasScheduledMedications.
Proof.
  intros t y m Hsel Hyear Hrange Hday.
  destruct (GridFacts.getDaysInMonth_run LocalTZA tv Hyear Hrange)
    as (_ & Hfirst & Hk & Hdim). fold t y m in Hfirst, Hk, Hdim.
  assert (Day t * msPerDay <= t < Day t * msPerDay + msPerDay) as Hfloor.
  { unfold Day. pose proof (Z.div_mod t msPerDay ltac:(done)).
    pose proof (Z.mod_pos_bound t msPerDay ltac:(done)). lia. }
  assert (MakeDay y m day = MakeDay y m 1 + (day - 1)) as Hshift.
  { rewrite <- MonthFacts.MakeDay_shift. f_equal. lia. }
  unfold dayCell. rewrite Hsel. cbn [getFullYear getMonth].
  unfold LocalTime. fold t y m.
  rewrite (MonthFacts.newDate_valid _ y m day);
    [|done|rewrite Hshift, Hfirst; unfold t in *; unfold msPerDay in *; lia].
  by eexists _, _.
Qed.

End Grid.
End CalendarGridFacts.

Import CalendarGridFacts.

(** X25: for a valid selected date, the weeks of [renderCalendar] read
    in order are the empty cells of the first loop followed by the cells
    of the days 1 to [days]; every week has between one and seven cells,
    every week but the last has exactly seven, and the key of a week is
    the day of its last cell. *)
Theorem renderCalendar_weeks LocalTZA Date_parse st clock tv :
  selectedDate st = Some tv ->
  ~ 0 <= YearFromTime (tv + LocalTZA) <= 99 ->
  - maxTime + 31 * msPerDay <= tv <= maxTime - 31 * msPerDay ->
  exists days firstDay,
    getDaysInMonth LocalTZA (selectedDate st) = (Some days, Some firstDay) /\
    concat (renderCalendar LocalTZA Date_parse st clock).*2
    = emptyCells (Some firstDay)
        ++ map (dayCell LocalTZA Date_parse st clock) (seqZ 1 days) /\
    Forall (fun row => (1 <= length row.2 <= 7)%nat)
      (renderCalendar LocalTZA Date_parse st clock) /\
    (forall i row,
       renderCalendar LocalTZA Date_parse st clock !! i = Some row ->
       (S i < length (renderCalendar LocalTZA Date_parse st clock))%nat ->
       length row.2 = 7%nat) /\
    Forall
      (fun row => last row.2 = Some (dayCell LocalTZA Date_parse st clock row.1))
      (renderCalendar LocalTZA Date_parse st clock).
Proof.
  intros Hsel Hyear Hrange.
  destruct (getDaysInMonth_run LocalTZA tv Hyear Hrange) as (Hrun & _).
  eexists _, _. rewrite Hsel. split; [exact Hrun|].
  exact (renderCalendar_run LocalTZA Date_parse st clock tv Hsel Hyear Hrange).
Qed.

Lemma renderCalendar_weeks_witness :
  exists days firstDay,
    getDaysInMonth 0 (fromYMD 0 2024 1 15) = (Some days, Some firstDay) /\
    concat (renderCalendar 0 ISO.Date_parse
              (mkState (fromYMD 0 2024 1 15) [Sample.amoxicillin; Sample.vitaminD] [])
              (fun _ => fromYMD 0 2024 1 15)).*2
    = emptyCells (Some firstDay)
        ++ map (dayCell 0 ISO.Date_parse
                  (mkState (fromYMD 0 2024 1 15) [Sample.amoxicillin; Sample.vitaminD] [])
                  (fun _ => fromYMD 0 2024 1 15))
             (seqZ 1 days).
Proof.
  assert (fromYMD 0 2024 1 15 = Some 1707955200000) as ->
    by (vm_compute; reflexivity).
  assert (~ 0 <= YearFromTime (1707955200000 + 0) <= 99) as Hyear
    by (vm_compute; intros [_ H]; apply H; reflexivity).
  assert (- maxTime + 31 * msPerDay <= 1707955200000
          <= maxTime - 31 * msPerDay) as Hrange
    by (vm_compute; split; discriminate).
  destruct (renderCalendar_weeks 0 ISO.Date_parse
              (mkState (Some 1707955200000) [Sample.amoxicillin; Sample.vitaminD] [])
              (fun _ => Some 1707955200000) 1707955200000
              eq_refl Hyear Hrange)
    as (days & firstDay & Hrun & Hcells & _).
  exists days, firstDay. split; [exact Hrun|exact Hcells].
Defined.

(** X26: for a valid selected date, the cell of every day of the month
    holds the local midnight of that day, and [renderCalendar] puts it
    in the week [(firstDay + day - 1) / 7], in the column of the week
    day of its date (0 is Sunday). *)
Theorem renderCalendar_columns LocalTZA Date_parse st clock tv day :
  selectedDate st = Some tv ->
  ~ 0 <= YearFromTime (tv + LocalTZA) <= 99 ->
  - maxTime + 31 * msPerDay <= tv <= maxTime - 31 * msPerDay ->
  1 <= day
  <= DaysInMonth (MonthFromTime (tv + LocalTZA)) (InLeapYear (tv + LocalTZA)) ->
  exists days firstDay dtv isToday hasScheduledMedications row,
    getDaysInMonth LocalTZA (selectedDate st) = (Some days, Some firstDay) /\
    dayCell LocalTZA Date_parse st clock day
    = DayCell day (Some dtv) isToday hasScheduledMedications /\
    TimeWithinDay (LocalTime LocalTZA dtv) = 0 /\
    DateFromTime (LocalTime LocalTZA dtv) = day /\
    renderCalendar LocalTZA Date_parse st clock
      !! Z.to_nat ((firstDay + day - 1) / 7) = Some row /\
    row.2 !! Z.to_nat (WeekDay (LocalTime LocalTZA dtv))
    = Some (dayCell LocalTZA Date_parse st clock day).
Proof.
  intros Hsel Hyear Hrange Hday. rewrite InLeapYear_leap_of in Hday.
  destruct (getDaysInMonth_run LocalTZA tv Hyear Hrange)
    as (Hrun & Hfirst & Hk & Hdim).
  destruct (renderCalendar_run LocalTZA Date_parse st clock tv
              Hsel Hyear Hrange) as (Hcells & Hsize & Hfull & _).
  destruct (dayCell_date LocalTZA Date_parse st clock tv day
              Hsel Hyear Hrange Hday) as (isToday & marked & Hcell).
  set (t := tv + LocalTZA) in *. set (y := YearFromTime t) in *.
  set (m := MonthFromTime t) in *.
  set (dim := DaysInMonth m (leap_of y)) in *.
  set (f := WeekDay (MakeDay y m 1 * msPerDay)) in *.
  set (rows := renderCalendar LocalTZA Date_parse st clock) in *.
  assert (0 <= f < 7) as Hf by (apply Z.mod_pos_bound; done).
  assert (MakeDay y m day = MakeDay y m 1 + (day - 1)) as Hshift.
  { rewrite <- MakeDay_shift. f_equal. lia. }
  assert (LocalTime LocalTZA (MakeDay y m day * msPerDay - LocalTZA)
          = MakeDay y m day * msPerDay) as Hlocal
    by (unfold LocalTime; lia).
  assert (WeekDay (MakeDay y m day * msPerDay) = (f + day - 1) mod 7) as Hcol.
  { unfold f. rewrite !WeekDay_midnight, Hshift.
    rewrite <- Z.add_sub_assoc, Z.add_mod_idemp_l by done. f_equal. lia. }
  set (p := Z.to_nat (f + day - 1)).
  assert (concat rows.*2 !! p
          = Some (dayCell LocalTZA Date_parse st clock day)) as Hp.
  { rewrite Hcells.
    assert (length (emptyCells (Some f)) = Z.to_nat f) as Hempty.
    { pose proof (emptyCells_length f (proj1 Hf)). lia. }
    rewrite lookup_app_r by (rewrite Hempty; unfold p; lia).
    rewrite Hempty, list_lookup_fmap.
    replace (p - Z.to_nat f)%nat with (Z.to_nat (day - 1)) by (unfold p; lia).
    rewrite lookup_seqZ_lt by lia. cbn. f_equal. f_equal. lia. }
  destruct (concat_lookup_weeks rows.*2 p
              (dayCell LocalTZA Date_parse st clock day))
    as (cells & Hrow & Hcellp); [| |exact Hp|].
  { intros i cells Hi Hlen. rewrite length_fmap in Hlen.
    apply list_lookup_fmap_Some in Hi as (row & -> & Hi).
    by apply (Hfull i). }
  { apply Forall_fmap. eapply Forall_impl; [exact Hsize|].
    intros row [_ Hrow]. exact Hrow. }
  apply list_lookup_fmap_Some in Hrow as (row & -> & Hrow).
  assert (Z.to_nat ((f + day - 1) / 7) = (p / 7)%nat) as Hweek.
  { apply Nat2Z.inj. rewrite Nat2Z.inj_div, Z2Nat.id.
    - unfold p. by rewrite Z2Nat.id by lia.
    - apply Z.div_pos; lia. }
  assert (Z.to_nat ((f + day - 1) mod 7) = (p mod 7)%nat) as Hcolumn.
  { apply Nat2Z.inj. rewrite Nat2Z.inj_mod, Z2Nat.id.
    - unfold p. by rewrite Z2Nat.id by lia.
    - apply Z.mod_pos_bound. done. }
  exists dim, f, (MakeDay y m day * msPerDay - LocalTZA), isToday, marked, row.
  rewrite Hsel, Hlocal, Hcol, Hweek, Hcolumn.
  split; [exact Hrun|]. split; [exact Hcell|].
  split; [unfold TimeWithinDay; by rewrite Z.mod_mul|].
  split; [|by split].
  apply (fields_of_MakeDay _ y m day); [apply MonthFromTime_range|done|].
  unfold Day at 1. by rewrite Z.div_mul.
Qed.

Lemma renderCalendar_columns_witness :
  exists days firstDay dtv isToday hasScheduledMedications row,
    getDaysInMonth 0 (fromYMD 0 2024 1 15) = (Some days, Some firstDay) /\
    dayCell 0 ISO.Date_parse
      (mkState (fromYMD 0 2024 1 15) [Sample.amoxicillin; Sample.vitaminD] [])
      (fun _ => fromYMD 0 2024 1 15) 29
    = DayCell 29 (Some dtv) isToday hasScheduledMedications /\
    renderCalendar 0 ISO.Date_parse
      (mkState (fromYMD 0 2024 1 15) [Sample.amoxicillin; Sample.vitaminD] [])
      (fun _ => fromYMD 0 2024 1 15)
      !! Z.to_nat ((firstDay + 29 - 1) / 7) = Some row /\
    row.2 !! Z.to_nat (WeekDay (LocalTime 0 dtv))
    = Some (dayCell 0 ISO.Date_parse
              (mkState (fromYMD 0 2024 1 15) [Sample.amoxicillin; Sample.vitaminD] [])
              (fun _ => fromYMD 0 2024 1 15) 29).
Proof.
  assert (fromYMD 0 2024 1 15 = Some 1707955200000) as ->
    by (vm_compute; reflexivity).
  assert (~ 0 <= YearFromTime (1707955200000 + 0) <= 99) as Hyear
    by (vm_compute; intros [_ H]; apply H; reflexivity).
  assert (- maxTime + 31 * msPerDay <= 1707955200000
          <= maxTime - 31 * msPerDay) as Hrange
    by (vm_compute; split; discriminate).
  assert (1 <= 29 <= DaysInMonth (MonthFromTime (1707955200000 + 0))
                       (InLeapYear (1707955200000 + 0))) as Hday
    by (vm_compute; split; discriminate).
  destruct (renderCalendar_columns 0 ISO.Date_parse
              (mkState (Some 1707955200000) [Sample.amoxicillin; Sample.vitaminD] [])
              (fun _ => Some 1707955200000) 1707955200000 29
              eq_refl Hyear Hrange Hday)
    as (days & firstDay & dtv & isToday & marked & row
        & Hrun & Hcell & _ & _ & Hrow & Hcolumn).
  exists days, firstDay, dtv, isToday, marked, row.
  split; [exact Hrun|]. split; [exact Hcell|]. split; [exact Hrow|].
  exact Hcolumn.
Defined.

(** ** The cards of the selected day and the Take button *)

Module ScreenFacts.
Import JSDate DateFields Calendar JSON JSONFacts Async Storage Repository.
Import StorageFacts Today Screen.
Local Open Scope promise_scope.

(** The logs of [meds.forEach] leave the store alone. *)
Lemma log_each_run {A} (meds : list A) w :
  exists w',
    fold_right (fun (med : A) k => console_log "Medication:";; k) (ret tt)
      meds w
    = (Return tt, w') /\
    items w' = items w /\ faults w' = faults w /\
    writes (events w') = writes (events w).
Proof.
  revert w. induction meds as [|med meds IH]; intros w.
  { by exists w. }
  cbn [fold_right]. unfold bind at 1. unfold console_log at 1.
  destruct (IH (emit (ConsoleLog "Medication:") w))
    as (w' & Hrun & Hitems & Hfaults & Hwrites).
  exists w'. rewrite Hrun. split; [done|]. rewrite Hitems, Hfaults, Hwrites.
  split; [done|]. split; [done|].
  unfold writes. cbn. rewrite List.filter_app. cbn. by rewrite app_nil_r.
Qed.

Lemma loadData_run st w :
  exists w1 w',
    loadData st w
    = (Return (mkState (selectedDate st) (read MEDICATIONS_KEY w)
                 (read DOSE_HISTORY_KEY w1)), w') /\
    read_frame w w1 /\
    items w' = items w /\
    faults w' = tail (tail (faults w)) /\
    writes (events w') = writes (events w).
Proof.
  destruct (getMedications_run w) as (w1 & Hrun1 & Hframe1).
  destruct (getDoseHistory_run w1) as (w2 & Hrun2 & Hframe2).
  destruct (log_each_run (read (A:=Medication) MEDICATIONS_KEY w)
              (emit (ConsoleLog "Calendar loaded dose history:")
                 (emit (ConsoleLog "Calendar loaded medications:") w2)))
    as (w3 & Hrun3 & Hitems & Hfaults & Hwrites).
  exists w1, w3. split; [|split; [done|]].
  - unfold loadData, try_catch, bind. rewrite Hrun1, Hrun2.
    change (console_log "Calendar loaded medications:" w2)
      with (Return tt, emit (ConsoleLog "Calendar loaded medications:") w2).
    cbv beta iota.
    change (console_log "Calendar loaded dose history:"
              (emit (ConsoleLog "Calendar loaded medications:") w2))
      with (Return tt,
            emit (ConsoleLog "Calendar loaded dose history:")
              (emit (ConsoleLog "Calendar loaded medications:") w2)).
    cbv beta iota. unfold bind in Hrun3. by rewrite Hrun3.
  - destruct Hframe1 as (Hi1 & Hf1 & _ & Hw1 & _).
    destruct Hframe2 as (Hi2 & Hf2 & _ & Hw2 & _).
    rewrite Hitems, Hfaults, Hwrites. cbn.
    rewrite Hi2, Hi1, Hf2, Hf1. split; [done|]. split; [done|].
    unfold writes in *. rewrite !List.filter_app. cbn.
    by rewrite !app_nil_r, Hw2, Hw1.
Qed.

(** On a store that resolves every call, a read returns the stored
    list. *)
Lemma read_resolved {A} `{Lossless A} key w (l : list A) :
  faults w = [] -> stored key (items w) l -> read key w = l.
Proof.
  intros Hfaults Hl. unfold read, next_fault. rewrite Hfaults. cbn.
  by apply stored_parsed.
Qed.

(** The Take button on a store that resolves every call. *)
Lemma pressTake_run st it rs ev
    (L : list Medication) (H : list DoseHistory) medication timestamp :
  stored MEDICATIONS_KEY it L ->
  stored DOSE_HISTORY_KEY it H ->
  exists w',
    pressTake st medication timestamp (mkWorld it [] rs ev)
    = (Return
         (mkState (selectedDate st)
            (take_dose (Medication.id medication) L)
            (H ++ [DoseHistory.mk (next_id rs) (Medication.id medication)
                     timestamp true])),
       w').
Proof.
  intros HL HH.
  destruct (recordDose_ok it rs ev L H (Medication.id medication) true
              timestamp HL HH) as (it' & ev' & Hrun & HH' & HL' & _).
  destruct (loadData_run st (mkWorld it' [] (tail rs) ev'))
    as (w1 & w' & Hload & (Hi1 & Hf1 & _) & _).
  exists w'. unfold pressTake, bind. rewrite Hrun, Hload.
  rewrite (read_resolved MEDICATIONS_KEY
             (mkWorld it' [] (tail rs) ev')
             (take_dose (Medication.id medication) L)) by done.
  rewrite (read_resolved DOSE_HISTORY_KEY w1
             (H ++ [DoseHistory.mk (next_id rs) (Medication.id medication)
                      timestamp true])); [done|by rewrite Hf1|].
  by rewrite Hi1.
Qed.

Section Cards.
Variable LocalTZA : Z.
Variable Date_parse : string -> Date.

(** What a card of [renderMedicationsForDate] holds. *)
Lemma card_of_render st cards c :
  renderMedicationsForDate LocalTZA Date_parse st = Cards cards ->
  In c cards ->
  In (cardMedication c) (medications st) /\
  isMedicationScheduledForDate LocalTZA Date_parse (cardMedication c)
    (selectedDate st) = true /\
  scheduledTimes c = Medication.times (cardMedication c) /\
  taken c
  = takenAmong
      (List.filter
         (onDay LocalTZA Date_parse (toDateString LocalTZA (selectedDate st)))
         (doseHistory st))
      (cardMedication c).
Proof.
  unfold renderMedicationsForDate. destruct (_ =? _)%nat; [done|].
  intros [= <-] Hin. apply in_map_iff in Hin as (medication & <- & Hin).
  apply filter_In in Hin as [Hin Hsched]. cbn.
  unfold getScheduledTimesForDate. by rewrite Hsched.
Qed.

Lemma takenAmong_true dayDoses medication :
  takenAmong dayDoses medication = true <->
  exists dose,
    In dose dayDoses /\
    DoseHistory.medicationId dose = Medication.id medication /\
    DoseHistory.taken dose = true.
Proof.
  unfold takenAmong. rewrite existsb_exists.
  split; intros (dose & Hin & Hdose); exists dose; split; try done.
  - apply andb_true_iff in Hdose as [Hid ->].
    by apply String.eqb_eq in Hid.
  - destruct Hdose as [-> ->]. by rewrite String.eqb_refl.
Qed.

End Cards.
End ScreenFacts.

Import ScreenFacts.

(** X27: [renderMedicationsForDate] shows the notice that nothing is
    scheduled exactly when no medication of the state is scheduled for
    the selected date.  Otherwise it shows one card for every scheduled
    medication, in the order of the state; every card carries all the
    times of its medication, and it shows the badge instead of the
    button exactly when the dose history has a taken dose of that
    medication whose time stamp has the date string of the selected
    date. *)
Theorem renderMedicationsForDate_cards LocalTZA Date_parse st :
  match renderMedicationsForDate LocalTZA Date_parse st with
  | NoMedications =>
      forall medication,
        In medication (medications st) ->
        isMedicationScheduledForDate LocalTZA Date_parse medication
          (selectedDate st) = false
  | Cards cards =>
      cards <> [] /\
      map cardMedication cards
      = List.filter
          (fun medication =>
             isMedicationScheduledForDate LocalTZA Date_parse medication
               (selectedDate st))
          (medications st) /\
      forall c,
        In c cards ->
        scheduledTimes c = Medication.times (cardMedication c) /\
        (taken c = true <->
         exists dose,
           In dose (doseHistory st) /\
           toDateString LocalTZA (Date_parse (DoseHistory.timestamp dose))
           = toDateString LocalTZA (selectedDate st) /\
           DoseHistory.medicationId dose
           = Medication.id (cardMedication c) /\
           DoseHistory.taken dose = true)
  end.
Proof.
  destruct (renderMedicationsForDate LocalTZA Date_parse st) as [|cards]
    eqn:Hrender.
  - intros medication Hin. revert Hrender. unfold renderMedicationsForDate.
    destruct (List.filter _ (medications st)) as [|scheduled others]
      eqn:Hfilter; [intros _|done].
    destruct (isMedicationScheduledForDate _ _ medication _) eqn:Hsched;
      [|done].
    assert (In medication []) as []. rewrite <- Hfilter.
    apply filter_In. by split.
  - split; [|split].
    + revert Hrender. unfold renderMedicationsForDate.
      destruct (List.filter _ (medications st)); [done|].
      by intros [= <-].
    + revert Hrender. unfold renderMedicationsForDate.
      destruct (_ =? _)%nat; [done|]. intros [= <-].
      rewrite map_map. cbn. apply map_id.
    + intros c Hin.
      destruct (card_of_render LocalTZA Date_parse st cards c Hrender Hin)
        as (_ & _ & Htimes & ->).
      split; [done|]. rewrite takenAmong_true.
      split; intros (dose & Hdose & Hrest); exists dose.
      * apply filter_In in Hdose as [Hdose Hday].
        apply bool_decide_eq_true in Hday. destruct Hrest. by split_and!.
      * destruct Hrest as (Hday & Hid & Htaken). split; [|done].
        apply filter_In. split; [done|]. by apply bool_decide_eq_true.
Qed.

(** X28: [loadData] never rejects and never writes: whatever the store
    holds and does, it makes its two reads, leaves the items as they
    are and keeps the selected date.  When each of the two items is a
    stored list, is absent or is text that is not JSON, the state holds
    afterwards what the two reads return: the stored list, and the empty
    list for a read that is rejected, instead of the list shown
    before. *)
Theorem loadData_never_rejects st w :
  (exists st' w',
     loadData st w = (Return st', w') /\
     selectedDate st' = selectedDate st /\
     items w' = items w /\
     faults w' = tail (tail (faults w)) /\
     writes (events w') = writes (events w)) /\
  (forall (L : list Medication) (H : list DoseHistory),
     readable MEDICATIONS_KEY (items w) L ->
     readable DOSE_HISTORY_KEY (items w) H ->
     exists w',
       loadData st w
       = (Return
            (mkState (selectedDate st)
               (if default false (head (faults w)) then [] else L)
               (if default false (head (tail (faults w))) then [] else H)),
          w')).
Proof.
  destruct (loadData_run st w) as (w1 & w' & Hrun & Hframe & Hrest).
  destruct Hframe as (Hi & Hf & _). split.
  { eexists _, w'. split; [exact Hrun|]. by split. }
  intros L H HL HH. exists w'. rewrite Hrun. do 3 f_equal.
  - unfold read, next_fault.
    assert (parsed (items w !! MEDICATIONS_KEY) = L) as <-.
    { destruct HL as [HL|(s & -> & ->)]; [by apply stored_parsed|done]. }
    by destruct (faults w) as [|[] fs].
  - unfold read, next_fault. rewrite Hf, Hi.
    assert (parsed (items w !! DOSE_HISTORY_KEY) = H) as <-.
    { destruct HH as [HH|(s & -> & ->)]; [by apply stored_parsed|done]. }
    by destruct (tail (faults w)) as [|[] fs].
Qed.

Lemma loadData_never_rejects_witness :
  exists w',
    loadData (mkState (ISO.Date_parse "2024-01-11") [Sample.asNeeded] [])
      (mkWorld (<[MEDICATIONS_KEY := Raw "[{"]> Sample.items)
         [false; true] [] [])
    = (Return (mkState (ISO.Date_parse "2024-01-11") [] []), w').
Proof.
  assert (readable MEDICATIONS_KEY
            (items (mkWorld (<[MEDICATIONS_KEY := Raw "[{"]> Sample.items)
                      [false; true] [] []))
            (@nil Medication)) as HL.
  { right. exists "[{". split; reflexivity. }
  assert (readable DOSE_HISTORY_KEY
            (items (mkWorld (<[MEDICATIONS_KEY := Raw "[{"]> Sample.items)
                      [false; true] [] []))
            [Sample.dose1; Sample.dose2]) as HH.
  { left. right. vm_compute. reflexivity. }
  destruct (loadData_never_rejects
              (mkState (ISO.Date_parse "2024-01-11") [Sample.asNeeded] [])
              (mkWorld (<[MEDICATIONS_KEY := Raw "[{"]> Sample.items)
                 [false; true] [] []))
    as [_ Hstate].
  exact (Hstate _ _ HL HH).
Defined.

(** X29: on a store that resolves every call, the Take button of a
    card, pressed at a time whose date string is that of the selected
    date, records the dose, lowers the supply and reloads: after it,
    every card of that medication shows the badge. *)
Theorem pressTake_shows_taken LocalTZA Date_parse st it rs ev
    (L : list Medication) (H : list DoseHistory) medication timestamp :
  stored MEDICATIONS_KEY it L ->
  stored DOSE_HISTORY_KEY it H ->
  toDateString LocalTZA (Date_parse timestamp)
  = toDateString LocalTZA (selectedDate st) ->
  exists st' w',
    pressTake st medication timestamp (mkWorld it [] rs ev)
    = (Return st', w') /\
    selectedDate st' = selectedDate st /\
    medications st' = take_dose (Medication.id medication) L /\
    doseHistory st'
    = H ++ [DoseHistory.mk (next_id rs) (Medication.id medication)
              timestamp true] /\
    forall cards c,
      renderMedicationsForDate LocalTZA Date_parse st' = Cards cards ->
      In c cards ->
      Medication.id (cardMedication c) = Medication.id medication ->
      taken c = true.
Proof.
  intros HL HH Hday.
  destruct (pressTake_run st it rs ev L H medication timestamp HL HH)
    as (w' & Hrun).
  eexists _, w'. split; [exact Hrun|]. split_and!; try done.
  intros cards c Hrender Hin Hid.
  destruct (card_of_render LocalTZA Date_parse _ cards c Hrender Hin)
    as (_ & _ & _ & ->).
  apply takenAmong_true. cbn [selectedDate doseHistory].
  exists (DoseHistory.mk (next_id rs) (Medication.id medication)
            timestamp true).
  split; [|by rewrite Hid]. apply filter_In. split.
  - apply in_app_iff. right. by left.
  - by apply bool_decide_eq_true.
Qed.

Lemma pressTake_shows_taken_witness :
  exists st' w',
    pressTake (mkState (ISO.Date_parse "2024-01-11") [] []) Sample.vitaminD
      "2024-01-11T08:00:00.000Z" Sample.world
    = (Return st', w') /\
    doseHistory st'
    = [Sample.dose1; Sample.dose2;
       DoseHistory.mk "q1w2e3r4t" "m2" "2024-01-11T08:00:00.000Z" true] /\
    forall cards c,
      renderMedicationsForDate 0 ISO.Date_parse st' = Cards cards ->
      In c cards ->
      Medication.id (cardMedication c) = "m2" ->
      taken c = true.
Proof.
  assert (stored MEDICATIONS_KEY Sample.items
            [Sample.amoxicillin; Sample.vitaminD; Sample.zeroDays]) as HL
    by (right; vm_compute; reflexivity).
  assert (stored DOSE_HISTORY_KEY Sample.items [Sample.dose1; Sample.dose2])
    as HH by (right; vm_compute; reflexivity).
  assert (toDateString 0 (ISO.Date_parse "2024-01-11T08:00:00.000Z")
          = toDateString 0
              (selectedDate (mkState (ISO.Date_parse "2024-01-11") [] [])))
    as Hday by (vm_compute; reflexivity).
  destruct (pressTake_shows_taken 0 ISO.Date_parse
              (mkState (ISO.Date_parse "2024-01-11") [] [])
              Sample.items ["q1w2e3r4t"; "z9y8x7w6v"] []
              _ _ Sample.vitaminD "2024-01-11T08:00:00.000Z" HL HH Hday)
    as (st' & w' & Hrun & _ & _ & Hdoses & Hcards).
  exists st', w'. split; [exact Hrun|]. split; [exact Hdoses|exact Hcards].
Defined.

(** X30: on a store that resolves every call, the Take button pressed
    at a time whose date string is not that of the selected date
    records the dose and lowers the supply all the same; when the dose
    history had no taken dose of the medication on the selected date,
    the cards of the medication keep the button. *)
Theorem pressTake_on_another_day LocalTZA Date_parse st it rs ev
    (L : list Medication) (H : list DoseHistory) medication timestamp :
  stored MEDICATIONS_KEY it L ->
  stored DOSE_HISTORY_KEY it H ->
  toDateString LocalTZA (Date_parse timestamp)
  <> toDateString LocalTZA (selectedDate st) ->
  (forall dose,
     In dose H ->
     DoseHistory.medicationId dose = Medication.id medication ->
     DoseHistory.taken dose = true ->
     toDateString LocalTZA (Date_parse (DoseHistory.timestamp dose))
     <> toDateString LocalTZA (selectedDate st)) ->
  exists st' w',
    pressTake st medication timestamp (mkWorld it [] rs ev)
    = (Return st', w') /\
    medications st' = take_dose (Medication.id medication) L /\
    doseHistory st'
    = H ++ [DoseHistory.mk (next_id rs) (Medication.id medication)
              timestamp true] /\
    forall cards c,
      renderMedicationsForDate LocalTZA Date_parse st' = Cards cards ->
      In c cards ->
      Medication.id (cardMedication c) = Medication.id medication ->
      taken c = false.
Proof.
  intros HL HH Hday Hnone.
  destruct (pressTake_run st it rs ev L H medication timestamp HL HH)
    as (w' & Hrun).
  eexists _, w'. split; [exact Hrun|]. split_and!; try done.
  intros cards c Hrender Hin Hid.
  destruct (card_of_render LocalTZA Date_parse _ cards c Hrender Hin)
    as (_ & _ & _ & ->).
  apply not_true_is_false. intros Htaken.
  apply takenAmong_true in Htaken as (dose & Hdose & Hmed & Htaken).
  cbn [selectedDate doseHistory] in Hdose.
  apply filter_In in Hdose as [Hdose Hon].
  apply bool_decide_eq_true in Hon.
  apply in_app_iff in Hdose as [Hdose|[<-|[]]].
  - apply (Hnone dose); [done|by rewrite Hmed|done|done].
  - by apply Hday.
Qed.

Lemma pressTake_on_another_day_witness :
  exists st' w',
    pressTake (mkState (ISO.Date_parse "2024-01-11") [] []) Sample.vitaminD
      "2024-01-12T08:00:00.000Z" Sample.world
    = (Return st', w') /\
    doseHistory st'
    = [Sample.dose1; Sample.dose2;
       DoseHistory.mk "q1w2e3r4t" "m2" "2024-01-12T08:00:00.000Z" true] /\
    forall cards c,
      renderMedicationsForDate 0 ISO.Date_parse st' = Cards cards ->
      In c cards ->
      Medication.id (cardMedication c) = "m2" ->
      taken c = false.
Proof.
  assert (stored MEDICATIONS_KEY Sample.items
            [Sample.amoxicillin; Sample.vitaminD; Sample.zeroDays]) as HL
    by (right; vm_compute; reflexivity).
  assert (stored DOSE_HISTORY_KEY Sample.items [Sample.dose1; Sample.dose2])
    as HH by (right; vm_compute; reflexivity).
  assert (toDateString 0 (ISO.Date_parse "2024-01-12T08:00:00.000Z")
          <> toDateString 0
               (selectedDate (mkState (ISO.Date_parse "2024-01-11") [] [])))
    as Hday by (vm_compute; discriminate).
  assert (forall dose,
            In dose [Sample.dose1; Sample.dose2] ->
            DoseHistory.medicationId dose = Medication.id Sample.vitaminD ->
            DoseHistory.taken dose = true ->
            toDateString 0 (ISO.Date_parse (DoseHistory.timestamp dose))
            <> toDateString 0
                 (selectedDate (mkState (ISO.Date_parse "2024-01-11") [] [])))
    as Hnone.
  { intros dose [<-|[<-|[]]] Hid _; [discriminate Hid|].
    vm_compute. discriminate. }
  destruct (pressTake_on_another_day 0 ISO.Date_parse
              (mkState (ISO.Date_parse "2024-01-11") [] [])
              Sample.items ["q1w2e3r4t"; "z9y8x7w6v"] []
              _ _ Sample.vitaminD "2024-01-12T08:00:00.000Z" HL HH Hday Hnone)
    as (st' & w' & Hrun & _ & Hdoses & Hcards).
  exists st', w'. split; [exact Hrun|]. split; [exact Hdoses|exact Hcards].
Defined.
